(** * The ARM Generic Interrupt Controller driver, [arch/arm/common/gic.c]

    A shallow embedding of the driver: every C function becomes a
    computation in a small state-and-fault monad over

    - the driver's own data ([gic_data], [gic_cpu_base_addr]),
    - the register windows of the controllers,
    - the descriptor registry of the generic IRQ layer, and
    - a trace of everything observable from outside the function: lock
      operations, register accesses, barriers, warnings and calls into
      other kernel subsystems.

    The file is built with [CONFIG_PM] and [CONFIG_SMP] enabled;
    [CONFIG_MSM_MPM] and [CONFIG_MSM_RPM] are configuration switches. *)

From Stdlib Require Import ZArith Bool Lia.
From stdpp Require Import base option list gmap.

#[local] Open Scope Z_scope.

(** ** 32-bit arithmetic *)

Module U32.

(** [unsigned int] and [u32] values are integers in [0, 2^32). *)
Definition wrap (x : Z) : Z := x mod 2 ^ 32.

(** [~x] on a 32-bit operand. *)
Definition not (x : Z) : Z := wrap (Z.lnot x).

(** [x << n] on a 32-bit operand. *)
Definition shl (x n : Z) : Z := wrap (Z.shiftl x n).

End U32.

(** ** Constants of headers that the driver includes *)

(** Modelled from the spec: the register layout of the two windows
    ([asm/hardware/gic.h] is not among the sources).  Enable, pending and
    active registers hold 1 bit per line and 32 lines per word, priority and
    target registers 1 byte per line, configuration registers 2 bits per
    line; the numbers are the offsets of the GIC architecture. *)
Definition GIC_CPU_CTRL : Z := 0x00.
Definition GIC_CPU_PRIMASK : Z := 0x04.
Definition GIC_CPU_INTACK : Z := 0x0c.
Definition GIC_CPU_EOI : Z := 0x10.

Definition GIC_DIST_CTRL : Z := 0x000.
Definition GIC_DIST_CTR : Z := 0x004.
Definition GIC_DIST_ENABLE_SET : Z := 0x100.
Definition GIC_DIST_ENABLE_CLEAR : Z := 0x180.
Definition GIC_DIST_PENDING_SET : Z := 0x200.
Definition GIC_DIST_PENDING_CLEAR : Z := 0x280.
Definition GIC_DIST_PRI : Z := 0x400.
Definition GIC_DIST_TARGET : Z := 0x800.
Definition GIC_DIST_CONFIG : Z := 0xc00.
Definition GIC_DIST_SOFTINT : Z := 0xf00.

(** [linux/irq.h] and [asm-generic/errno-base.h]. *)
Definition IRQ_TYPE_EDGE_RISING : Z := 0x1.
Definition IRQ_TYPE_LEVEL_HIGH : Z := 0x4.
Definition EINVAL : Z := 22.
Definition ENOENT : Z := 2.

(** What the build configuration fixes.  [nr_cpumask_bits] is the number of
    bits of a CPU mask that [linux/cpumask.h] scans: [NR_CPUS] on this
    platform, which has no [CONFIG_CPUMASK_OFFSTACK]. *)
Record kconfig := KConfig {
  NR_IRQS : Z;
  nr_cpumask_bits : Z;
  CONFIG_MSM_MPM : bool;
  CONFIG_MSM_RPM : bool
}.

(** ** Data model *)

(** A [void __iomem *]: a register window and a byte offset into it. *)
Inductive window := DistWin (n : nat) | CpuWin (n : nat).

#[global] Instance window_eq_dec : EqDecision window.
Proof. solve_decision. Defined.

Record iomem := IoMem { io_win : window; io_off : Z }.

Definition io_add (p : iomem) (k : Z) : iomem :=
  IoMem (io_win p) (io_off p + k).

Infix "+@" := io_add (at level 50, left associativity).

(** [struct gic_chip_data]. *)
Record gic_chip_data := GicChipData {
  irq_offset : Z;
  dist_base : iomem;
  cpu_base : iomem;
  max_irq : Z;
  wakeup_irqs : list Z;
  enabled_irqs : list Z
}.

(** The fields of [struct irq_data] that the driver reads or writes.
    [chip_data] and [handler_data] point into [gic_data]: they are array
    indices here, and [None] is the null pointer. *)
Record irq_data := IrqData {
  irq : Z;
  node : Z;
  handler_data : option nat;
  chip_data : nat
}.

Record irq_desc := IrqDesc {
  desc_irq_data : irq_data;
  desc_status : Z
}.

Record sys_device := SysDevice { sysdev_id : nat }.

(** What a function does that its caller or the rest of the system can
    see. *)
Inductive event :=
| EvLock                                  (* spin_lock(&irq_controller_lock) *)
| EvUnlock                                (* spin_unlock(&irq_controller_lock) *)
| EvRead (a : iomem) (v : Z)               (* readl *)
| EvWrite (a : iomem) (v : Z)              (* writel *)
| EvMb                                    (* mb() *)
| EvWarn                                  (* WARN_ON with a true condition *)
| EvChipAck (i : Z)                        (* chip->irq_ack *)
| EvChipUnmask (i : Z)                     (* chip->irq_unmask *)
| EvGenericHandle (i : Z)                  (* generic_handle_irq *)
| EvBadIRQ (i : Z)                         (* do_bad_IRQ *)
| EvSetHandlerEdge (i : Z)                 (* __set_irq_handler_unlocked(_, handle_edge_irq) *)
| EvSetIrqChip (i : Z)                     (* set_irq_chip(_, &gic_chip) *)
| EvSetIrqHandlerLevel (i : Z)             (* set_irq_handler(_, handle_level_irq) *)
| EvSetIrqFlags (i : Z)                    (* set_irq_flags(_, IRQF_VALID | IRQF_PROBE) *)
| EvMpmEnableIrq (i : Z) (on : Z)          (* msm_mpm_enable_irq *)
| EvMpmSetIrqWake (i : Z) (on : Z)         (* msm_mpm_set_irq_wake *)
| EvMpmSetIrqType (i : Z) (type : Z).      (* msm_mpm_set_irq_type *)

(** The contents of the register windows: a word per byte offset. *)
Definition hardware := window -> Z -> Z.

Record state := State {
  hw : hardware;
  gic_data : list gic_chip_data;
  gic_cpu_base_addr : option iomem;
  irq_descs : gmap Z irq_desc;
  trace : list event
}.

Definition set_hw (h : hardware) (s : state) : state :=
  State h (gic_data s) (gic_cpu_base_addr s) (irq_descs s) (trace s).
Definition set_gic_data (l : list gic_chip_data) (s : state) : state :=
  State (hw s) l (gic_cpu_base_addr s) (irq_descs s) (trace s).
Definition set_gic_cpu_base_addr (p : option iomem) (s : state) : state :=
  State (hw s) (gic_data s) p (irq_descs s) (trace s).
Definition set_irq_descs (m : gmap Z irq_desc) (s : state) : state :=
  State (hw s) (gic_data s) (gic_cpu_base_addr s) m (trace s).
Definition log (e : event) (s : state) : state :=
  State (hw s) (gic_data s) (gic_cpu_base_addr s) (irq_descs s) (trace s ++ [e]).

Definition set_wakeup_irqs (l : list Z) (g : gic_chip_data) : gic_chip_data :=
  GicChipData (irq_offset g) (dist_base g) (cpu_base g) (max_irq g) l (enabled_irqs g).
Definition set_enabled_irqs (l : list Z) (g : gic_chip_data) : gic_chip_data :=
  GicChipData (irq_offset g) (dist_base g) (cpu_base g) (max_irq g) (wakeup_irqs g) l.
Definition set_max_irq (n : Z) (g : gic_chip_data) : gic_chip_data :=
  GicChipData (irq_offset g) (dist_base g) (cpu_base g) n (wakeup_irqs g) (enabled_irqs g).
Definition set_windows (off : Z) (db cb : iomem) (g : gic_chip_data) : gic_chip_data :=
  GicChipData off db cb (max_irq g) (wakeup_irqs g) (enabled_irqs g).
Definition set_node (n : Z) (d : irq_data) : irq_data :=
  IrqData (irq d) n (handler_data d) (chip_data d).
Definition set_chip_data (k : nat) (d : irq_data) : irq_data :=
  IrqData (irq d) (node d) (handler_data d) k.

(** ** The register windows *)

(** Modelled from the spec: what the hardware does with an access (the
    device is not part of the driver).  A word of an Enable-Set or
    Pending-Set register reads as the current bits; writing ones to it sets
    those bits, writing ones to the matching Clear register clears them, and
    the Clear register reads as the current bits too.  Every other register
    keeps the last word written. *)
Module Device.

Definition upd (r : Z -> Z) (off v : Z) : Z -> Z :=
  fun o => if Z.eqb o off then v else r o.

(** A block of 32 one-bit-per-line words. *)
Definition in_block (base off : Z) : bool :=
  (base <=? off) && (off <? base + 0x80).

Definition is_clear (off : Z) : bool :=
  in_block GIC_DIST_ENABLE_CLEAR off || in_block GIC_DIST_PENDING_CLEAR off.

Definition is_set (off : Z) : bool :=
  in_block GIC_DIST_ENABLE_SET off || in_block GIC_DIST_PENDING_SET off.

Definition dist_read (r : Z -> Z) (off : Z) : Z :=
  if is_clear off then r (off - 0x80) else r off.

Definition dist_write (r : Z -> Z) (off v : Z) : Z -> Z :=
  if is_set off then upd r off (Z.lor (r off) v)
  else if is_clear off then upd r (off - 0x80) (Z.land (r (off - 0x80)) (U32.not v))
  else upd r off v.

Definition read (h : hardware) (a : iomem) : Z :=
  match io_win a with
  | DistWin _ => dist_read (h (io_win a)) (io_off a)
  | CpuWin _ => h (io_win a) (io_off a)
  end.

Definition write (h : hardware) (a : iomem) (v : Z) : hardware :=
  fun w =>
    if decide (w = io_win a) then
      match w with
      | DistWin _ => dist_write (h w) (io_off a) v
      | CpuWin _ => upd (h w) (io_off a) v
      end
    else h w.

(** Line [n] of the distributor behind [base] is enabled. *)
Definition enabled (h : hardware) (base : iomem) (n : Z) : bool :=
  Z.testbit (read h (base +@ GIC_DIST_ENABLE_SET +@ (n / 32) * 4)) (n mod 32).

(** The 2-bit configuration field of line [n]. *)
Definition config_field (h : hardware) (base : iomem) (n : Z) : Z :=
  Z.land (Z.shiftr (read h (base +@ GIC_DIST_CONFIG +@ (n / 16) * 4))
                   ((n mod 16) * 2)) 3.

(** The target byte of line [n]. *)
Definition target_byte (h : hardware) (base : iomem) (n : Z) : Z :=
  Z.land (Z.shiftr (read h (base +@ GIC_DIST_TARGET +@ (n / 4) * 4))
                   ((n mod 4) * 8)) 0xff.

End Device.

(** ** The monad of driver code *)

(** A function returns, or the kernel stops in it: [BUG()], a null pointer
    or an access outside an array ([Crash]).  [Timeout] is the model's
    answer when a loop is cut off. *)
Inductive result (A : Type) : Type :=
| Ok (a : A) (s : state)
| Crash
| Timeout.

Arguments Ok {A} a s.
Arguments Crash {A}.
Arguments Timeout {A}.

Definition M (A : Type) : Type := state -> result A.

Definition ret {A} (a : A) : M A := fun s => Ok a s.

Definition bind {A B} (m : M A) (k : A -> M B) : M B :=
  fun s => match m s with
           | Ok a s' => k a s'
           | Crash => Crash
           | Timeout => Timeout
           end.

Notation "x <- m ;; k" := (bind m (fun x => k))
  (at level 100, m at next level, right associativity).
Notation "m ;; k" := (bind m (fun _ => k))
  (at level 100, right associativity).

Definition fault {A} : M A := fun _ => Crash.

Definition emit (e : event) : M unit := fun s => Ok tt (log e s).

Definition when (b : bool) (m : M unit) : M unit := if b then m else ret tt.

(** [for (i = i0; cond(i); i = next(i)) body(i)]. *)
Fixpoint for_loop (fuel : nat) (cond : Z -> M bool) (next : Z -> Z)
    (body : Z -> M unit) (i : Z) : M unit :=
  match fuel with
  | O => fun _ => Timeout
  | S fuel' =>
      c <- cond i ;;
      if c then body i ;; for_loop fuel' cond next body (next i) else ret tt
  end.

(** *** Kernel primitives *)

Definition readl (a : iomem) : M Z :=
  fun s => let v := Device.read (hw s) a in Ok v (log (EvRead a v) s).

Definition writel (v : Z) (a : iomem) : M unit :=
  fun s => Ok tt (log (EvWrite a (U32.wrap v))
                      (set_hw (Device.write (hw s) a (U32.wrap v)) s)).

Definition spin_lock : M unit := emit EvLock.
Definition spin_unlock : M unit := emit EvUnlock.
Definition mb : M unit := emit EvMb.

(** [WARN_ON(c)]: prints a warning when [c] holds and carries on; its value
    is [c]. *)
Definition WARN_ON (c : bool) : M bool := when c (emit EvWarn) ;; ret c.

(** [irq_to_desc(irq)]. *)
Definition irq_to_desc (i : Z) : M (option irq_desc) :=
  fun s => Ok (irq_descs s !! i) s.

(** [get_irq_chip_data(irq)] and [get_irq_data(irq)] are macros that
    dereference [irq_to_desc(irq)]. *)
Definition get_irq_chip_data (i : Z) : M nat :=
  o <- irq_to_desc i ;;
  match o with
  | Some desc => ret (chip_data (desc_irq_data desc))
  | None => fault
  end.

Definition get_irq_data (i : Z) : M (option nat) :=
  o <- irq_to_desc i ;;
  match o with
  | Some desc => ret (handler_data (desc_irq_data desc))
  | None => fault
  end.

(** [set_irq_chip_data(irq, data)]: stores the pointer in the descriptor of
    [irq], when there is one. *)
Definition set_irq_chip_data (i : Z) (k : nat) : M unit :=
  fun s =>
    match irq_descs s !! i with
    | Some desc =>
        Ok tt (set_irq_descs
                 (<[i := IrqDesc (set_chip_data k (desc_irq_data desc)) (desc_status desc)]>
                    (irq_descs s)) s)
    | None => Ok tt s
    end.

(** [cpumask_first(mask)] is [find_first_bit(cpumask_bits(mask),
    nr_cpumask_bits)]: the lowest CPU of the mask among the first
    [nr_cpumask_bits], and [nr_cpumask_bits] when there is none.  A mask is
    the integer whose bit [c] says that CPU [c] is in. *)
Fixpoint first_bit (n : nat) (i : Z) (m : Z) : option Z :=
  match n with
  | O => None
  | S n' => if Z.testbit m i then Some i else first_bit n' (i + 1) m
  end.

Definition cpumask_first (K : kconfig) (m : Z) : Z :=
  default (nr_cpumask_bits K) (first_bit (Z.to_nat (nr_cpumask_bits K)) 0 m).

(** *** Access to [gic_data] *)

(** Dereferencing a [struct gic_chip_data *]. *)
Definition chip (k : nat) : M gic_chip_data :=
  fun s => match gic_data s !! k with
           | Some g => Ok g s
           | None => Crash
           end.

Definition chip_store (k : nat) (f : gic_chip_data -> gic_chip_data) : M unit :=
  g <- chip k ;;
  fun s => Ok tt (set_gic_data (<[k := f g]> (gic_data s)) s).

(** Reading and writing a word of an [unsigned int [32]] array. *)
Definition word_at (l : list Z) (i : Z) : M Z :=
  match l !! Z.to_nat i with
  | Some w => ret w
  | None => fault
  end.

Definition word_store (l : list Z) (i : Z) (w : Z) : M (list Z) :=
  if decide (Z.to_nat i < length l)%nat then ret (<[Z.to_nat i := w]> l)
  else fault.

(** ** The driver *)

Section Driver.

Variable K : kconfig.

Definition gic_dist_base (d : irq_data) : M iomem :=
  g <- chip (chip_data d) ;; ret (dist_base g).

Definition gic_cpu_base (d : irq_data) : M iomem :=
  g <- chip (chip_data d) ;; ret (cpu_base g).

Definition gic_irq (d : irq_data) : M Z :=
  g <- chip (chip_data d) ;; ret (U32.wrap (irq d - irq_offset g)).

(** *** Routines to acknowledge, disable and enable interrupts *)

Definition gic_ack_irq (d : irq_data) : M unit :=
  spin_lock ;;
  n <- gic_irq d ;;
  base <- gic_cpu_base d ;;
  writel n (base +@ GIC_CPU_EOI) ;;
  spin_unlock.

Definition gic_mask_irq (d : irq_data) : M unit :=
  let mask := U32.shl 1 (irq d mod 32) in
  spin_lock ;;
  base <- gic_dist_base d ;;
  n <- gic_irq d ;;
  writel mask (base +@ GIC_DIST_ENABLE_CLEAR +@ (n / 32) * 4) ;;
  spin_unlock ;;
  when (CONFIG_MSM_MPM K) (emit (EvMpmEnableIrq (irq d) 0)).

Definition gic_unmask_irq (d : irq_data) : M unit :=
  let mask := U32.shl 1 (irq d mod 32) in
  spin_lock ;;
  base <- gic_dist_base d ;;
  n <- gic_irq d ;;
  writel mask (base +@ GIC_DIST_ENABLE_SET +@ (n / 32) * 4) ;;
  spin_unlock ;;
  when (CONFIG_MSM_MPM K) (emit (EvMpmEnableIrq (irq d) 1)).

(** *** Power transitions *)

(** The loops over the enable words stop with the arrays: one pass more
    than their 32 words either leaves the loop or faults. *)
Definition word_passes : nat := 33.

(** [i * 32 < gic_data[gic_nr].max_irq]. *)
Definition more_words (gic_nr : nat) (i : Z) : M bool :=
  g <- chip gic_nr ;; ret (U32.wrap (i * 32) <? max_irq g).

(** The body of the loop of [gic_suspend]. *)
Definition gic_suspend_word (gic_nr : nat) (base : iomem) (i : Z) : M unit :=
  v <- readl (base +@ GIC_DIST_ENABLE_SET +@ i * 4) ;;
  g <- chip gic_nr ;;
  l <- word_store (enabled_irqs g) i v ;;
  chip_store gic_nr (set_enabled_irqs l) ;;
  (* disable all of them *)
  writel 0xffffffff (base +@ GIC_DIST_ENABLE_CLEAR +@ i * 4) ;;
  (* enable the wakeup set *)
  g <- chip gic_nr ;;
  w <- word_at (wakeup_irqs g) i ;;
  writel w (base +@ GIC_DIST_ENABLE_SET +@ i * 4).

Definition gic_suspend (sysdev : sys_device) : M Z :=
  let gic_nr := sysdev_id sysdev in
  g <- chip gic_nr ;;
  let base := dist_base g in
  for_loop word_passes (more_words gic_nr) (fun i => U32.wrap (i + 1))
           (gic_suspend_word gic_nr base) 0 ;;
  mb ;;
  ret 0.

(** The body of the loop of [gic_resume]. *)
Definition gic_resume_word (gic_nr : nat) (base : iomem) (i : Z) : M unit :=
  (* disable all of them *)
  writel 0xffffffff (base +@ GIC_DIST_ENABLE_CLEAR +@ i * 4) ;;
  (* enable the enabled set *)
  g <- chip gic_nr ;;
  w <- word_at (enabled_irqs g) i ;;
  writel w (base +@ GIC_DIST_ENABLE_SET +@ i * 4).

Definition gic_resume (sysdev : sys_device) : M Z :=
  let gic_nr := sysdev_id sysdev in
  g <- chip gic_nr ;;
  let base := dist_base g in
  for_loop word_passes (more_words gic_nr) (fun i => U32.wrap (i + 1))
           (gic_resume_word gic_nr base) 0 ;;
  mb ;;
  ret 0.

Definition gic_set_wake (d : irq_data) (on : Z) : M Z :=
  gicirq <- gic_irq d ;;
  k <- get_irq_chip_data (irq d) ;;
  (* per-cpu interrupts cannot be wakeup interrupts *)
  WARN_ON (gicirq <? 32) ;;
  let reg_offset := gicirq / 32 in
  let bit_offset := gicirq mod 32 in
  g <- chip k ;;
  w <- word_at (wakeup_irqs g) reg_offset ;;
  l <- word_store (wakeup_irqs g) reg_offset
         (if on =? 0 then Z.land w (U32.not (U32.shl 1 bit_offset))
          else Z.lor w (U32.shl 1 bit_offset)) ;;
  chip_store k (set_wakeup_irqs l) ;;
  when (CONFIG_MSM_RPM K) (emit (EvMpmSetIrqWake (irq d) on)) ;;
  ret 0.

(** *** Trigger type and routing *)

Definition gic_set_type (d : irq_data) (type : Z) : M Z :=
  base <- gic_dist_base d ;;
  gicirq <- gic_irq d ;;
  let enablemask := U32.shl 1 (gicirq mod 32) in
  let enableoff := U32.wrap ((gicirq / 32) * 4) in
  let confmask := U32.shl 0x2 ((gicirq mod 16) * 2) in
  let confoff := U32.wrap ((gicirq / 16) * 4) in
  (* Interrupt configuration for SGIs can't be changed *)
  if gicirq <? 16 then ret (- EINVAL)
  else if negb (type =? IRQ_TYPE_LEVEL_HIGH) && negb (type =? IRQ_TYPE_EDGE_RISING)
  then ret (- EINVAL)
  else
    spin_lock ;;
    val <- readl (base +@ GIC_DIST_CONFIG +@ confoff) ;;
    let val :=
      if type =? IRQ_TYPE_LEVEL_HIGH then Z.land val (U32.not confmask)
      else if type =? IRQ_TYPE_EDGE_RISING then Z.lor val confmask
      else val in
    (* disable the interrupt before changing the configuration *)
    en <- readl (base +@ GIC_DIST_ENABLE_SET +@ enableoff) ;;
    enabled <-
      (if negb (Z.land en enablemask =? 0)
       then writel enablemask (base +@ GIC_DIST_ENABLE_CLEAR +@ enableoff) ;; ret true
       else ret false) ;;
    writel val (base +@ GIC_DIST_CONFIG +@ confoff) ;;
    when enabled (writel enablemask (base +@ GIC_DIST_ENABLE_SET +@ enableoff)) ;;
    spin_unlock ;;
    when (negb (Z.land type IRQ_TYPE_EDGE_RISING =? 0) && (31 <? gicirq))
         (emit (EvSetHandlerEdge (irq d))) ;;
    when (CONFIG_MSM_MPM K) (emit (EvMpmSetIrqType (irq d) type)) ;;
    ret 0.

(** [d->node] is written through the pointer: the updated [irq_data] is
    returned next to the status. *)
Definition gic_set_cpu (d : irq_data) (mask_val : Z) (force : bool)
    : M (Z * irq_data) :=
  base <- gic_dist_base d ;;
  gicirq <- gic_irq d ;;
  let reg := base +@ GIC_DIST_TARGET +@ Z.land gicirq (U32.not 3) in
  let shift := (irq d mod 4) * 8 in
  let cpu := cpumask_first K mask_val in
  spin_lock ;;
  desc <- irq_to_desc (irq d) ;;
  match desc with
  | None =>
      spin_unlock ;;
      ret (- EINVAL, d)
  | Some _ =>
      let d := set_node cpu d in
      v <- readl reg ;;
      let val := Z.land v (U32.not (U32.shl 0xff shift)) in
      let val := Z.lor val (U32.shl 1 (cpu + shift)) in
      writel val reg ;;
      spin_unlock ;;
      ret (0, d)
  end.

(** *** Cascaded controllers *)

Definition gic_handle_cascade_irq (irq_nr : Z) (desc : irq_desc) : M unit :=
  hd <- get_irq_data irq_nr ;;
  (* primary controller ack'ing *)
  emit (EvChipAck (irq (desc_irq_data desc))) ;;
  spin_lock ;;
  chip_data <- match hd with Some k => chip k | None => fault end ;;
  status <- readl (cpu_base chip_data +@ GIC_CPU_INTACK) ;;
  spin_unlock ;;
  let gic_irq := Z.land status 0x3ff in
  if gic_irq =? 1023 then
    emit (EvChipUnmask (irq (desc_irq_data desc)))
  else
    let cascade_irq := U32.wrap (gic_irq + irq_offset chip_data) in
    (if (gic_irq <? 32) || (1020 <? gic_irq) || (NR_IRQS K <=? cascade_irq)
     then emit (EvBadIRQ cascade_irq)
     else emit (EvGenericHandle cascade_irq)) ;;
    (* primary controller unmasking *)
    emit (EvChipUnmask (irq (desc_irq_data desc))).

(** *** Inter-processor interrupts *)

Definition gic_raise_softirq (mask : Z) (irq_nr : Z) : M unit :=
  let map := U32.wrap mask in
  (* this always happens on GIC0 *)
  g <- chip 0 ;;
  writel (Z.lor (U32.shl map 16) irq_nr) (dist_base g +@ GIC_DIST_SOFTINT) ;;
  mb.

(** *** Bring-up *)

(** [cpu] is [smp_processor_id()].  [set_irq_chip], [set_irq_handler] and
    [set_irq_flags] are calls into the dispatch layer, recorded as events:
    what they do to a descriptor outside its [irq_data] (its chip, its
    handler, its status flags) is not followed, and nothing below is said
    about the status of a descriptor that bring-up registers. *)
Definition gic_dist_init (gic : nat) (irq_start : Z) (cpu : Z) : M unit :=
  g <- chip gic ;;
  let base := dist_base g in
  let cpumask := U32.shl 1 cpu in
  let cpumask := Z.lor cpumask (U32.shl cpumask 8) in
  let cpumask := Z.lor cpumask (U32.shl cpumask 16) in
  writel 0 (base +@ GIC_DIST_CTRL) ;;
  (* Find out how many interrupts are supported. *)
  v <- readl (base +@ GIC_DIST_CTR) ;;
  let gic_irqs := Z.land v 0x1f in
  let gic_irqs := (gic_irqs + 1) * 32 in
  let gic_irqs := if 1020 <? gic_irqs then 1020 else gic_irqs in
  (* Set all global interrupts to be level triggered, active low. *)
  for_loop 64 (fun i => ret (i <? gic_irqs)) (fun i => i + 16)
    (fun i => writel 0 (base +@ GIC_DIST_CONFIG +@ i * 4 / 16)) 32 ;;
  (* Set all global interrupts to this CPU only. *)
  for_loop 256 (fun i => ret (i <? gic_irqs)) (fun i => i + 4)
    (fun i => writel cpumask (base +@ GIC_DIST_TARGET +@ i * 4 / 4)) 32 ;;
  (* Set priority on all global interrupts. *)
  for_loop 256 (fun i => ret (i <? gic_irqs)) (fun i => i + 4)
    (fun i => writel 0xa0a0a0a0 (base +@ GIC_DIST_PRI +@ i * 4 / 4)) 32 ;;
  (* Disable all interrupts. *)
  for_loop 32 (fun i => ret (i <? gic_irqs)) (fun i => i + 32)
    (fun i => writel 0xffffffff (base +@ GIC_DIST_ENABLE_CLEAR +@ i * 4 / 32)) 32 ;;
  (* Limit number of interrupts registered to the platform maximum *)
  g <- chip gic ;;
  let irq_limit := U32.wrap (irq_offset g + gic_irqs) in
  w <- WARN_ON (NR_IRQS K <? irq_limit) ;;
  let irq_limit := if w then NR_IRQS K else irq_limit in
  (* Setup the Linux IRQ subsystem. *)
  for_loop (S (Z.to_nat (irq_limit - irq_start)))
    (fun i => ret (i <? irq_limit)) (fun i => U32.wrap (i + 1))
    (fun i =>
       emit (EvSetIrqChip i) ;;
       set_irq_chip_data i gic ;;
       emit (EvSetIrqHandlerLevel i) ;;
       emit (EvSetIrqFlags i))
    irq_start ;;
  chip_store gic (set_max_irq gic_irqs) ;;
  writel 1 (base +@ GIC_DIST_CTRL) ;;
  mb.

Definition gic_cpu_init (gic : nat) : M unit :=
  g <- chip gic ;;
  let dist_base := dist_base g in
  let base := cpu_base g in
  (* disable all PPI interrupts, ensure all SGI interrupts are enabled *)
  writel 0xffff0000 (dist_base +@ GIC_DIST_ENABLE_CLEAR) ;;
  writel 0x0000ffff (dist_base +@ GIC_DIST_ENABLE_SET) ;;
  (* Set priority on PPI and SGI interrupts *)
  for_loop 16 (fun i => ret (i <? 32)) (fun i => i + 4)
    (fun i => writel 0xa0a0a0a0 (dist_base +@ GIC_DIST_PRI +@ i * 4 / 4)) 0 ;;
  writel 0xf0 (base +@ GIC_CPU_PRIMASK) ;;
  writel 1 (base +@ GIC_CPU_CTRL) ;;
  mb.

(** [MAX_GIC_NR] is the length of [gic_data]. *)
Definition gic_init (gic_nr : nat) (irq_start : Z) (dist_base cpu_base : iomem)
    (cpu : Z) : M unit :=
  n <- (fun s => Ok (length (gic_data s)) s) ;;
  if decide (n <= gic_nr)%nat then fault (* BUG_ON(gic_nr >= MAX_GIC_NR) *)
  else
    chip_store gic_nr
      (set_windows (Z.land (U32.wrap (irq_start - 1)) (U32.not 31)) dist_base cpu_base) ;;
    when (bool_decide (gic_nr = 0%nat))
         (fun s => Ok tt (set_gic_cpu_base_addr (Some cpu_base) s)) ;;
    gic_dist_init gic_nr irq_start cpu ;;
    gic_cpu_init gic_nr.

End Driver.

(** ** Vocabulary of the properties *)

(** The events that a run adds to the trace are those after the ones that
    were there before. *)
Definition added (s s' : state) (t : list event) : Prop :=
  trace s' = trace s ++ t.

(** The events of a run from [s], when it returns. *)
Definition run_trace {A} (m : M A) (s : state) : option (list event) :=
  match m s with
  | Ok _ s' => Some (drop (length (trace s)) (trace s'))
  | _ => None
  end.

(** An access to a register of a Distributor window. *)
Definition is_dist_window (w : window) : bool :=
  match w with DistWin _ => true | CpuWin _ => false end.

Definition dist_access (e : event) : bool :=
  match e with
  | EvRead a _ | EvWrite a _ => is_dist_window (io_win a)
  | _ => false
  end.

(** An access to a register of any window. *)
Definition reg_access (e : event) : bool :=
  match e with
  | EvRead _ _ | EvWrite _ _ => true
  | _ => false
  end.

(** Lock discipline of a stretch of trace: the lock is taken only when
    free and released only when held, and a Distributor register is only
    accessed while it is held.  [held] says whether the lock is held at the
    start; at the end it must be free. *)
Fixpoint lock_disciplined (held : bool) (t : list event) : bool :=
  match t with
  | [] => negb held
  | EvLock :: t' => negb held && lock_disciplined true t'
  | EvUnlock :: t' => held && lock_disciplined false t'
  | e :: t' => (negb (dist_access e) || held) && lock_disciplined held t'
  end.

Definition takes_lock (t : list event) : bool :=
  existsb (fun e => match e with EvLock => true | _ => false end) t.

(** The run of [m] from [s] returns and keeps the lock discipline. *)
Definition disciplined_run {A} (m : M A) (s : state) : Prop :=
  exists t, run_trace m s = Some t /\ lock_disciplined false t = true.

(** The run of [m] from [s] returns without ever taking the lock, and
    breaks the discipline when the controller has a line at all. *)
Definition lockless_run {A} (m : M A) (s : state) (lines : Z) : Prop :=
  exists t, run_trace m s = Some t /\ takes_lock t = false /\
            (0 < lines -> lock_disciplined false t = false).

(** Bit [n mod 32] of word [n / 32] of a bitmask array. *)
Definition line_bit (l : list Z) (n : Z) : bool :=
  match l !! Z.to_nat (n / 32) with
  | Some w => Z.testbit w (n mod 32)
  | None => false
  end.

(** The word that [gic_set_wake] stores for bit [bit] of the word [w]. *)
Definition wake_word (w bit on : Z) : Z :=
  if on =? 0 then Z.land w (U32.not (U32.shl 1 bit)) else Z.lor w (U32.shl 1 bit).

(** A controller as [gic_init] leaves it, as far as the properties below
    need it: its distributor window starts a Distributor block, its line
    count is within the architecture's 1020 and its bitmask arrays have
    their 32 words. *)
Record chip_ok (g : gic_chip_data) : Prop := ChipOk {
  ok_window : exists k, dist_base g = IoMem (DistWin k) 0;
  ok_max_irq : 0 <= max_irq g <= 1020;
  ok_wakeup : length (wakeup_irqs g) = 32%nat;
  ok_enabled : length (enabled_irqs g) = 32%nat
}.

(** Local line 0 of controller [gic_nr] is on a multiple of 32. *)
Definition offset_aligned (gic_nr : nat) (s : state) : Prop :=
  exists g, gic_data s !! gic_nr = Some g /\ irq_offset g mod 32 = 0.

(** Every run of [m] that returns keeps [P]. *)
Definition keeps {A} (P : state -> Prop) (m : M A) : Prop :=
  forall s a s', m s = Ok a s' -> P s -> P s'.

(** Pass [i] of a loop over the enable words of controller [gic_nr] is
    within its array. *)
Definition words_fit (gic_nr : nat) (i : Z) (s : state) : Prop :=
  0 <= i <= 32 /\
  forall g, gic_data s !! gic_nr = Some g -> (length (enabled_irqs g) <= 32)%nat.

(** [gic_data] has a controller [k]. *)
Definition has_chip (k : nat) (s : state) : Prop := (k < length (gic_data s))%nat.

(** From every state with [Q], [m] returns, in a state with [Q]. *)
Definition returns {A} (Q : state -> Prop) (m : M A) : Prop :=
  forall s, Q s -> exists a s', m s = Ok a s' /\ Q s'.

(** ** A sample platform *)

Module Sample.

Definition K : kconfig := KConfig 256 2 false false.

Definition zeros : list Z := replicate 32 0.

Definition blank_chip : gic_chip_data :=
  GicChipData 0 (IoMem (DistWin 0) 0) (IoMem (CpuWin 0) 0) 0 zeros zeros.

(** Interrupt numbers 0 to 255 have a descriptor. *)
Definition descs : gmap Z irq_desc :=
  list_to_map (map (fun i => (Z.of_nat i, IrqDesc (IrqData (Z.of_nat i) 0 None 0) 0))
                   (seq 0 256)).

(** Before bring-up: the line-count field of distributor 0 reads 2, for
    96 lines; every other register reads 0. *)
Definition boot_hw : hardware :=
  fun w off =>
    match w with
    | DistWin O => if off =? GIC_DIST_CTR then 2 else 0
    | _ => 0
    end.

Definition boot : state := State boot_hw [blank_chip] None descs [].

(** The platform calls [gic_init(0, 64, dist, cpu)] on CPU 0: the
    controller's lines start at interrupt number 32. *)
Definition up : state :=
  match gic_init K 0 64 (IoMem (DistWin 0) 0) (IoMem (CpuWin 0) 0) 0 boot with
  | Ok _ s => s
  | _ => boot
  end.

Definition chip0 : gic_chip_data :=
  GicChipData 32 (IoMem (DistWin 0) 0) (IoMem (CpuWin 0) 0) 96 zeros zeros.

(** Interrupt number [i], a line of controller 0, as the dispatch layer
    hands it over. *)
Definition line (i : Z) : irq_data := IrqData i 0 None 0.

(** Interrupt 72, local line 40, is made a wake-up source; it is not
    enabled. *)
Definition armed : state :=
  match gic_set_wake K (line 72) 1 up with
  | Ok _ s => s
  | _ => up
  end.

Definition armed_chip : gic_chip_data :=
  set_wakeup_irqs (<[1%nat := 0x100]> zeros) chip0.

(** The configuration field of local line 40 reads 01. *)
Definition odd : state :=
  set_hw (fun w off =>
            match w with
            | DistWin O => if off =? GIC_DIST_CONFIG + 8 then 0x10000 else hw up w off
            | _ => hw up w off
            end) up.

(** A secondary controller behind interrupt 20 of the first: its lines
    start at interrupt number 32, and its CPU interface answers 40. *)
Definition chip1 : gic_chip_data :=
  GicChipData 32 (IoMem (DistWin 1) 0) (IoMem (CpuWin 1) 0) 64 zeros zeros.

Definition cascade_desc : irq_desc := IrqDesc (IrqData 20 0 (Some 1%nat) 0) 0.

Definition cascaded : state :=
  State (fun w off =>
           match w with
           | CpuWin 1 => if off =? GIC_CPU_INTACK then 40 else 0
           | _ => 0
           end)
        [set_windows 0 (IoMem (DistWin 0) 0) (IoMem (CpuWin 0) 0) blank_chip; chip1]
        (Some (IoMem (CpuWin 0) 0))
        (<[20 := cascade_desc]> descs)
        [].

End Sample.

(** ** The rest of the driver *)

(** Dereferencing a pointer that may be null. *)
Definition deref {A} (p : option A) : M A :=
  match p with
  | Some a => ret a
  | None => fault
  end.

(** [irq_get_irq_data(irq)] of [linux/irq.h]: the [irq_data] in the
    descriptor of [irq], null when there is none. *)
Definition irq_get_irq_data (i : Z) : M (option irq_data) :=
  o <- irq_to_desc i ;; ret (desc_irq_data <$> o).

(** [for (i = i0; cond(i); i = next(i)) body(i)] around a local variable
    [acc] that the body updates. *)
Fixpoint for_fold {A} (fuel : nat) (cond : Z -> M bool) (next : Z -> M Z)
    (body : Z -> A -> M A) (i : Z) (acc : A) : M A :=
  match fuel with
  | O => fun _ => Timeout
  | S fuel' =>
      c <- cond i ;;
      if c then
        acc' <- body i acc ;;
        i' <- next i ;;
        for_fold fuel' cond next body i' acc'
      else ret acc
  end.

(** Modelled from the spec: [find_next_bit(addr, size, offset)] and
    [find_first_bit(addr, size)] ([linux/bitops.h] is not among the
    sources), on an array of 32-bit words: the first set bit at or after
    [offset] and below [size], [size] when there is none. *)
Fixpoint find_bit (fuel : nat) (l : list Z) (size i : Z) : Z :=
  match fuel with
  | O => size
  | S fuel' =>
      if size <=? i then size
      else if line_bit l i then i
      else find_bit fuel' l size (i + 1)
  end.

Definition find_next_bit (l : list Z) (size offset : Z) : Z :=
  find_bit (Z.to_nat (size - offset)) l size offset.

Definition find_first_bit (l : list Z) (size : Z) : Z := find_next_bit l size 0.

(** [gic_secondary_init]: a further CPU sets up its banked registers. *)
Definition gic_secondary_init (gic_nr : nat) : M unit :=
  n <- (fun s => Ok (length (gic_data s)) s) ;;
  if decide (n <= gic_nr)%nat then fault (* BUG_ON(gic_nr >= MAX_GIC_NR) *)
  else gic_cpu_init gic_nr.

(** [irqs_disabled] is the value of [irqs_disabled()].  The local
    [gic_data] of the source is never used. *)
Definition gic_is_spi_pending (irq_nr : Z) (irqs_disabled : bool) : M bool :=
  p <- irq_get_irq_data irq_nr ;;
  WARN_ON (negb irqs_disabled) ;;
  spin_lock ;;
  d <- deref p ;;
  n <- gic_irq d ;;
  let mask := U32.shl 1 (n mod 32) in
  base <- gic_dist_base d ;;
  val <- readl (base +@ GIC_DIST_ENABLE_SET +@ (n / 32) * 4) ;;
  (* warn if the interrupt is enabled *)
  WARN_ON (negb (Z.land val mask =? 0)) ;;
  val <- readl (base +@ GIC_DIST_PENDING_SET +@ (n / 32) * 4) ;;
  spin_unlock ;;
  ret (negb (Z.land val mask =? 0)).

Definition gic_clear_spi_pending (irq_nr : Z) (irqs_disabled : bool) : M unit :=
  p <- irq_get_irq_data irq_nr ;;
  WARN_ON (negb irqs_disabled) ;;
  spin_lock ;;
  d <- deref p ;;
  n <- gic_irq d ;;
  let mask := U32.shl 1 (n mod 32) in
  base <- gic_dist_base d ;;
  val <- readl (base +@ GIC_DIST_ENABLE_SET +@ (n / 32) * 4) ;;
  (* warn if the interrupt is enabled *)
  WARN_ON (negb (Z.land val mask =? 0)) ;;
  writel mask (base +@ GIC_DIST_PENDING_CLEAR +@ (n / 32) * 4) ;;
  spin_unlock.

(** The body of the first loop of [gic_show_resume_irq]: [pending] is the
    local array. *)
Definition gic_show_resume_word (base : iomem) (i : Z) (pending : list Z)
    : M (list Z) :=
  enabled <- readl (base +@ GIC_DIST_ENABLE_CLEAR +@ i * 4) ;;
  v <- readl (base +@ GIC_DIST_PENDING_SET +@ i * 4) ;;
  pending <- word_store pending i v ;;
  w <- word_at pending i ;;
  word_store pending i (Z.land w enabled).

(** [gic_show_resume_irq]: the value is the interrupt numbers it prints, in
    the order of the [pr_warning] calls.  [junk] is what the local array
    [pending] holds on entry. *)
Definition gic_show_resume_irq (gic_nr : nat) (junk : list Z) : M (list Z) :=
  g <- chip gic_nr ;;
  let base := dist_base g in
  spin_lock ;;
  pending <- for_fold word_passes (more_words gic_nr)
               (fun i => ret (U32.wrap (i + 1)))
               (gic_show_resume_word base) 0 junk ;;
  spin_unlock ;;
  g <- chip gic_nr ;;
  for_fold (S (Z.to_nat (max_irq g)))
    (fun i => g <- chip gic_nr ;; ret (i <? max_irq g))
    (fun i => g <- chip gic_nr ;;
              ret (find_next_bit pending (max_irq g) (U32.wrap (i + 1))))
    (fun i printed =>
       g <- chip gic_nr ;; ret (printed ++ [U32.wrap (i + irq_offset g)]))
    (find_first_bit pending (max_irq g)) [].

(** ** More of the vocabulary *)

(** Line [n] of the distributor behind [base] is pending. *)
Definition pending (h : hardware) (base : iomem) (n : Z) : bool :=
  Z.testbit (Device.read h (base +@ GIC_DIST_PENDING_SET +@ (n / 32) * 4)) (n mod 32).

(** The priority byte of line [n]. *)
Definition priority_byte (h : hardware) (base : iomem) (n : Z) : Z :=
  Z.land (Z.shiftr (Device.read h (base +@ GIC_DIST_PRI +@ (n / 4) * 4))
                   ((n mod 4) * 8)) 0xff.

(** Register [o] of window [x] is an enable word of distributor [k] for
    lines below [lim]. *)
Definition enable_word_below (k : nat) (lim : Z) (x : window) (o : Z) : Prop :=
  x = DistWin k /\ exists j, 0 <= j /\ j * 32 < lim /\ o = 0x100 + j * 4.

(** The registry [m'] is [m] with the interrupt numbers from [lo] up to
    [hi] handed to controller [k]: the [irq_data] of each of their
    descriptors points to [k] and is otherwise as in [m], and every other
    descriptor is the one of [m]. *)
Definition registered (k : nat) (lo hi : Z) (m m' : gmap Z irq_desc) : Prop :=
  forall x,
    if decide (lo <= x < hi)
    then desc_irq_data <$> m' !! x = set_chip_data k <$> (desc_irq_data <$> m !! x)
    else m' !! x = m !! x.

(** The number of lines that [gic_dist_init] reads off the controller-type
    register, whose value is [v]. *)
Definition line_count (v : Z) : Z :=
  let n := (Z.land v 0x1f + 1) * 32 in if 1020 <? n then 1020 else n.

(** The first interrupt number that [gic_dist_init] does not register. *)
Definition irq_limit_of (K : kconfig) (offset lines : Z) : Z :=
  let l := U32.wrap (offset + lines) in if NR_IRQS K <? l then NR_IRQS K else l.

(** A register read. *)
Definition is_read (e : event) : bool :=
  match e with EvRead _ _ => true | _ => false end.

(** The lines below [lim] that are both pending and enabled, in ascending
    order. *)
Definition woken (h : hardware) (base : iomem) (lim : Z) : list Z :=
  List.filter (fun n => pending h base n && Device.enabled h base n) (seqZ 0 lim).

(** Modelled from the spec: the status flag [IRQ_NOPROBE] ([linux/irq.h] is
    not among the sources); the properties below hold for any value of the
    mask. *)
Definition IRQ_NOPROBE : Z := 0x00020000.

(** [irq_to_desc(irq)->status |= flags]. *)
Definition desc_status_or (i : Z) (flags : Z) : M unit :=
  o <- irq_to_desc i ;;
  desc <- deref o ;;
  fun s => Ok tt (set_irq_descs
                    (<[i := IrqDesc (desc_irq_data desc) (Z.lor (desc_status desc) flags)]>
                       (irq_descs s)) s).

(** [gic_enable_ppi].  [local_irq_save] and [local_irq_restore] act on the
    interrupt flag of the CPU, which the state does not hold. *)
Definition gic_enable_ppi (K : kconfig) (irq_nr : Z) : M unit :=
  desc_status_or irq_nr IRQ_NOPROBE ;;
  p <- irq_get_irq_data irq_nr ;;
  d <- deref p ;;
  gic_unmask_irq K d.

(** What bring-up fixes of the controllers: for each, in order, its offset,
    its two windows and its line count. *)
Definition layout (s : state) : list (Z * iomem * iomem * Z) :=
  map (fun g => (irq_offset g, dist_base g, cpu_base g, max_irq g)) (gic_data s).

(** The hardware that the register writes of a stretch of trace make of
    [h], in their order. *)
Fixpoint replay (t : list event) (h : hardware) : hardware :=
  match t with
  | [] => h
  | EvWrite a v :: t' => replay t' (Device.write h a v)
  | _ :: t' => replay t' h
  end.

(** * Properties *)

(** ** Bits of 32-bit words *)

Module Bits.

Lemma wrap_spec x b : Z.testbit (U32.wrap x) b = (b <? 32) && Z.testbit x b.
Proof. apply Z.testbit_mod_pow2. lia. Qed.

Lemma not_spec x b :
  0 <= b -> Z.testbit (U32.not x) b = (b <? 32) && negb (Z.testbit x b).
Proof. intros Hb. unfold U32.not. by rewrite wrap_spec, Z.lnot_spec. Qed.

Lemma shl_spec x n b :
  0 <= b -> Z.testbit (U32.shl x n) b = (b <? 32) && Z.testbit x (b - n).
Proof. intros Hb. unfold U32.shl. by rewrite wrap_spec, Z.shiftl_spec. Qed.

Lemma ones_spec n b :
  0 <= n -> Z.testbit (Z.ones n) b = (0 <=? b) && (b <? n).
Proof. apply Z.testbit_ones. Qed.

Lemma one_spec b : Z.testbit 1 b = (b =? 0).
Proof. rewrite Z.eqb_sym. apply (Z.pow2_bits_eqb 0). lia. Qed.

Lemma two_spec b : Z.testbit 2 b = (b =? 1).
Proof. rewrite Z.eqb_sym. apply (Z.pow2_bits_eqb 1). lia. Qed.

Lemma three_spec b : Z.testbit 3 b = (0 <=? b) && (b <? 2).
Proof. apply (ones_spec 2). lia. Qed.

Lemma xff_spec b : Z.testbit 0xff b = (0 <=? b) && (b <? 8).
Proof. apply (ones_spec 8). lia. Qed.

Lemma x3ff_spec b : Z.testbit 0x3ff b = (0 <=? b) && (b <? 10).
Proof. apply (ones_spec 10). lia. Qed.

Lemma xffffffff_spec b : Z.testbit 0xffffffff b = (0 <=? b) && (b <? 32).
Proof. apply (ones_spec 32). lia. Qed.

Lemma wrap_range x : 0 <= U32.wrap x < 2 ^ 32.
Proof. apply Z.mod_pos_bound. lia. Qed.

Lemma wrap_small x : 0 <= x < 2 ^ 32 -> U32.wrap x = x.
Proof. apply Z.mod_small. Qed.

Lemma wrap_wrap x : U32.wrap (U32.wrap x) = U32.wrap x.
Proof. apply wrap_small, wrap_range. Qed.

Lemma wrap_mod32 x : U32.wrap x mod 32 = x mod 32.
Proof. unfold U32.wrap. apply Z.mod_mod_divide. by exists (2 ^ 27). Qed.

Lemma wrap_mod4 x : U32.wrap x mod 4 = x mod 4.
Proof. unfold U32.wrap. apply Z.mod_mod_divide. by exists (2 ^ 30). Qed.

Lemma shl_one_small k : 0 <= k < 32 -> U32.shl 1 k = Z.shiftl 1 k.
Proof.
  intros H. unfold U32.shl. rewrite Z.shiftl_1_l.
  apply wrap_small. split; [lia|]. apply Z.pow_lt_mono_r; lia.
Qed.

End Bits.

(** Turns an equation between words into one between their bits, and
    decides it from the comparisons of the bit positions. *)
Ltac bit_specs :=
  repeat first
    [ rewrite Z.land_spec | rewrite Z.lor_spec
    | rewrite Bits.wrap_spec
    | rewrite Bits.not_spec by lia
    | rewrite Bits.shl_spec by lia
    | rewrite Z.shiftr_spec by lia
    | rewrite Z.shiftl_spec by lia
    | rewrite Bits.one_spec | rewrite Bits.two_spec | rewrite Bits.three_spec
    | rewrite Bits.xff_spec | rewrite Bits.x3ff_spec | rewrite Bits.xffffffff_spec ].

Ltac cmp_cases :=
  repeat match goal with
         | |- context [?a <? ?b] => destruct (Z.ltb_spec a b); try (exfalso; lia)
         | |- context [?a <=? ?b] => destruct (Z.leb_spec a b); try (exfalso; lia)
         | |- context [?a =? ?b] => destruct (Z.eqb_spec a b); try (exfalso; lia)
         end.

Ltac bit_finish :=
  cmp_cases; cbn [andb orb negb];
  rewrite ?andb_false_r, ?andb_true_r, ?orb_false_r, ?orb_true_r;
  try reflexivity; try lia;
  try (match goal with |- context [Z.testbit ?w ?i] => destruct (Z.testbit w i) end;
       reflexivity).

Ltac bitblast :=
  apply Z.bits_inj'; intros ?b ?Hb; bit_specs; bit_finish.

(** ** Running driver code *)

Ltac run_unfold :=
  unfold gic_dist_base, gic_cpu_base, gic_irq, spin_lock, spin_unlock, mb,
    WARN_ON, readl, writel, emit, chip_store, chip, word_at, word_store,
    get_irq_chip_data, get_irq_data, irq_to_desc, fault, when, bind, ret.

Ltac run_simpl :=
  cbn [hw gic_data gic_cpu_base_addr irq_descs trace log set_hw set_gic_data
       set_irq_descs set_gic_cpu_base_addr
       irq_offset dist_base cpu_base max_irq wakeup_irqs enabled_irqs
       set_wakeup_irqs set_enabled_irqs set_max_irq set_windows
       irq node handler_data chip_data set_node desc_irq_data fst snd].

Ltac run H := run_unfold; repeat (progress (run_simpl; rewrite ?H)).

Lemma state_ext a b :
  hw a = hw b -> gic_data a = gic_data b ->
  gic_cpu_base_addr a = gic_cpu_base_addr b -> irq_descs a = irq_descs b ->
  trace a = trace b -> a = b.
Proof. destruct a, b. cbn. congruence. Qed.

(** Two results are the same when the fields of their states are. *)
Ltac state_eq :=
  f_equal; apply state_ext; run_simpl;
  rewrite <- ?app_assoc, ?app_nil_r; cbn [app]; try reflexivity.

Lemma added_refl s : added s s [].
Proof. unfold added. by rewrite app_nil_r. Qed.

Lemma added_trans s1 s2 s3 t u :
  added s1 s2 t -> added s2 s3 u -> added s1 s3 (t ++ u).
Proof. unfold added. intros H1 H2. by rewrite H2, H1, app_assoc. Qed.

(** ** The register windows *)

Module DeviceFacts.

Import Device.

Ltac crush :=
  unfold read, write, dist_read, dist_write, is_set, is_clear, in_block, upd,
    io_add, GIC_DIST_ENABLE_SET, GIC_DIST_ENABLE_CLEAR, GIC_DIST_PENDING_SET,
    GIC_DIST_PENDING_CLEAR, GIC_DIST_CONFIG, GIC_DIST_TARGET in *;
  cbn [io_win io_off] in *; rewrite ?Z.add_0_l in *;
  repeat case_decide; destruct_and?; simplify_eq;
  repeat (progress (cbv beta; cmp_cases; cbn [andb orb negb]));
  try done; try lia; try (exfalso; naive_solver lia).

Section Distributor.

Variables (h : hardware) (k : nat).
Let base := IoMem (DistWin k) 0.

Lemma read_enable j :
  0 <= j < 32 ->
  read h (base +@ GIC_DIST_ENABLE_SET +@ j * 4) = h (DistWin k) (0x100 + j * 4).
Proof. intros Hj. subst base. crush. Qed.

Lemma read_config j :
  0 <= j < 64 ->
  read h (base +@ GIC_DIST_CONFIG +@ j * 4) = h (DistWin k) (0xc00 + j * 4).
Proof. intros Hj. subst base. crush. Qed.

Lemma read_target j :
  0 <= j < 256 ->
  read h (base +@ GIC_DIST_TARGET +@ j * 4) = h (DistWin k) (0x800 + j * 4).
Proof. intros Hj. subst base. crush. Qed.

(** Writing to Enable-Set ORs the word in. *)
Lemma write_enable_set j v w o :
  0 <= j < 32 ->
  write h (base +@ GIC_DIST_ENABLE_SET +@ j * 4) v w o =
  if decide (w = DistWin k /\ o = 0x100 + j * 4)
  then Z.lor (h w o) v else h w o.
Proof. intros Hj. subst base. crush. Qed.

(** Writing to Enable-Clear takes the bits of the word out. *)
Lemma write_enable_clear j v w o :
  0 <= j < 32 ->
  write h (base +@ GIC_DIST_ENABLE_CLEAR +@ j * 4) v w o =
  if decide (w = DistWin k /\ o = 0x100 + j * 4)
  then Z.land (h w o) (U32.not v) else h w o.
Proof.
  intros Hj. subst base. crush.
  all: try (f_equal; f_equal; lia).
  all: exfalso; naive_solver lia.
Qed.

Lemma write_config j v w o :
  0 <= j < 64 ->
  write h (base +@ GIC_DIST_CONFIG +@ j * 4) v w o =
  if decide (w = DistWin k /\ o = 0xc00 + j * 4) then v else h w o.
Proof. intros Hj. subst base. crush. Qed.

Lemma write_target j v w o :
  0 <= j < 256 ->
  write h (base +@ GIC_DIST_TARGET +@ j * 4) v w o =
  if decide (w = DistWin k /\ o = 0x800 + j * 4) then v else h w o.
Proof. intros Hj. subst base. crush. Qed.

Lemma read_softint : read h (base +@ GIC_DIST_SOFTINT) = h (DistWin k) 0xf00.
Proof. subst base. unfold GIC_DIST_SOFTINT. crush. Qed.

(** The Software-Interrupt register takes the word written. *)
Lemma write_softint v w o :
  write h (base +@ GIC_DIST_SOFTINT) v w o =
  if decide (w = DistWin k /\ o = 0xf00) then v else h w o.
Proof. subst base. unfold GIC_DIST_SOFTINT. crush. Qed.

End Distributor.

End DeviceFacts.

(** ** Bring-up *)

(** [gic_init] puts local line 0 on a multiple of 32. *)
Lemma gic_init_offset_aligned irq_start :
  Z.land (U32.wrap (irq_start - 1)) (U32.not 31) mod 32 = 0.
Proof.
  change 32 with (2 ^ 5). rewrite <- Z.land_ones by lia.
  change 31 with (Z.ones 5).
  apply Z.bits_inj'; intros b Hb. bit_specs.
  rewrite Z.testbit_0_l, !Bits.ones_spec by lia. bit_finish.
Qed.

Section Keeps.

Variable P : state -> Prop.

Lemma keeps_ret {A} (a : A) : keeps P (ret a).
Proof. intros s a' s' [= _ <-]. done. Qed.

Lemma keeps_bind {A B} (m : M A) (k : A -> M B) :
keeps P m -> (forall a, keeps P (k a)) -> keeps P (bind m k).
Proof.
intros Hm Hk s b s' Hrun HP. unfold bind in Hrun.
destruct (m s) as [a s1| |] eqn:Hms; try done.
eapply Hk; [exact Hrun|]. by eapply Hm.
Qed.

Lemma keeps_when b (m : M unit) : keeps P m -> keeps P (when b m).
Proof. destruct b; [done|]. intros _. apply keeps_ret. Qed.

Lemma keeps_for_loop cond next body :
(forall i, keeps P (cond i)) -> (forall i, keeps P (body i)) ->
forall fuel i, keeps P (for_loop fuel cond next body i).
Proof.
intros Hc Hb fuel. induction fuel as [|fuel IH]; intros i; [done|].
cbn [for_loop]. apply keeps_bind; [done|]. intros [|]; [|apply keeps_ret].
apply keeps_bind; auto.
Qed.

End Keeps.

Section KeepsOffset.

Variable nr : nat.

(** What does not write [gic_data] keeps the offsets. *)
Lemma keeps_gic_data {A} (m : M A) :
(forall s a s', m s = Ok a s' -> gic_data s' = gic_data s) ->
keeps (offset_aligned nr) m.
Proof.
intros Hm s a s' Hrun (g & Hg & Hoff). exists g. by rewrite (Hm _ _ _ Hrun).
Qed.

Lemma keeps_emit e : keeps (offset_aligned nr) (emit e).
Proof. apply keeps_gic_data. by intros s a s' [= _ <-]. Qed.

Lemma keeps_readl a : keeps (offset_aligned nr) (readl a).
Proof. apply keeps_gic_data. by intros s v s' [= _ <-]. Qed.

Lemma keeps_writel v a : keeps (offset_aligned nr) (writel v a).
Proof. apply keeps_gic_data. by intros s x s' [= _ <-]. Qed.

Lemma keeps_chip k : keeps (offset_aligned nr) (chip k).
Proof.
apply keeps_gic_data. intros s g s'. unfold chip.
destruct (gic_data s !! k); [|done]. by intros [= _ <-].
Qed.

Lemma keeps_set_irq_chip_data i k : keeps (offset_aligned nr) (set_irq_chip_data i k).
Proof.
apply keeps_gic_data. intros s x s'. unfold set_irq_chip_data.
destruct (irq_descs s !! i); by intros [= _ <-].
Qed.

Lemma keeps_chip_store k f :
(forall g, irq_offset (f g) = irq_offset g) ->
keeps (offset_aligned nr) (chip_store k f).
Proof.
intros Hf s x s' Hrun (g & Hg & Hoff). unfold chip_store, chip, bind in Hrun.
destruct (gic_data s !! k) as [gk|] eqn:Hk; [|done]. injection Hrun as _ <-.
unfold offset_aligned. cbn [gic_data set_gic_data].
destruct (decide (k = nr)) as [->|Hne].
- exists (f gk). rewrite list_lookup_insert_eq by (by eapply lookup_lt_Some).
  split; [done|]. rewrite Hf. congruence.
- exists g. by rewrite list_lookup_insert_ne.
Qed.

End KeepsOffset.

Create HintDb keeps.

#[local] Hint Resolve keeps_ret keeps_bind keeps_when keeps_for_loop keeps_emit
  keeps_readl keeps_writel keeps_chip keeps_set_irq_chip_data : keeps.

Lemma keeps_gic_dist_init K nr gic irq_start cpu :
  keeps (offset_aligned nr) (gic_dist_init K gic irq_start cpu).
Proof.
  unfold gic_dist_init, WARN_ON, mb.
  repeat (apply keeps_bind;
          [first [by apply keeps_chip_store | auto 6 with keeps] | intros ?]);
    auto with keeps.
Qed.

Lemma keeps_gic_cpu_init nr gic :
  keeps (offset_aligned nr) (gic_cpu_init gic).
Proof.
  unfold gic_cpu_init, mb.
  repeat (apply keeps_bind; [auto 6 with keeps | intros ?]); auto with keeps.
Qed.

(** When [gic_init] returns, local line 0 of the controller is on a
    multiple of 32. *)
Lemma gic_init_aligned K gic_nr irq_start db cb cpu s s' :
  gic_init K gic_nr irq_start db cb cpu s = Ok tt s' ->
  offset_aligned gic_nr s'.
Proof.
  unfold gic_init. unfold bind at 1. case_decide; [done|].
  unfold bind at 1.
  destruct (chip_store _ _ s) as [[] s1| |] eqn:Hstore; try done.
  assert (offset_aligned gic_nr s1) as Hs1.
  { unfold chip_store, chip, bind in Hstore.
    destruct (gic_data s !! gic_nr) as [g|] eqn:Hg; [|done]. injection Hstore as <-.
    unfold offset_aligned. eexists. cbn [gic_data set_gic_data].
    rewrite list_lookup_insert_eq by (by eapply lookup_lt_Some).
    split; [done|]. apply gic_init_offset_aligned. }
  intros Hrest. revert Hrest Hs1.
  apply (keeps_bind (offset_aligned gic_nr)).
  - apply keeps_when, keeps_gic_data. by intros s2 a s3 [= _ <-].
  - intros _. apply keeps_bind; [apply keeps_gic_dist_init|].
    intros _. apply keeps_gic_cpu_init.
Qed.


Section Returns.

Variable Q : state -> Prop.

Lemma returns_ret {A} (a : A) : returns Q (ret a).
Proof. intros s HQ. by exists a, s. Qed.

Lemma returns_bind {A B} (m : M A) (k : A -> M B) :
  returns Q m -> (forall a, returns Q (k a)) -> returns Q (bind m k).
Proof.
  intros Hm Hk s HQ. destruct (Hm s HQ) as (a & s1 & Hrun & HQ1).
  destruct (Hk a s1 HQ1) as (b & s2 & Hrun2 & HQ2).
  exists b, s2. unfold bind. by rewrite Hrun.
Qed.

Lemma returns_when b (m : M unit) : returns Q m -> returns Q (when b m).
Proof. destruct b; [done|]. intros _. apply returns_ret. Qed.

(** A loop whose test only looks at the counter returns when its body
    does and each pass lowers a measure that the fuel exceeds. *)
Lemma returns_for_loop (mu : Z -> nat) (test : Z -> bool) next body :
  (forall i, returns Q (body i)) ->
  (forall i, test i = true -> (mu (next i) < mu i)%nat) ->
  forall fuel i, (mu i < fuel)%nat ->
    returns Q (for_loop fuel (fun i => ret (test i)) next body i).
Proof.
  intros Hb Hmu fuel. induction fuel as [|fuel IH]; intros i Hi; [lia|].
  intros s HQ. cbn [for_loop]. unfold bind at 1, ret at 1.
  destruct (test i) eqn:Ht.
  - apply (returns_bind (body i) (fun _ => for_loop fuel _ next body (next i)));
      [apply Hb | | done].
    intros _. apply IH. specialize (Hmu i Ht). lia.
  - by exists tt, s.
Qed.

End Returns.

(** The passes of [for (i = i0; i < lim; i += step)]. *)
Lemma stride_measure lim step i :
  0 < step -> i < lim ->
  (Z.to_nat ((lim - (i + step) + step - 1) / step)
   < Z.to_nat ((lim - i + step - 1) / step))%nat.
Proof.
  intros Hstep Hi.
  replace (lim - i + step - 1) with (lim - i - 1 + 1 * step) by lia.
  rewrite Z.div_add by lia.
  replace (lim - (i + step) + step - 1) with (lim - i - 1) by lia.
  assert (0 <= (lim - i - 1) / step) by (apply Z.div_pos; lia). lia.
Qed.

Section ReturnsChip.

Variable gic : nat.

Lemma returns_emit e : returns (has_chip gic) (emit e).
Proof. intros s HQ. by exists tt, (log e s). Qed.

Lemma returns_readl a : returns (has_chip gic) (readl a).
Proof. intros s HQ. by eexists _, _. Qed.

Lemma returns_writel v a : returns (has_chip gic) (writel v a).
Proof. intros s HQ. by eexists _, _. Qed.

Lemma returns_chip : returns (has_chip gic) (chip gic).
Proof.
  intros s HQ. destruct (lookup_lt_is_Some_2 _ _ HQ) as [g Hg].
  exists g, s. unfold chip. by rewrite Hg.
Qed.

Lemma returns_chip_store f : returns (has_chip gic) (chip_store gic f).
Proof.
  intros s HQ. destruct (lookup_lt_is_Some_2 _ _ HQ) as [g Hg].
  eexists tt, _. unfold chip_store, chip, bind. rewrite Hg. split; [done|].
  unfold has_chip. cbn [gic_data set_gic_data]. by rewrite length_insert.
Qed.

Lemma returns_set_irq_chip_data i : returns (has_chip gic) (set_irq_chip_data i gic).
Proof.
  intros s HQ. unfold set_irq_chip_data.
  destruct (irq_descs s !! i); by eexists tt, _.
Qed.

Lemma returns_stride lim step v base i0 fuel :
  0 < step -> (Z.to_nat ((lim - i0 + step - 1) / step) < fuel)%nat ->
  returns (has_chip gic)
    (for_loop fuel (fun i => ret (i <? lim)) (fun i => i + step)
       (fun i => writel v (base i)) i0).
Proof.
  intros Hstep Hfuel.
  apply (returns_for_loop _ (fun i => Z.to_nat ((lim - i + step - 1) / step)));
    [intros i; apply returns_writel | | done].
  intros i Hi. apply Z.ltb_lt in Hi. by apply stride_measure.
Qed.

End ReturnsChip.

Lemma line_count_bound v :
  let n := (Z.land v 0x1f + 1) * 32 in
  (if 1020 <? n then 1020 else n) <= 1020.
Proof. intros n. destruct (Z.ltb_spec 1020 n); lia. Qed.

Lemma passes_bound lim step bound i0 fuel :
  0 < step -> lim <= bound ->
  (Z.to_nat ((bound - i0 + step - 1) / step) < fuel)%nat ->
  (Z.to_nat ((lim - i0 + step - 1) / step) < fuel)%nat.
Proof.
  intros Hstep Hlim Hfuel.
  assert ((lim - i0 + step - 1) / step <= (bound - i0 + step - 1) / step)
    by (apply Z.div_le_mono; lia).
  lia.
Qed.

Lemma next_irq_measure limit i :
  limit < 2 ^ 32 -> i < limit ->
  (Z.to_nat (limit - U32.wrap (i + 1)) < Z.to_nat (limit - i))%nat.
Proof.
  intros Hlimit Hi. destruct (Z.le_gt_cases 0 (i + 1)).
  - rewrite Bits.wrap_small by lia. lia.
  - pose proof (Bits.wrap_range (i + 1)). lia.
Qed.

Lemma returns_gic_dist_init K gic irq_start cpu :
  NR_IRQS K < 2 ^ 32 ->
  returns (has_chip gic) (gic_dist_init K gic irq_start cpu).
Proof.
  intros HNR. unfold gic_dist_init.
  apply returns_bind; [apply returns_chip | intros g].
  apply returns_bind; [apply returns_writel | intros _].
  apply returns_bind; [apply returns_readl | intros v].
  pose proof (line_count_bound v) as Hlines. cbv zeta in Hlines.
  set (gic_irqs := if 1020 <? _ then 1020 else _) in *.
  do 4 (apply returns_bind;
        [apply returns_stride;
         [lia | eapply passes_bound; [lia | exact Hlines | vm_compute; lia]]
        | intros _]).
  apply returns_bind; [apply returns_chip | intros g'].
  unfold WARN_ON.
  apply returns_bind;
    [apply returns_bind;
     [apply returns_when, returns_emit | intros _; apply returns_ret] | intros w].
  set (irq_limit := if w then _ else _).
  assert (irq_limit < 2 ^ 32) as Hlimit
      by (subst irq_limit; destruct w; [done | apply Bits.wrap_range]).
  apply returns_bind.
  { apply (returns_for_loop _ (fun i => Z.to_nat (irq_limit - i))); [| |lia].
    - intros i. repeat (apply returns_bind; [|intros _]);
        auto using returns_emit, returns_set_irq_chip_data.
    - intros i Hi. apply Z.ltb_lt in Hi. by apply next_irq_measure. }
  intros _. apply returns_bind; [apply returns_chip_store | intros _].
  apply returns_bind; [apply returns_writel | intros _]. apply returns_emit.
Qed.

Lemma returns_gic_cpu_init gic : returns (has_chip gic) (gic_cpu_init gic).
Proof.
  unfold gic_cpu_init.
  apply returns_bind; [apply returns_chip | intros g].
  do 2 (apply returns_bind; [apply returns_writel | intros _]).
  apply returns_bind; [apply returns_stride; [lia | vm_compute; lia] | intros _].
  do 2 (apply returns_bind; [apply returns_writel | intros _]).
  apply returns_emit.
Qed.

(** [gic_init] returns for every controller of [gic_data], and leaves its
    local line 0 on a multiple of 32. *)
Lemma gic_init_returns K gic_nr irq_start db cb cpu s :
  NR_IRQS K < 2 ^ 32 ->
  has_chip gic_nr s ->
  exists s', gic_init K gic_nr irq_start db cb cpu s = Ok tt s' /\
             offset_aligned gic_nr s'.
Proof.
  intros HNR Hchip.
  assert (returns (has_chip gic_nr) (gic_init K gic_nr irq_start db cb cpu)) as Hret.
  { unfold gic_init. intros s0 H0. unfold bind at 1.
    rewrite decide_False by (unfold has_chip in H0; lia).
    revert s0 H0. apply returns_bind; [apply returns_chip_store | intros _].
    apply returns_bind.
    { apply returns_when. intros s0 H0. by eexists tt, _. }
    intros _. apply returns_bind; [by apply returns_gic_dist_init | intros _].
    apply returns_gic_cpu_init. }
  destruct (Hret s Hchip) as ([] & s' & Hrun & _).
  exists s'. split; [done|]. by eapply gic_init_aligned.
Qed.

(** The sample platform: bring-up returns, with one controller of 96 lines
    whose lines start at interrupt number 32. *)
Lemma sample_up :
  (exists s,
      gic_init Sample.K 0 64 (IoMem (DistWin 0) 0) (IoMem (CpuWin 0) 0) 0 Sample.boot
      = Ok tt s /\ Sample.up = s) /\
  gic_data Sample.up = [Sample.chip0].
Proof.
  split; [|vm_compute; reflexivity].
  destruct (gic_init_returns Sample.K 0 64 (IoMem (DistWin 0) 0) (IoMem (CpuWin 0) 0) 0
              Sample.boot) as (s & Hrun & _).
  - reflexivity.
  - unfold has_chip. cbn. lia.
  - exists s. split; [exact Hrun|]. unfold Sample.up. by rewrite Hrun.
Qed.

Lemma sample_armed : gic_data Sample.armed = [Sample.armed_chip].
Proof. vm_compute. reflexivity. Qed.

(** ** Masking and unmasking *)

Lemma local_bit_position i off :
  off mod 32 = 0 -> U32.wrap (i - off) mod 32 = i mod 32.
Proof.
  intros H. rewrite Bits.wrap_mod32, Zminus_mod, H, Z.sub_0_r. apply Z.mod_mod. lia.
Qed.

(** C7.  [gic_mask_irq] takes the lock, writes the one word
    [1 << (local_line % 32)] to the Enable-Clear register of word
    [local_line / 32] of the line's distributor and releases the lock;
    [gic_unmask_irq] does the same with the Enable-Set register.  The
    hardware afterwards is the hardware before with that one write made, and
    nothing else of the state has changed: in the distributor the bit is
    cleared, respectively set, in the enable word [local_line / 32], and
    every other bit of every register is as it was.  The code shifts by the
    interrupt number, not by the local line: the two agree because the
    controller's offset is a multiple of 32, as [gic_init] makes it. *)
Theorem gic_mask_unmask_write K s d g :
  gic_data s !! chip_data d = Some g ->
  irq_offset g mod 32 = 0 ->
  let n := U32.wrap (irq d - irq_offset g) in
  let bit := Z.shiftl 1 (n mod 32) in
  let clear_reg := dist_base g +@ GIC_DIST_ENABLE_CLEAR +@ (n / 32) * 4 in
  let set_reg := dist_base g +@ GIC_DIST_ENABLE_SET +@ (n / 32) * 4 in
  (exists s',
      gic_mask_irq K d s = Ok tt s' /\
      added s s'
        ([EvLock; EvWrite clear_reg bit; EvUnlock]
         ++ (if CONFIG_MSM_MPM K then [EvMpmEnableIrq (irq d) 0] else [])) /\
      hw s' = Device.write (hw s) clear_reg bit /\
      gic_data s' = gic_data s /\ irq_descs s' = irq_descs s /\
      forall k, dist_base g = IoMem (DistWin k) 0 -> n < 1024 ->
        forall x o, hw s' x o =
                    if decide (x = DistWin k /\ o = 0x100 + (n / 32) * 4)
                    then Z.land (hw s x o) (U32.not bit) else hw s x o) /\
  (exists s',
      gic_unmask_irq K d s = Ok tt s' /\
      added s s'
        ([EvLock; EvWrite set_reg bit; EvUnlock]
         ++ (if CONFIG_MSM_MPM K then [EvMpmEnableIrq (irq d) 1] else [])) /\
      hw s' = Device.write (hw s) set_reg bit /\
      gic_data s' = gic_data s /\ irq_descs s' = irq_descs s /\
      forall k, dist_base g = IoMem (DistWin k) 0 -> n < 1024 ->
        forall x o, hw s' x o =
                    if decide (x = DistWin k /\ o = 0x100 + (n / 32) * 4)
                    then Z.lor (hw s x o) bit else hw s x o).
Proof.
  intros Hg Hoff n bit clear_reg set_reg.
  assert (Hbit : U32.wrap (U32.shl 1 (irq d mod 32)) = bit).
  { subst bit n. rewrite local_bit_position by done.
    rewrite <- (Bits.shl_one_small (irq d mod 32)) by (apply Z.mod_pos_bound; lia).
    apply Bits.wrap_wrap. }
  assert (0 <= n) as Hn0 by apply Bits.wrap_range.
  assert (n < 1024 -> 0 <= n / 32 < 32) as Hword.
  { intros Hn. split; [apply Z.div_pos | apply Z.div_lt_upper_bound]; lia. }
  split.
  - unfold gic_mask_irq, added. run Hg. fold n. rewrite Hbit. fold clear_reg.
    destruct (CONFIG_MSM_MPM K); run Hg; eexists; (split; [reflexivity|]); run_simpl;
      (split; [by rewrite <- ?app_assoc|]); (split; [done|]); (split; [done|]);
      (split; [done|]); intros k Hbase Hn x o; subst clear_reg; rewrite Hbase;
      apply DeviceFacts.write_enable_clear; auto.
  - unfold gic_unmask_irq, added. run Hg. fold n. rewrite Hbit. fold set_reg.
    destruct (CONFIG_MSM_MPM K); run Hg; eexists; (split; [reflexivity|]); run_simpl;
      (split; [by rewrite <- ?app_assoc|]); (split; [done|]); (split; [done|]);
      (split; [done|]); intros k Hbase Hn x o; subst set_reg; rewrite Hbase;
      apply DeviceFacts.write_enable_set; auto.
Qed.

(** After bring-up with offset 32, masking interrupt 70 (local line 38)
    writes bit 6 to Enable-Clear word 1, and unmasking it writes the bit to
    Enable-Set word 1. *)
Lemma gic_mask_unmask_write_witness :
  (exists s',
      gic_mask_irq Sample.K (Sample.line 70) Sample.up = Ok tt s' /\
      added Sample.up s'
        [EvLock; EvWrite (IoMem (DistWin 0) (0x180 + 4)) 64; EvUnlock] /\
      hw s' = Device.write (hw Sample.up) (IoMem (DistWin 0) (0x180 + 4)) 64 /\
      forall x o, hw s' x o =
                  if decide (x = DistWin 0 /\ o = 0x104)
                  then Z.land (hw Sample.up x o) (U32.not 64) else hw Sample.up x o) /\
  (exists s',
      gic_unmask_irq Sample.K (Sample.line 70) Sample.up = Ok tt s' /\
      added Sample.up s'
        [EvLock; EvWrite (IoMem (DistWin 0) (0x100 + 4)) 64; EvUnlock] /\
      hw s' = Device.write (hw Sample.up) (IoMem (DistWin 0) (0x100 + 4)) 64 /\
      forall x o, hw s' x o =
                  if decide (x = DistWin 0 /\ o = 0x104)
                  then Z.lor (hw Sample.up x o) 64 else hw Sample.up x o).
Proof.
  destruct (gic_mask_unmask_write Sample.K Sample.up (Sample.line 70) Sample.chip0)
    as [(s1 & Hrun1 & Ht1 & Hhw1 & _ & _ & Hreg1) (s2 & Hrun2 & Ht2 & Hhw2 & _ & _ & Hreg2)].
  - vm_compute. reflexivity.
  - reflexivity.
  - split.
    + exists s1. split; [exact Hrun1|]. split; [exact Ht1|]. split; [exact Hhw1|].
      apply (Hreg1 0%nat); [reflexivity | vm_compute; reflexivity].
    + exists s2. split; [exact Hrun2|]. split; [exact Ht2|]. split; [exact Hhw2|].
      apply (Hreg2 0%nat); [reflexivity | vm_compute; reflexivity].
Defined.

(** ** Trigger type *)

(** C8.  For a Software-Generated line and for a type other than
    level-high and edge-rising, [gic_set_type] returns [-EINVAL] and the
    state it returns in is the state it was called in: no register was
    read or written, no lock taken. *)
Theorem gic_set_type_rejects K s d g type :
  gic_data s !! chip_data d = Some g ->
  U32.wrap (irq d - irq_offset g) < 16 \/
  (type <> IRQ_TYPE_LEVEL_HIGH /\ type <> IRQ_TYPE_EDGE_RISING) ->
  gic_set_type K d type s = Ok (- EINVAL) s.
Proof.
  intros Hg Hbad. unfold gic_set_type. run Hg.
  destruct (Z.ltb_spec (U32.wrap (irq d - irq_offset g)) 16) as [|Hge]; [done|].
  destruct Hbad as [|[H1 H2]]; [lia|].
  apply Z.eqb_neq in H1, H2. by rewrite H1, H2.
Qed.

(** Interrupt 41 is local line 9: its type cannot be set. *)
Lemma gic_set_type_rejects_witness :
  gic_set_type Sample.K (Sample.line 41) IRQ_TYPE_EDGE_RISING Sample.up
  = Ok (- EINVAL) Sample.up.
Proof.
  apply (gic_set_type_rejects Sample.K Sample.up (Sample.line 41) Sample.chip0).
  - vm_compute. reflexivity.
  - left. vm_compute. reflexivity.
Defined.

(** ** Inter-processor interrupts *)

(** C9.  [gic_raise_softirq] writes one word to the Software-Interrupt
    register of controller 0, [(mask << 16) | irq] cut to 32 bits, and then
    issues the barrier: afterwards the register holds that word, and no
    other register and nothing else of the state has changed.  For a line
    number below 1024 the low 10 bits of the word are the line, and bit
    [16 + c] is bit [c] of the mask for each of its 16 CPUs. *)
Theorem gic_raise_softirq_word s g mask n :
  gic_data s !! 0%nat = Some g ->
  0 <= n < 1024 ->
  let v := U32.wrap (Z.lor (Z.shiftl mask 16) n) in
  let reg := dist_base g +@ GIC_DIST_SOFTINT in
  (exists s',
      gic_raise_softirq mask n s = Ok tt s' /\
      added s s' [EvWrite reg v; EvMb] /\
      hw s' = Device.write (hw s) reg v /\
      gic_data s' = gic_data s /\ irq_descs s' = irq_descs s /\
      forall k, dist_base g = IoMem (DistWin k) 0 ->
        Device.read (hw s') reg = v /\
        forall x o, ~ (x = DistWin k /\ o = 0xf00) -> hw s' x o = hw s x o) /\
  Z.land v 0x3ff = n /\
  (forall c, 0 <= c < 16 -> Z.testbit v (16 + c) = Z.testbit mask c).
Proof.
  intros Hg Hn v reg.
  assert (Hlow : forall b, 10 <= b -> Z.testbit n b = false).
  { intros b Hb. destruct (Z.eq_dec n 0) as [->|]; [apply Z.testbit_0_l|].
    apply Z.bits_above_log2; [lia|].
    apply Z.lt_le_trans with 10; [|done]. apply Z.log2_lt_pow2; lia. }
  assert (Hv : U32.wrap (Z.lor (U32.shl (U32.wrap mask) 16) n) = v).
  { subst v. bitblast. }
  split; [|split].
  - unfold gic_raise_softirq, added. run Hg. rewrite Hv. fold reg.
    eexists; split; [reflexivity|]. run_simpl.
    split; [by rewrite <- app_assoc|]. split; [done|]. split; [done|]. split; [done|].
    intros k Hbase. subst reg. rewrite Hbase. split.
    + rewrite DeviceFacts.read_softint, DeviceFacts.write_softint.
      by rewrite decide_True.
    + intros x o Hxo. rewrite DeviceFacts.write_softint. by rewrite decide_False.
  - subst v. bitblast.
    + rewrite (Z.testbit_neg_r mask) by lia. by rewrite orb_false_l.
    + by rewrite Hlow by lia.
    + by rewrite Hlow by lia.
  - intros c Hc. subst v. bit_specs.
    rewrite Hlow by lia. replace (16 + c - 16) with c by lia.
    bit_finish.
Qed.

(** Raising line 9 on CPUs 2 and 5. *)
Lemma gic_raise_softirq_word_witness :
  let v := U32.wrap (Z.lor (Z.shiftl 0x24 16) 9) in
  (exists s',
      gic_raise_softirq 0x24 9 Sample.up = Ok tt s' /\
      added Sample.up s' [EvWrite (IoMem (DistWin 0) 0xf00) v; EvMb] /\
      hw s' = Device.write (hw Sample.up) (IoMem (DistWin 0) 0xf00) v /\
      Device.read (hw s') (IoMem (DistWin 0) 0xf00) = v /\
      forall x o, ~ (x = DistWin 0 /\ o = 0xf00) -> hw s' x o = hw Sample.up x o) /\
  Z.land v 0x3ff = 9 /\
  (forall c, 0 <= c < 16 -> Z.testbit v (16 + c) = Z.testbit 0x24 c).
Proof.
  destruct (gic_raise_softirq_word Sample.up Sample.chip0 0x24 9)
    as ((s' & Hrun & Ht & Hhw & _ & _ & Hreg) & Hlow & Hbits).
  - vm_compute. reflexivity.
  - lia.
  - split; [|split; [exact Hlow | exact Hbits]].
    exists s'. split; [exact Hrun|]. split; [exact Ht|]. split; [exact Hhw|].
    exact (Hreg 0%nat eq_refl).
Defined.

(** ** Cascaded controllers *)

(** C6.  [gic_handle_cascade_irq] acknowledges the primary line, then
    reads the Interrupt-Acknowledge register of the secondary controller
    under the lock, and ends with unmasking the primary line on every path.
    In between, for the low 10 bits [v] of the word read: nothing when [v]
    is 1023; [generic_handle_irq] for interrupt [v + irq_offset] when
    [32 <= v <= 1020] and that number is below [NR_IRQS]; [do_bad_IRQ], and
    no dispatch, otherwise.  The sum is the code's, in [unsigned int]. *)
Theorem gic_handle_cascade_irq_trace K s i desc primary k g :
  irq_descs s !! i = Some primary ->
  handler_data (desc_irq_data primary) = Some k ->
  gic_data s !! k = Some g ->
  let p := irq (desc_irq_data desc) in
  let status := Device.read (hw s) (cpu_base g +@ GIC_CPU_INTACK) in
  let v := Z.land status 0x3ff in
  let line := U32.wrap (v + irq_offset g) in
  exists s',
    gic_handle_cascade_irq K i desc s = Ok tt s' /\
    added s s'
      ([EvChipAck p; EvLock; EvRead (cpu_base g +@ GIC_CPU_INTACK) status; EvUnlock]
       ++ (if v =? 1023 then []
           else if (32 <=? v) && (v <=? 1020) && (line <? NR_IRQS K)
                then [EvGenericHandle line]
                else [EvBadIRQ line])
       ++ [EvChipUnmask p]).
Proof.
  intros Hi Hk Hg p status v line.
  unfold gic_handle_cascade_irq, added. run Hi. run Hk. run Hg.
  fold status. fold v. fold line. fold p.
  destruct (v =? 1023).
  { run Hg. eexists; split; [reflexivity|]. run Hg.
    by rewrite <- !app_assoc. }
  destruct (Z.ltb_spec v 32), (Z.ltb_spec 1020 v), (Z.leb_spec (NR_IRQS K) line),
    (Z.leb_spec 32 v), (Z.leb_spec v 1020), (Z.ltb_spec line (NR_IRQS K));
    try lia; cbn [orb andb]; run Hg; (eexists; split; [reflexivity|]); run Hg;
    by rewrite <- !app_assoc.
Qed.

(** Acknowledge value 40 on a controller whose lines start at 32:
    interrupt 72 is dispatched between the ack and the unmask of the
    primary line 20. *)
Lemma gic_handle_cascade_irq_trace_witness :
  exists s',
    gic_handle_cascade_irq Sample.K 20 Sample.cascade_desc Sample.cascaded = Ok tt s' /\
    added Sample.cascaded s'
      [EvChipAck 20; EvLock; EvRead (IoMem (CpuWin 1) 0xc) 40; EvUnlock;
       EvGenericHandle 72; EvChipUnmask 20].
Proof.
  apply (gic_handle_cascade_irq_trace Sample.K Sample.cascaded 20 Sample.cascade_desc
           Sample.cascade_desc 1 Sample.chip1).
  - vm_compute. reflexivity.
  - reflexivity.
  - reflexivity.
Defined.

(** ** Wake-up sources *)

Lemma set_bit_same w b : 0 <= b < 32 -> Z.testbit (Z.lor w (U32.shl 1 b)) b = true.
Proof. intros Hb. bit_specs. bit_finish. Qed.

Lemma set_bit_other w b b' :
  0 <= b' -> b' <> b -> Z.testbit (Z.lor w (U32.shl 1 b)) b' = Z.testbit w b'.
Proof. intros Hb Hne. bit_specs. bit_finish. Qed.

Lemma clear_bit_same w b :
  0 <= b < 32 -> Z.testbit (Z.land w (U32.not (U32.shl 1 b))) b = false.
Proof. intros Hb. bit_specs. bit_finish. Qed.

Lemma clear_bit_other w b b' :
  0 <= b' < 32 -> b' <> b ->
  Z.testbit (Z.land w (U32.not (U32.shl 1 b))) b' = Z.testbit w b'.
Proof. intros Hb Hne. bit_specs. bit_finish. Qed.

Lemma wake_word_same w b on :
  0 <= b < 32 -> Z.testbit (wake_word w b on) b = negb (on =? 0).
Proof.
  intros Hb. unfold wake_word. destruct (on =? 0); cbn [negb].
  - by apply clear_bit_same.
  - by apply set_bit_same.
Qed.

Lemma wake_word_other w b b' on :
  0 <= b' < 32 -> b' <> b -> Z.testbit (wake_word w b on) b' = Z.testbit w b'.
Proof.
  intros Hb Hne. unfold wake_word. destruct (on =? 0).
  - by apply clear_bit_other.
  - apply set_bit_other; lia.
Qed.

(** What a call of [gic_set_wake] comes to, for a line with a descriptor
    and a word in the array. *)
Lemma gic_set_wake_run K s d g di on :
  gic_data s !! chip_data d = Some g ->
  irq_descs s !! irq d = Some di ->
  chip_data (desc_irq_data di) = chip_data d ->
  let n := U32.wrap (irq d - irq_offset g) in
  (Z.to_nat (n / 32) < length (wakeup_irqs g))%nat ->
  exists w,
    wakeup_irqs g !! Z.to_nat (n / 32) = Some w /\
    gic_set_wake K d on s =
    Ok 0 (State (hw s)
            (<[chip_data d :=
                 set_wakeup_irqs
                   (<[Z.to_nat (n / 32) := wake_word w (n mod 32) on]> (wakeup_irqs g)) g]>
               (gic_data s))
            (gic_cpu_base_addr s) (irq_descs s)
            (trace s ++ (if n <? 32 then [EvWarn] else [])
                     ++ (if CONFIG_MSM_RPM K then [EvMpmSetIrqWake (irq d) on] else []))).
Proof.
  intros Hg Hd Hk n Hlen.
  destruct (lookup_lt_is_Some_2 _ _ Hlen) as [w Hw]. exists w. split; [done|].
  unfold gic_set_wake. run Hg. run Hd. rewrite Hk. fold n.
  destruct (n <? 32); run Hg; rewrite Hw; run Hg;
    rewrite (decide_True (P := (Z.to_nat (n / 32) < length (wakeup_irqs g))%nat)) by done;
    run Hg; destruct (CONFIG_MSM_RPM K); run Hg; unfold wake_word;
    state_eq.
Qed.

Lemma line_word_bit n : 0 <= n -> n = 32 * (n / 32) + n mod 32 /\ 0 <= n mod 32 < 32.
Proof. intros Hn. split; [apply Z.div_mod; lia | apply Z.mod_pos_bound; lia]. Qed.

Lemma line_bit_insert l n w :
  0 <= n -> (Z.to_nat (n / 32) < length l)%nat ->
  line_bit (<[Z.to_nat (n / 32) := w]> l) n = Z.testbit w (n mod 32).
Proof.
  intros Hn Hlen. unfold line_bit. by rewrite list_lookup_insert_eq.
Qed.

Lemma line_bit_insert_other l n n' w w' :
  0 <= n -> 0 <= n' -> n' <> n ->
  l !! Z.to_nat (n / 32) = Some w ->
  (forall b, 0 <= b < 32 -> b <> n mod 32 -> Z.testbit w' b = Z.testbit w b) ->
  line_bit (<[Z.to_nat (n / 32) := w']> l) n' = line_bit l n'.
Proof.
  intros Hn Hn' Hne Hw Hbits. unfold line_bit.
  destruct (decide (Z.to_nat (n / 32) = Z.to_nat (n' / 32))) as [Heq|Hneq].
  - rewrite <- Heq, Hw, list_lookup_insert_eq by (by eapply lookup_lt_Some).
    destruct (line_word_bit n Hn), (line_word_bit n' Hn').
    apply Hbits; [done|].
    assert (n / 32 = n' / 32) by (apply Z2Nat.inj in Heq; [done| |]; apply Z.div_pos; lia).
    lia.
  - by rewrite list_lookup_insert_ne.
Qed.

Lemma local_line_word n : 0 <= n < 1024 -> (Z.to_nat (n / 32) < 32)%nat.
Proof.
  intros Hn. assert (0 <= n / 32 < 32); [|lia].
  split; [apply Z.div_pos; lia | apply Z.div_lt_upper_bound; lia].
Qed.

(** C5, as the code has it.  [gic_set_wake] treats a local line below 32
    like any other line, after a warning that does not stop it: for every
    line below 1024 it returns 0, bit [local_line % 32] of word
    [local_line / 32] of the controller's [wakeup_irqs] is set when [on] is
    nonzero and clear when it is zero, and the bit of every other line is
    as before.  The warning is raised exactly for the lines below 32. *)
Theorem gic_set_wake_bit K s d g di on :
  gic_data s !! chip_data d = Some g ->
  irq_descs s !! irq d = Some di ->
  chip_data (desc_irq_data di) = chip_data d ->
  length (wakeup_irqs g) = 32%nat ->
  let n := U32.wrap (irq d - irq_offset g) in
  n < 1024 ->
  exists s' g',
    gic_set_wake K d on s = Ok 0 s' /\
    gic_data s' !! chip_data d = Some g' /\
    line_bit (wakeup_irqs g') n = negb (on =? 0) /\
    (forall n', 0 <= n' -> n' <> n ->
                line_bit (wakeup_irqs g') n' = line_bit (wakeup_irqs g) n') /\
    added s s' ((if n <? 32 then [EvWarn] else [])
                ++ (if CONFIG_MSM_RPM K then [EvMpmSetIrqWake (irq d) on] else [])).
Proof.
  intros Hg Hd Hk Hlen n Hn.
  assert (0 <= n) as Hn0 by apply Bits.wrap_range.
  assert (Z.to_nat (n / 32) < length (wakeup_irqs g))%nat as Hword
      by (rewrite Hlen; apply local_line_word; lia).
  destruct (gic_set_wake_run K s d g di on Hg Hd Hk Hword) as (w & Hw & Hrun).
  fold n in Hw, Hrun.
  eexists _, _. split; [exact Hrun|]. cbn [gic_data trace].
  split; [apply list_lookup_insert_eq; by eapply lookup_lt_Some|].
  cbn [wakeup_irqs set_wakeup_irqs]. split; [|split].
  - rewrite line_bit_insert by done.
    apply wake_word_same, Z.mod_pos_bound. lia.
  - intros n' Hn' Hne. eapply line_bit_insert_other; try done.
    intros b Hb Hbne. by apply wake_word_other.
  - reflexivity.
Qed.

(** Interrupt 72 is local line 40: arming it sets bit 8 of word 1. *)
Lemma gic_set_wake_bit_witness :
  exists s' g',
    gic_set_wake Sample.K (Sample.line 72) 1 Sample.up = Ok 0 s' /\
    gic_data s' !! 0%nat = Some g' /\
    line_bit (wakeup_irqs g') 40 = true /\
    (forall n', 0 <= n' -> n' <> 40 ->
                line_bit (wakeup_irqs g') n' = line_bit Sample.zeros n') /\
    added Sample.up s' [].
Proof.
  apply (gic_set_wake_bit Sample.K Sample.up (Sample.line 72) Sample.chip0
           (IrqDesc (IrqData 72 0 None 0) 0) 1).
  - vm_compute. reflexivity.
  - vm_compute. reflexivity.
  - reflexivity.
  - reflexivity.
  - vm_compute. reflexivity.
Defined.

(** C5, as stated, fails: interrupt 37 is local line 5, below 32, and the
    call returns 0 with bit 5 of word 0 of [wakeup_irqs] set. *)
Lemma gic_set_wake_local_line_returns :
  gic_data Sample.up = [Sample.chip0] /\
  U32.wrap (irq (Sample.line 37) - irq_offset Sample.chip0) < 32 /\
  exists s',
    gic_set_wake Sample.K (Sample.line 37) 1 Sample.up = Ok 0 s' /\
    wakeup_irqs <$> gic_data Sample.up !! 0%nat = Some Sample.zeros /\
    wakeup_irqs <$> gic_data s' !! 0%nat = Some (32 :: replicate 31 0).
Proof.
  do 2 (split; [vm_compute; reflexivity|]).
  destruct (gic_set_wake_run Sample.K Sample.up (Sample.line 37) Sample.chip0
              (IrqDesc (IrqData 37 0 None 0) 0) 1) as (w & Hw & Hrun).
  - vm_compute. reflexivity.
  - vm_compute. reflexivity.
  - reflexivity.
  - vm_compute. lia.
  - eexists. split; [exact Hrun|].
    assert (w = 0) as -> by (vm_compute in Hw; congruence).
    split; vm_compute; reflexivity.
Qed.

(** ** Power transitions *)

(** A loop returns when each pass keeps an invariant and lowers a measure
    that the fuel exceeds; the invariant then holds where the condition
    fails. *)
Lemma for_loop_rule (Inv : Z -> state -> Prop) (mu : Z -> nat) cond next body :
  (forall i s, Inv i s ->
     exists c, cond i s = Ok c s /\
       (c = true -> exists s', body i s = Ok tt s' /\ Inv (next i) s' /\
                               (mu (next i) < mu i)%nat)) ->
  forall fuel i s, Inv i s -> (mu i < fuel)%nat ->
    exists i' s', for_loop fuel cond next body i s = Ok tt s' /\ Inv i' s' /\
                  cond i' s' = Ok false s'.
Proof.
  intros Hstep fuel. induction fuel as [|fuel IH]; intros i s HI Hmu; [lia|].
  destruct (Hstep i s HI) as (c & Hc & Hbody). destruct c.
  - destruct (Hbody eq_refl) as (s1 & Hb & HI1 & Hlt).
    destruct (IH (next i) s1 HI1 ltac:(lia)) as (i' & s' & Hrun & HI' & Hc').
    exists i', s'. cbn [for_loop]. unfold bind at 1. rewrite Hc.
    unfold bind at 1. by rewrite Hb.
  - exists i, s. cbn [for_loop]. unfold bind at 1. by rewrite Hc.
Qed.

Lemma more_words_run gic_nr s g i :
  gic_data s !! gic_nr = Some g ->
  more_words gic_nr i s = Ok (U32.wrap (i * 32) <? max_irq g) s.
Proof. intros Hg. unfold more_words. by run Hg. Qed.

(** Clearing a whole enable word and setting the bits of [w] leaves the
    word [w]. *)
Lemma write_enable_word h k i w x o :
  0 <= i < 32 ->
  let base := IoMem (DistWin k) 0 in
  Device.write
    (Device.write h (base +@ GIC_DIST_ENABLE_CLEAR +@ i * 4) (U32.wrap 0xffffffff))
    (base +@ GIC_DIST_ENABLE_SET +@ i * 4) (U32.wrap w) x o =
  if decide (x = DistWin k /\ o = 0x100 + i * 4) then U32.wrap w else h x o.
Proof.
  intros Hi base. subst base.
  rewrite DeviceFacts.write_enable_set, DeviceFacts.write_enable_clear by done.
  case_decide; [|done].
  change (U32.not (U32.wrap 0xffffffff)) with 0.
  by rewrite Z.land_0_r, Z.lor_0_l.
Qed.

Lemma gic_suspend_word_run gic_nr k s g i w :
  gic_data s !! gic_nr = Some g ->
  0 <= i < 32 ->
  length (enabled_irqs g) = 32%nat ->
  wakeup_irqs g !! Z.to_nat i = Some w ->
  let base := IoMem (DistWin k) 0 in
  let v := hw s (DistWin k) (0x100 + i * 4) in
  gic_suspend_word gic_nr base i s =
  Ok tt (State
           (Device.write
              (Device.write (hw s) (base +@ GIC_DIST_ENABLE_CLEAR +@ i * 4)
                            (U32.wrap 0xffffffff))
              (base +@ GIC_DIST_ENABLE_SET +@ i * 4) (U32.wrap w))
           (<[gic_nr := set_enabled_irqs (<[Z.to_nat i := v]> (enabled_irqs g)) g]>
              (gic_data s))
           (gic_cpu_base_addr s) (irq_descs s)
           (trace s ++ [EvRead (base +@ GIC_DIST_ENABLE_SET +@ i * 4) v;
                        EvWrite (base +@ GIC_DIST_ENABLE_CLEAR +@ i * 4) (U32.wrap 0xffffffff);
                        EvWrite (base +@ GIC_DIST_ENABLE_SET +@ i * 4) (U32.wrap w)])).
Proof.
  intros Hg Hi Hlen Hw base v.
  assert (gic_nr < length (gic_data s))%nat as Hnr by (by eapply lookup_lt_Some).
  unfold gic_suspend_word. run Hg.
  rewrite (decide_True (P := (Z.to_nat i < length (enabled_irqs g))%nat)) by lia.
  run Hg. rewrite list_lookup_insert_eq by done. run Hg. rewrite Hw.
  subst base. rewrite DeviceFacts.read_enable by done. fold v.
  state_eq.
Qed.

Lemma gic_resume_word_run gic_nr k s g i w :
  gic_data s !! gic_nr = Some g ->
  0 <= i < 32 ->
  enabled_irqs g !! Z.to_nat i = Some w ->
  let base := IoMem (DistWin k) 0 in
  gic_resume_word gic_nr base i s =
  Ok tt (State
           (Device.write
              (Device.write (hw s) (base +@ GIC_DIST_ENABLE_CLEAR +@ i * 4)
                            (U32.wrap 0xffffffff))
              (base +@ GIC_DIST_ENABLE_SET +@ i * 4) (U32.wrap w))
           (gic_data s) (gic_cpu_base_addr s) (irq_descs s)
           (trace s ++ [EvWrite (base +@ GIC_DIST_ENABLE_CLEAR +@ i * 4) (U32.wrap 0xffffffff);
                        EvWrite (base +@ GIC_DIST_ENABLE_SET +@ i * 4) (U32.wrap w)])).
Proof.
  intros Hg Hi Hw base.
  unfold gic_resume_word. run Hg. rewrite Hw. state_eq.
Qed.

Lemma set_enabled_irqs_id g : set_enabled_irqs (enabled_irqs g) g = g.
Proof. by destruct g. Qed.

(** What [gic_suspend] comes to: it returns 0; every word below the line
    count is saved in [enabled_irqs] and replaced in the hardware by the
    word of [wakeup_irqs]; the lock is never taken. *)
Lemma gic_suspend_run gic_nr k s g :
  gic_data s !! gic_nr = Some g ->
  dist_base g = IoMem (DistWin k) 0 ->
  max_irq g <= 1024 ->
  length (wakeup_irqs g) = 32%nat ->
  length (enabled_irqs g) = 32%nat ->
  exists s' l t,
    gic_suspend (SysDevice gic_nr) s = Ok 0 s' /\
    gic_data s' = <[gic_nr := set_enabled_irqs l g]> (gic_data s) /\
    length l = 32%nat /\
    irq_descs s' = irq_descs s /\
    gic_cpu_base_addr s' = gic_cpu_base_addr s /\
    (forall j, 0 <= j -> j * 32 < max_irq g ->
       l !! Z.to_nat j = Some (hw s (DistWin k) (0x100 + j * 4)) /\
       exists w, wakeup_irqs g !! Z.to_nat j = Some w /\
                 hw s' (DistWin k) (0x100 + j * 4) = U32.wrap w) /\
    (forall j, 0 <= j -> max_irq g <= j * 32 ->
       l !! Z.to_nat j = enabled_irqs g !! Z.to_nat j) /\
    added s s' t /\ takes_lock t = false /\
    (0 < max_irq g -> existsb dist_access t = true).
Proof.
  intros Hg Hbase Hmax Hwl Hel.
  assert (gic_nr < length (gic_data s))%nat as Hnr by (by eapply lookup_lt_Some).
  pose (Inv := fun (i : Z) (s1 : state) =>
    0 <= i <= 32 /\ (forall j, 0 <= j < i -> j * 32 < max_irq g) /\
    exists l t,
      gic_data s1 = <[gic_nr := set_enabled_irqs l g]> (gic_data s) /\
      length l = 32%nat /\
      irq_descs s1 = irq_descs s /\
      gic_cpu_base_addr s1 = gic_cpu_base_addr s /\
      (forall j, 0 <= j < i ->
         l !! Z.to_nat j = Some (hw s (DistWin k) (0x100 + j * 4)) /\
         exists w, wakeup_irqs g !! Z.to_nat j = Some w /\
                   hw s1 (DistWin k) (0x100 + j * 4) = U32.wrap w) /\
      (forall j, i <= j ->
         l !! Z.to_nat j = enabled_irqs g !! Z.to_nat j /\
         hw s1 (DistWin k) (0x100 + j * 4) = hw s (DistWin k) (0x100 + j * 4)) /\
      trace s1 = trace s ++ t /\ takes_lock t = false /\
      (0 < i -> existsb dist_access t = true)).
  destruct (for_loop_rule Inv (fun i => Z.to_nat (32 - i)) (more_words gic_nr)
              (fun i => U32.wrap (i + 1))
              (gic_suspend_word gic_nr (IoMem (DistWin k) 0))) with (fuel := word_passes)
              (i := 0) (s := s)
    as (i' & s' & Hrun & HI & Hc).
  - (* a pass keeps the invariant *)
    intros i s1 (Hi & Hbelow & l & t & Hd & Hl & Hdescs & Hcpu & Hdone & Hrest & Ht & Hlock & Hacc).
    assert (gic_data s1 !! gic_nr = Some (set_enabled_irqs l g)) as Hg1
        by (rewrite Hd; by apply list_lookup_insert_eq).
    eexists. split; [by apply more_words_run|].
    cbn [max_irq set_enabled_irqs]. intros Hlt. apply Z.ltb_lt in Hlt.
    rewrite Bits.wrap_small in Hlt by lia.
    assert (0 <= i < 32) as Hi32 by lia.
    destruct (lookup_lt_is_Some_2 (wakeup_irqs g) (Z.to_nat i)) as [w Hw]; [lia|].
    eexists. split.
    { apply (gic_suspend_word_run gic_nr k s1 _ i w Hg1 Hi32); done. }
    rewrite Bits.wrap_small by lia. split; [|lia].
    split; [lia|]. split; [intros j Hj; specialize (Hbelow j); lia|].
    cbn [gic_data irq_descs gic_cpu_base_addr trace hw enabled_irqs set_enabled_irqs].
    eexists _, (t ++ _). split; [|split; [|split; [|split; [|split; [|split; [|split; [|split]]]]]]].
    + rewrite Hd, list_insert_insert_eq. reflexivity.
    + by rewrite length_insert.
    + done.
    + done.
    + intros j Hj. rewrite write_enable_word by done.
      destruct (decide (j = i)) as [->|Hne].
      * rewrite list_lookup_insert_eq by lia.
        rewrite decide_True by done. destruct (Hrest i ltac:(lia)) as [_ ->]. eauto.
      * rewrite list_lookup_insert_ne by lia.
        rewrite decide_False by (intros [_ ?]; lia). apply Hdone. lia.
    + intros j Hj. rewrite write_enable_word by done.
      rewrite list_lookup_insert_ne by lia.
      rewrite decide_False by (intros [_ ?]; lia). apply Hrest. lia.
    + rewrite Ht, <- app_assoc. reflexivity.
    + unfold takes_lock in *. rewrite existsb_app, Hlock. reflexivity.
    + intros _. rewrite existsb_app. cbn. apply orb_true_r.
  - (* the invariant holds at the start *)
    split; [lia|]. split; [lia|]. exists (enabled_irqs g), [].
    rewrite set_enabled_irqs_id, list_insert_id, app_nil_r by done.
    repeat split; try done; lia.
  - unfold word_passes. lia.
  - (* after the loop *)
    destruct HI as (Hi & Hbelow & l & t & Hd & Hl & Hdescs & Hcpu & Hdone & Hrest & Ht & Hlock & Hacc).
    assert (gic_data s' !! gic_nr = Some (set_enabled_irqs l g)) as Hg1
        by (rewrite Hd; by apply list_lookup_insert_eq).
    rewrite (more_words_run _ _ _ _ Hg1) in Hc. cbn [max_irq set_enabled_irqs] in Hc.
    assert (max_irq g <= i' * 32) as Hend.
    { injection Hc as Hc. apply Z.ltb_ge in Hc. by rewrite Bits.wrap_small in Hc by lia. }
    exists (log EvMb s'), l, (t ++ [EvMb]).
    split.
    { unfold gic_suspend. cbn [sysdev_id]. run Hg. rewrite Hbase, Hrun. reflexivity. }
    cbn [log gic_data irq_descs gic_cpu_base_addr hw trace].
    repeat split; try done.
    + apply Hdone. lia.
    + apply Hdone. lia.
    + intros j Hj Hge. apply Hrest.
      destruct (Z.le_gt_cases i' j) as [|Hlt]; [done|].
      specialize (Hbelow j). lia.
    + unfold added. cbn [trace log]. by rewrite Ht, <- app_assoc.
    + unfold takes_lock in *. rewrite existsb_app, Hlock. reflexivity.
    + intros Hpos. rewrite existsb_app, Hacc; [done | lia].
Qed.

(** What [gic_resume] comes to: it returns 0 and every word below the line
    count is replaced in the hardware by the word of [enabled_irqs]; the
    lock is never taken. *)
Lemma gic_resume_run gic_nr k s g :
  gic_data s !! gic_nr = Some g ->
  dist_base g = IoMem (DistWin k) 0 ->
  max_irq g <= 1024 ->
  length (enabled_irqs g) = 32%nat ->
  exists s' t,
    gic_resume (SysDevice gic_nr) s = Ok 0 s' /\
    gic_data s' = gic_data s /\
    irq_descs s' = irq_descs s /\
    gic_cpu_base_addr s' = gic_cpu_base_addr s /\
    (forall j, 0 <= j -> j * 32 < max_irq g ->
       exists w, enabled_irqs g !! Z.to_nat j = Some w /\
                 hw s' (DistWin k) (0x100 + j * 4) = U32.wrap w) /\
    added s s' t /\ takes_lock t = false /\
    (0 < max_irq g -> existsb dist_access t = true).
Proof.
  intros Hg Hbase Hmax Hel.
  pose (Inv := fun (i : Z) (s1 : state) =>
    0 <= i <= 32 /\ (forall j, 0 <= j < i -> j * 32 < max_irq g) /\
    exists t,
      gic_data s1 = gic_data s /\
      irq_descs s1 = irq_descs s /\
      gic_cpu_base_addr s1 = gic_cpu_base_addr s /\
      (forall j, 0 <= j < i ->
         exists w, enabled_irqs g !! Z.to_nat j = Some w /\
                   hw s1 (DistWin k) (0x100 + j * 4) = U32.wrap w) /\
      trace s1 = trace s ++ t /\ takes_lock t = false /\
      (0 < i -> existsb dist_access t = true)).
  destruct (for_loop_rule Inv (fun i => Z.to_nat (32 - i)) (more_words gic_nr)
              (fun i => U32.wrap (i + 1))
              (gic_resume_word gic_nr (IoMem (DistWin k) 0))) with (fuel := word_passes)
              (i := 0) (s := s)
    as (i' & s' & Hrun & HI & Hc).
  - intros i s1 (Hi & Hbelow & t & Hd & Hdescs & Hcpu & Hdone & Ht & Hlock & Hacc).
    assert (gic_data s1 !! gic_nr = Some g) as Hg1 by (by rewrite Hd).
    eexists. split; [by apply more_words_run|].
    intros Hlt. apply Z.ltb_lt in Hlt.
    rewrite Bits.wrap_small in Hlt by lia.
    assert (0 <= i < 32) as Hi32 by lia.
    destruct (lookup_lt_is_Some_2 (enabled_irqs g) (Z.to_nat i)) as [w Hw]; [lia|].
    eexists. split.
    { apply (gic_resume_word_run gic_nr k s1 g i w Hg1 Hi32 Hw). }
    rewrite Bits.wrap_small by lia. split; [|lia].
    split; [lia|]. split; [intros j Hj; specialize (Hbelow j); lia|].
    cbn [gic_data irq_descs gic_cpu_base_addr trace hw].
    exists (t ++ [EvWrite (IoMem (DistWin k) 0 +@ GIC_DIST_ENABLE_CLEAR +@ i * 4)
                          (U32.wrap 0xffffffff);
                  EvWrite (IoMem (DistWin k) 0 +@ GIC_DIST_ENABLE_SET +@ i * 4)
                          (U32.wrap w)]).
    split; [done|]. split; [done|]. split; [done|]. split; [|split; [|split]].
    + intros j Hj. rewrite write_enable_word by done.
      destruct (decide (j = i)) as [->|Hne].
      * rewrite decide_True by done. eauto.
      * rewrite decide_False by (intros [_ ?]; lia). apply Hdone. lia.
    + rewrite Ht, <- app_assoc. reflexivity.
    + unfold takes_lock in *. rewrite existsb_app, Hlock. reflexivity.
    + intros _. rewrite existsb_app. cbn. apply orb_true_r.
  - split; [lia|]. split; [lia|]. exists [].
    rewrite app_nil_r. repeat split; try done; lia.
  - unfold word_passes. lia.
  - destruct HI as (Hi & Hbelow & t & Hd & Hdescs & Hcpu & Hdone & Ht & Hlock & Hacc).
    assert (gic_data s' !! gic_nr = Some g) as Hg1 by (by rewrite Hd).
    rewrite (more_words_run _ _ _ _ Hg1) in Hc.
    assert (max_irq g <= i' * 32) as Hend.
    { injection Hc as Hc. apply Z.ltb_ge in Hc. by rewrite Bits.wrap_small in Hc by lia. }
    exists (log EvMb s'), (t ++ [EvMb]).
    split.
    { unfold gic_resume. cbn [sysdev_id]. run Hg. rewrite Hbase, Hrun. reflexivity. }
    cbn [log gic_data irq_descs gic_cpu_base_addr hw trace].
    repeat split; try done.
    + intros j Hj Hlt. apply Hdone. lia.
    + unfold added. cbn [trace log]. by rewrite Ht, <- app_assoc.
    + unfold takes_lock in *. rewrite existsb_app, Hlock. reflexivity.
    + intros Hpos. rewrite existsb_app, Hacc; [done | lia].
Qed.

(** The loops of [gic_suspend] and [gic_resume] are never cut off: with
    arrays of 32 words, a pass that does not end the loop or fault leaves
    fewer words to go. *)
Lemma for_loop_no_timeout (Inv : Z -> state -> Prop) (mu : Z -> nat) cond next body :
  (forall i s, Inv i s ->
     match cond i s with Ok _ s' => s' = s | Crash => True | Timeout => False end) ->
  (forall i s, Inv i s ->
     match body i s with
     | Ok _ s' => Inv (next i) s' /\ (mu (next i) < mu i)%nat
     | Crash => True
     | Timeout => False
     end) ->
  forall fuel i s, Inv i s -> (mu i < fuel)%nat ->
    for_loop fuel cond next body i s <> Timeout.
Proof.
  intros Hc Hb fuel. induction fuel as [|fuel IH]; intros i s HI Hmu; [lia|].
  cbn [for_loop]. unfold bind at 1.
  specialize (Hc i s HI). destruct (cond i s) as [c s1| |]; [subst s1|done|done].
  destruct c; [|done]. unfold bind.
  specialize (Hb i s HI). destruct (body i s) as [[] s1| |]; [|done|done].
  destruct Hb as [HI1 Hlt]. apply IH; [done | lia].
Qed.

Lemma more_words_cases gic_nr i s :
  match more_words gic_nr i s with
  | Ok _ s' => s' = s
  | Crash => True
  | Timeout => False
  end.
Proof. unfold more_words, chip, bind, ret. by destruct (gic_data s !! gic_nr). Qed.

Lemma gic_suspend_word_cases gic_nr base i s :
  words_fit gic_nr i s ->
  match gic_suspend_word gic_nr base i s with
  | Ok _ s' => words_fit gic_nr (U32.wrap (i + 1)) s' /\
               (Z.to_nat (32 - U32.wrap (i + 1)) < Z.to_nat (32 - i))%nat
  | Crash => True
  | Timeout => False
  end.
Proof.
  intros [Hi Hlen]. unfold gic_suspend_word.
  destruct (gic_data s !! gic_nr) as [g|] eqn:Hg; [|by run Hg].
  specialize (Hlen g eq_refl).
  assert (gic_nr < length (gic_data s))%nat as Hnr by (by eapply lookup_lt_Some).
  run Hg. case_decide as Hin; [|done].
  run Hg. rewrite list_lookup_insert_eq by done. run Hg.
  destruct (wakeup_irqs g !! Z.to_nat i); [|done]. run Hg.
  rewrite Bits.wrap_small by lia. split; [|lia]. split; [lia|].
  intros g'. run_simpl. rewrite list_lookup_insert_eq by done. intros [= <-].
  cbn [enabled_irqs set_enabled_irqs]. by rewrite length_insert.
Qed.

Lemma gic_resume_word_cases gic_nr base i s :
  words_fit gic_nr i s ->
  match gic_resume_word gic_nr base i s with
  | Ok _ s' => words_fit gic_nr (U32.wrap (i + 1)) s' /\
               (Z.to_nat (32 - U32.wrap (i + 1)) < Z.to_nat (32 - i))%nat
  | Crash => True
  | Timeout => False
  end.
Proof.
  intros [Hi Hlen]. unfold gic_resume_word.
  destruct (gic_data s !! gic_nr) as [g|] eqn:Hg; [|by run Hg].
  specialize (Hlen g eq_refl). run Hg.
  destruct (enabled_irqs g !! Z.to_nat i) eqn:Hw; [|done]. run Hg.
  apply lookup_lt_Some in Hw.
  rewrite Bits.wrap_small by lia. split; [|lia]. split; [lia|].
  intros g'. run_simpl. rewrite Hg. by intros [= <-].
Qed.

Lemma gic_suspend_no_timeout sysdev s :
  (forall g, gic_data s !! sysdev_id sysdev = Some g ->
             (length (enabled_irqs g) <= 32)%nat) ->
  gic_suspend sysdev s <> Timeout.
Proof.
  intros Hlen.
  assert (words_fit (sysdev_id sysdev) 0 s) as Hfit by (split; [lia | done]).
  unfold gic_suspend. unfold bind at 1, chip.
  destruct (gic_data s !! sysdev_id sysdev) as [g|]; [|done].
  unfold bind at 1.
  pose proof (for_loop_no_timeout (words_fit (sysdev_id sysdev))
                (fun i => Z.to_nat (32 - i)) (more_words (sysdev_id sysdev))
                (fun i => U32.wrap (i + 1))
                (gic_suspend_word (sysdev_id sysdev) (dist_base g))
                (fun i s _ => more_words_cases _ i s) (gic_suspend_word_cases _ _)
                word_passes 0 s Hfit) as Hloop.
  destruct (for_loop _ _ _ _ _ _) as [[] s1| |]; [done | done |].
  exfalso. apply Hloop; [unfold word_passes; lia | done].
Qed.

Lemma gic_resume_no_timeout sysdev s :
  (forall g, gic_data s !! sysdev_id sysdev = Some g ->
             (length (enabled_irqs g) <= 32)%nat) ->
  gic_resume sysdev s <> Timeout.
Proof.
  intros Hlen.
  assert (words_fit (sysdev_id sysdev) 0 s) as Hfit by (split; [lia | done]).
  unfold gic_resume. unfold bind at 1, chip.
  destruct (gic_data s !! sysdev_id sysdev) as [g|]; [|done].
  unfold bind at 1.
  pose proof (for_loop_no_timeout (words_fit (sysdev_id sysdev))
                (fun i => Z.to_nat (32 - i)) (more_words (sysdev_id sysdev))
                (fun i => U32.wrap (i + 1))
                (gic_resume_word (sysdev_id sysdev) (dist_base g))
                (fun i s _ => more_words_cases _ i s) (gic_resume_word_cases _ _)
                word_passes 0 s Hfit) as Hloop.
  destruct (for_loop _ _ _ _ _ _) as [[] s1| |]; [done | done |].
  exfalso. apply Hloop; [unfold word_passes; lia | done].
Qed.

Lemma enabled_line h k n :
  0 <= n < 1024 ->
  Device.enabled h (IoMem (DistWin k) 0) n
  = Z.testbit (h (DistWin k) (0x100 + (n / 32) * 4)) (n mod 32).
Proof.
  intros Hn. unfold Device.enabled. rewrite DeviceFacts.read_enable; [done|].
  pose proof (local_line_word n Hn). split; [apply Z.div_pos|]; lia.
Qed.

Lemma wrap_line_bit w n : Z.testbit (U32.wrap w) (n mod 32) = Z.testbit w (n mod 32).
Proof.
  rewrite Bits.wrap_spec.
  destruct (Z.ltb_spec (n mod 32) 32) as [|Hge]; [done|].
  pose proof (Z.mod_pos_bound n 32). lia.
Qed.

(** C1, as the code has it.  [gic_suspend] returns with every line of the
    controller enabled exactly when it is in the wake set, whether or not
    it was enabled before, and with the words of the earlier enabled set in
    [enabled_irqs]; the [gic_resume] that follows returns with every line
    enabled exactly when it was enabled before the suspend. *)
Theorem gic_suspend_resume s gic_nr g :
  gic_data s !! gic_nr = Some g ->
  chip_ok g ->
  let base := dist_base g in
  exists s1 g1 s2,
    gic_suspend (SysDevice gic_nr) s = Ok 0 s1 /\
    gic_data s1 !! gic_nr = Some g1 /\
    gic_resume (SysDevice gic_nr) s1 = Ok 0 s2 /\
    forall n, 0 <= n < max_irq g ->
      Device.enabled (hw s1) base n = line_bit (wakeup_irqs g) n /\
      enabled_irqs g1 !! Z.to_nat (n / 32)
        = Some (Device.read (hw s) (base +@ GIC_DIST_ENABLE_SET +@ (n / 32) * 4)) /\
      Device.enabled (hw s2) base n = Device.enabled (hw s) base n.
Proof.
  intros Hg [[k Hbase] Hmax Hwl Hel] base. subst base. rewrite Hbase.
  assert (gic_nr < length (gic_data s))%nat as Hnr by (by eapply lookup_lt_Some).
  destruct (gic_suspend_run gic_nr k s g Hg Hbase ltac:(lia) Hwl Hel)
    as (s1 & l & t1 & Hrun1 & Hd1 & Hl & _ & _ & Hwords1 & _).
  assert (gic_data s1 !! gic_nr = Some (set_enabled_irqs l g)) as Hg1
      by (rewrite Hd1; by apply list_lookup_insert_eq).
  destruct (gic_resume_run gic_nr k s1 _ Hg1 Hbase ltac:(cbn; lia) Hl)
    as (s2 & t2 & Hrun2 & _ & _ & _ & Hwords2 & _).
  exists s1, (set_enabled_irqs l g), s2. repeat (split; [done|]).
  intros n Hn.
  assert (0 <= n / 32 < 32) as Hword
      by (pose proof (local_line_word n); split; [apply Z.div_pos|]; lia).
  assert (n / 32 * 32 < max_irq g) as Hin
      by (pose proof (Z.mul_div_le n 32); lia).
  destruct (Hwords1 (n / 32) ltac:(lia) Hin) as (Hsaved & w & Hw & Hhw1).
  destruct (Hwords2 (n / 32) ltac:(lia) Hin) as (e & He & Hhw2).
  cbn [enabled_irqs set_enabled_irqs] in *.
  rewrite !enabled_line by lia. rewrite DeviceFacts.read_enable by done.
  split; [|split].
  - rewrite Hhw1, wrap_line_bit. unfold line_bit. by rewrite Hw.
  - done.
  - rewrite Hhw2, wrap_line_bit. congruence.
Qed.

(** The sample controller with local line 40 armed: suspended, then
    resumed. *)
Lemma gic_suspend_resume_witness :
  exists s1 g1 s2,
    gic_suspend (SysDevice 0) Sample.armed = Ok 0 s1 /\
    gic_data s1 !! 0%nat = Some g1 /\
    gic_resume (SysDevice 0) s1 = Ok 0 s2 /\
    forall n, 0 <= n < 96 ->
      Device.enabled (hw s1) (IoMem (DistWin 0) 0) n
        = line_bit (wakeup_irqs Sample.armed_chip) n /\
      enabled_irqs g1 !! Z.to_nat (n / 32)
        = Some (Device.read (hw Sample.armed)
                  (IoMem (DistWin 0) 0 +@ GIC_DIST_ENABLE_SET +@ (n / 32) * 4)) /\
      Device.enabled (hw s2) (IoMem (DistWin 0) 0) n
        = Device.enabled (hw Sample.armed) (IoMem (DistWin 0) 0) n.
Proof.
  apply (gic_suspend_resume Sample.armed 0 Sample.armed_chip).
  - vm_compute. reflexivity.
  - split.
    + exists 0%nat. reflexivity.
    + vm_compute. split; discriminate.
    + reflexivity.
    + reflexivity.
Defined.

(** C1, as stated, fails: local line 40 is in the wake set and not
    enabled, so it is not in the intersection of the enabled set and the
    wake set, and [gic_suspend] leaves it enabled. *)
Lemma gic_suspend_enables_wake_set :
  gic_data Sample.armed = [Sample.armed_chip] /\
  exists s1,
    gic_suspend (SysDevice 0) Sample.armed = Ok 0 s1 /\
    Device.enabled (hw Sample.armed) (IoMem (DistWin 0) 0) 40 = false /\
    line_bit (wakeup_irqs Sample.armed_chip) 40 = true /\
    Device.enabled (hw s1) (IoMem (DistWin 0) 0) 40 = true.
Proof.
  split; [vm_compute; reflexivity|].
  destruct (gic_suspend_run 0 0 Sample.armed Sample.armed_chip)
    as (s1 & l & t & Hrun & _ & _ & _ & _ & Hwords & _).
  - vm_compute. reflexivity.
  - reflexivity.
  - vm_compute. discriminate.
  - reflexivity.
  - reflexivity.
  - exists s1. split; [exact Hrun|].
    split; [vm_compute; reflexivity|]. split; [vm_compute; reflexivity|].
    destruct (Hwords 1) as (_ & w & Hw & Hhw); [lia | vm_compute; reflexivity |].
    rewrite enabled_line by lia. change (40 / 32 * 4) with (1 * 4).
    rewrite Hhw. vm_compute in Hw. injection Hw as <-. vm_compute. reflexivity.
Qed.


(** ** Trigger type of a configurable line *)

(** What a call of [gic_set_type] that passes the two checks comes to. *)
Lemma gic_set_type_run K s d g type :
  gic_data s !! chip_data d = Some g ->
  let n := U32.wrap (irq d - irq_offset g) in
  16 <= n ->
  type = IRQ_TYPE_LEVEL_HIGH \/ type = IRQ_TYPE_EDGE_RISING ->
  let base := dist_base g in
  let enablemask := U32.shl 1 (n mod 32) in
  let en_set := base +@ GIC_DIST_ENABLE_SET +@ U32.wrap (n / 32 * 4) in
  let en_clear := base +@ GIC_DIST_ENABLE_CLEAR +@ U32.wrap (n / 32 * 4) in
  let conf := base +@ GIC_DIST_CONFIG +@ U32.wrap (n / 16 * 4) in
  let confmask := U32.shl 2 (n mod 16 * 2) in
  let val := Device.read (hw s) conf in
  let val' := if type =? IRQ_TYPE_LEVEL_HIGH then Z.land val (U32.not confmask)
              else Z.lor val confmask in
  let en := Device.read (hw s) en_set in
  let enabled := negb (Z.land en enablemask =? 0) in
  let h1 := if enabled then Device.write (hw s) en_clear (U32.wrap enablemask)
            else hw s in
  let h2 := Device.write h1 conf (U32.wrap val') in
  let h3 := if enabled then Device.write h2 en_set (U32.wrap enablemask) else h2 in
  gic_set_type K d type s =
  Ok 0 (State h3 (gic_data s) (gic_cpu_base_addr s) (irq_descs s)
          (trace s
           ++ [EvLock; EvRead conf val; EvRead en_set en]
           ++ (if enabled then [EvWrite en_clear (U32.wrap enablemask)] else [])
           ++ [EvWrite conf (U32.wrap val')]
           ++ (if enabled then [EvWrite en_set (U32.wrap enablemask)] else [])
           ++ [EvUnlock]
           ++ (if negb (Z.land type IRQ_TYPE_EDGE_RISING =? 0) && (31 <? n)
               then [EvSetHandlerEdge (irq d)] else [])
           ++ (if CONFIG_MSM_MPM K then [EvMpmSetIrqType (irq d) type] else []))).
Proof.
  intros Hg n Hn Htype base enablemask en_set en_clear conf confmask val val' en
    enabled h1 h2 h3.
  subst h3 h2 h1 enabled en val' val confmask conf en_clear en_set enablemask base.
  unfold gic_set_type. run Hg. fold n.
  destruct (Z.ltb_spec n 16) as [|_]; [lia|].
  pose proof (eq_refl : (IRQ_TYPE_LEVEL_HIGH =? IRQ_TYPE_LEVEL_HIGH) = true) as E1.
  pose proof (eq_refl : (IRQ_TYPE_EDGE_RISING =? IRQ_TYPE_LEVEL_HIGH) = false) as E2.
  pose proof (eq_refl : (IRQ_TYPE_EDGE_RISING =? IRQ_TYPE_EDGE_RISING) = true) as E3.
  pose proof (eq_refl : (Z.land IRQ_TYPE_LEVEL_HIGH IRQ_TYPE_EDGE_RISING =? 0) = true) as E4.
  pose proof (eq_refl : (Z.land IRQ_TYPE_EDGE_RISING IRQ_TYPE_EDGE_RISING =? 0) = false) as E5.
  destruct Htype as [-> | ->]; rewrite ?E1, ?E2, ?E3, ?E4, ?E5; clear E1 E2 E3 E4 E5;
    cbn [negb andb];
    destruct (Z.land _ _ =? 0); cbn [negb]; run Hg;
    try destruct (31 <? n); run Hg; destruct (CONFIG_MSM_MPM K); run Hg; state_eq.
Qed.

(** The configuration field of a line after an OR or an AND-NOT of the
    mask of a line of the same word. *)
Lemma conf_field_or v k k' :
  0 <= k < 16 -> 0 <= k' < 16 ->
  Z.land (Z.shiftr (U32.wrap (Z.lor v (U32.shl 2 (k * 2)))) (k' * 2)) 3 =
  if decide (k' = k) then Z.lor (Z.land (Z.land (Z.shiftr v (k * 2)) 3) 1) 2
  else Z.land (Z.shiftr v (k' * 2)) 3.
Proof.
  intros Hk Hk'. case_decide; [subst k'|]; bitblast.
Qed.

Lemma conf_field_andnot v k k' :
  0 <= k < 16 -> 0 <= k' < 16 ->
  Z.land (Z.shiftr (U32.wrap (Z.land v (U32.not (U32.shl 2 (k * 2))))) (k' * 2)) 3 =
  if decide (k' = k) then Z.land (Z.land (Z.shiftr v (k * 2)) 3) 1
  else Z.land (Z.shiftr v (k' * 2)) 3.
Proof.
  intros Hk Hk'. case_decide; [subst k'|]; bitblast.
Qed.

Lemma conf_field_range v k : 0 <= Z.land (Z.shiftr v k) 3 < 4.
Proof.
  change 3 with (Z.ones 2). rewrite Z.land_ones by lia.
  apply Z.mod_pos_bound. lia.
Qed.

Lemma conf_word n : 0 <= n < 1024 -> 0 <= n / 16 < 64 /\ 0 <= n mod 16 < 16.
Proof.
  intros Hn. split; [|apply Z.mod_pos_bound; lia].
  split; [apply Z.div_pos; lia | apply Z.div_lt_upper_bound; lia].
Qed.

(** The configuration field of line [n'] after [gic_set_type] ran for line
    [n] with the new word [v'] for the old word [v] of line [n]. *)
Lemma config_field_after K s d g k type :
  gic_data s !! chip_data d = Some g ->
  dist_base g = IoMem (DistWin k) 0 ->
  let n := U32.wrap (irq d - irq_offset g) in
  16 <= n < 1024 ->
  type = IRQ_TYPE_LEVEL_HIGH \/ type = IRQ_TYPE_EDGE_RISING ->
  exists s',
    gic_set_type K d type s = Ok 0 s' /\
    gic_data s' = gic_data s /\
    forall n', 0 <= n' < 1024 ->
      Device.config_field (hw s') (dist_base g) n' =
      if decide (n' = n) then
        if type =? IRQ_TYPE_LEVEL_HIGH
        then Z.land (Device.config_field (hw s) (dist_base g) n) 1
        else Z.lor (Z.land (Device.config_field (hw s) (dist_base g) n) 1) 2
      else Device.config_field (hw s) (dist_base g) n'.
Proof.
  intros Hg Hbase n Hn Htype.
  pose proof (gic_set_type_run K s d g type Hg ltac:(fold n; lia) Htype) as Hrun.
  cbv zeta in Hrun. fold n in Hrun. rewrite Hbase in *.
  eexists. split; [exact Hrun|]. split; [done|].
  intros n' Hn'. cbn [hw]. unfold Device.config_field.
  destruct (conf_word n ltac:(lia)) as [Hw Hf], (conf_word n' Hn') as [Hw' Hf'].
  assert (0 <= n / 32 < 32) as He
      by (pose proof (local_line_word n); split; [apply Z.div_pos|]; lia).
  rewrite !(Bits.wrap_small (n / 16 * 4)), !(Bits.wrap_small (n / 32 * 4)) by lia.
  rewrite !DeviceFacts.read_config by done.
  pose proof (Z.div_mod n 16 ltac:(lia)) as Hdm.
  pose proof (Z.div_mod n' 16 ltac:(lia)) as Hdm'.
  assert (forall h : hardware,
            (if decide (DistWin k = DistWin k /\ 0xc00 + n' / 16 * 4 = 0xc00 + n / 16 * 4)
             then U32.wrap
                    (if type =? IRQ_TYPE_LEVEL_HIGH
                     then Z.land (hw s (DistWin k) (0xc00 + n / 16 * 4))
                                 (U32.not (U32.shl 2 (n mod 16 * 2)))
                     else Z.lor (hw s (DistWin k) (0xc00 + n / 16 * 4))
                                (U32.shl 2 (n mod 16 * 2)))
             else hw s (DistWin k) (0xc00 + n' / 16 * 4)) =
            h (DistWin k) (0xc00 + n' / 16 * 4) ->
            Z.land (Z.shiftr (h (DistWin k) (0xc00 + n' / 16 * 4)) (n' mod 16 * 2)) 3 =
            if decide (n' = n) then
              if type =? IRQ_TYPE_LEVEL_HIGH
              then Z.land (Z.land (Z.shiftr (hw s (DistWin k) (0xc00 + n / 16 * 4))
                                            (n mod 16 * 2)) 3) 1
              else Z.lor (Z.land (Z.land (Z.shiftr (hw s (DistWin k) (0xc00 + n / 16 * 4))
                                                   (n mod 16 * 2)) 3) 1) 2
            else Z.land (Z.shiftr (hw s (DistWin k) (0xc00 + n' / 16 * 4))
                                  (n' mod 16 * 2)) 3) as Hfield.
  { intros h <-. case_decide as Hword.
    - destruct Hword as [_ Hword]. assert (n' / 16 = n / 16) as Heq by lia.
      destruct (type =? IRQ_TYPE_LEVEL_HIGH);
        rewrite ?conf_field_andnot, ?conf_field_or by done;
        repeat case_decide; try done; try lia.
      all: rewrite Heq; reflexivity.
    - rewrite decide_False; [done|]. intros ->. by apply Hword. }
  apply Hfield.
  clear Hrun Hfield. destruct (negb _); cbv iota.
  - rewrite (DeviceFacts.write_enable_set _ k (n / 32)),
      (DeviceFacts.write_config _ k (n / 16)),
      (DeviceFacts.write_enable_clear _ k (n / 32)) by done.
    rewrite !(decide_False (P := _ /\ _ = 256 + _)) by (intros [_ ?]; lia).
    reflexivity.
  - rewrite (DeviceFacts.write_config _ k (n / 16)) by done. reflexivity.
Qed.

Lemma low_bit_clear f : Z.testbit f 0 = false -> Z.land f 1 = 0.
Proof.
  intros Hf. change 1 with (Z.ones 1). rewrite Z.land_ones by lia.
  change (2 ^ 1) with 2. by rewrite <- Z.bit0_mod, Hf.
Qed.

Lemma low_bit_kept x : Z.land (Z.lor (Z.land x 1) 2) 1 = Z.land x 1.
Proof. bitblast. Qed.

(** C2, as the code has it.  [gic_set_type] changes the high bit of the
    2-bit field of the line and nothing else of the configuration
    registers: edge-rising sets it, level-high clears it, the low bit of
    the field stays as it was, and so does the field of every other line.
    Hence edge-rising followed by level-high leaves the field at 00, and
    edge-rising alone at 10, exactly when its low bit was 0 before. *)
Theorem gic_set_type_field K s d g :
  gic_data s !! chip_data d = Some g ->
  (exists k, dist_base g = IoMem (DistWin k) 0) ->
  let n := U32.wrap (irq d - irq_offset g) in
  16 <= n < 1024 ->
  let base := dist_base g in
  let f0 := Device.config_field (hw s) base n in
  exists s1 s2,
    gic_set_type K d IRQ_TYPE_EDGE_RISING s = Ok 0 s1 /\
    gic_set_type K d IRQ_TYPE_LEVEL_HIGH s1 = Ok 0 s2 /\
    Device.config_field (hw s1) base n = Z.lor (Z.land f0 1) 2 /\
    Device.config_field (hw s2) base n = Z.land f0 1 /\
    (Z.testbit f0 0 = false ->
     Device.config_field (hw s1) base n = 2 /\
     Device.config_field (hw s2) base n = 0) /\
    (forall n', 0 <= n' < 1024 -> n' <> n ->
       Device.config_field (hw s1) base n' = Device.config_field (hw s) base n' /\
       Device.config_field (hw s2) base n' = Device.config_field (hw s) base n').
Proof.
  intros Hg [k Hbase] n Hn base f0.
  destruct (config_field_after K s d g k IRQ_TYPE_EDGE_RISING Hg Hbase)
    as (s1 & Hrun1 & Hd1 & Hf1); [done | by right |].
  assert (gic_data s1 !! chip_data d = Some g) as Hg1 by (by rewrite Hd1).
  destruct (config_field_after K s1 d g k IRQ_TYPE_LEVEL_HIGH Hg1 Hbase)
    as (s2 & Hrun2 & Hd2 & Hf2); [done | by left |].
  fold n base in Hf1, Hf2.
  pose proof (eq_refl : (IRQ_TYPE_EDGE_RISING =? IRQ_TYPE_LEVEL_HIGH) = false) as E1.
  pose proof (eq_refl : (IRQ_TYPE_LEVEL_HIGH =? IRQ_TYPE_LEVEL_HIGH) = true) as E2.
  assert (Device.config_field (hw s1) base n = Z.lor (Z.land f0 1) 2) as H1.
  { rewrite Hf1 by lia. by rewrite decide_True, E1. }
  assert (Device.config_field (hw s2) base n = Z.land f0 1) as H2.
  { rewrite Hf2 by lia. rewrite decide_True, E2 by done. rewrite H1. apply low_bit_kept. }
  exists s1, s2. repeat (split; [done|]). split.
  - intros Hlow. rewrite H1, H2, (low_bit_clear f0 Hlow). done.
  - intros n' Hn' Hne.
    rewrite Hf2, Hf1 by done. by rewrite !decide_False by done.
Qed.

(** Interrupt 72, local line 40, of the sample controller, whose
    configuration registers read 0 after bring-up. *)
Lemma gic_set_type_field_witness :
  let base := IoMem (DistWin 0) 0 in
  exists s1 s2,
    gic_set_type Sample.K (Sample.line 72) IRQ_TYPE_EDGE_RISING Sample.up = Ok 0 s1 /\
    gic_set_type Sample.K (Sample.line 72) IRQ_TYPE_LEVEL_HIGH s1 = Ok 0 s2 /\
    Device.config_field (hw s1) base 40 = 2 /\
    Device.config_field (hw s2) base 40 = 0 /\
    (forall n', 0 <= n' < 1024 -> n' <> 40 ->
       Device.config_field (hw s1) base n' = Device.config_field (hw Sample.up) base n' /\
       Device.config_field (hw s2) base n' = Device.config_field (hw Sample.up) base n').
Proof.
  destruct (gic_set_type_field Sample.K Sample.up (Sample.line 72) Sample.chip0)
    as (s1 & s2 & Hrun1 & Hrun2 & _ & _ & Hfield & Hrest).
  - vm_compute. reflexivity.
  - exists 0%nat. reflexivity.
  - vm_compute. split; [discriminate | reflexivity].
  - destruct Hfield as [H1 H2]; [vm_compute; reflexivity|].
    exists s1, s2.
    split; [exact Hrun1|]. split; [exact Hrun2|].
    split; [exact H1|]. split; [exact H2|]. exact Hrest.
Defined.

(** C2, as stated, fails: where the field of local line 40 reads 01,
    edge-rising leaves 11 and the level-high that follows leaves 01. *)
Lemma gic_set_type_keeps_low_bit :
  let base := IoMem (DistWin 0) 0 in
  gic_data Sample.odd = [Sample.chip0] /\
  Device.config_field (hw Sample.odd) base 40 = 1 /\
  exists s1 s2,
    gic_set_type Sample.K (Sample.line 72) IRQ_TYPE_EDGE_RISING Sample.odd = Ok 0 s1 /\
    gic_set_type Sample.K (Sample.line 72) IRQ_TYPE_LEVEL_HIGH s1 = Ok 0 s2 /\
    Device.config_field (hw s1) base 40 = 3 /\
    Device.config_field (hw s2) base 40 = 1.
Proof.
  intros base. split; [vm_compute; reflexivity|].
  split; [vm_compute; reflexivity|].
  destruct (config_field_after Sample.K Sample.odd (Sample.line 72) Sample.chip0 0
              IRQ_TYPE_EDGE_RISING) as (s1 & Hrun1 & Hd1 & Hf1).
  { vm_compute. reflexivity. } { reflexivity. }
  { vm_compute. split; [discriminate | reflexivity]. } { by right. }
  destruct (config_field_after Sample.K s1 (Sample.line 72) Sample.chip0 0
              IRQ_TYPE_LEVEL_HIGH) as (s2 & Hrun2 & Hd2 & Hf2).
  { rewrite Hd1. vm_compute. reflexivity. } { reflexivity. }
  { vm_compute. split; [discriminate | reflexivity]. } { by left. }
  exists s1, s2. split; [exact Hrun1|]. split; [exact Hrun2|].
  specialize (Hf1 40 ltac:(lia)). specialize (Hf2 40 ltac:(lia)).
  rewrite decide_True in Hf1, Hf2 by (vm_compute; reflexivity).
  replace (U32.wrap (irq (Sample.line 72) - irq_offset Sample.chip0)) with 40 in Hf2
    by (vm_compute; reflexivity).
  rewrite Hf1 in Hf2. subst base.
  unfold Sample.chip0 in Hf1, Hf2. cbn [dist_base] in Hf1, Hf2.
  rewrite Hf1, Hf2. split; vm_compute; reflexivity.
Qed.


(** ** Routing *)

(** What a call of [gic_set_cpu] comes to. *)
Lemma gic_set_cpu_run K s d g m force :
  gic_data s !! chip_data d = Some g ->
  let n := U32.wrap (irq d - irq_offset g) in
  let reg := dist_base g +@ GIC_DIST_TARGET +@ Z.land n (U32.not 3) in
  let shift := irq d mod 4 * 8 in
  let cpu := cpumask_first K m in
  let v := Device.read (hw s) reg in
  let v' := Z.lor (Z.land v (U32.not (U32.shl 0xff shift))) (U32.shl 1 (cpu + shift)) in
  gic_set_cpu K d m force s =
  match irq_descs s !! irq d with
  | None =>
      Ok (- EINVAL, d)
         (State (hw s) (gic_data s) (gic_cpu_base_addr s) (irq_descs s)
                (trace s ++ [EvLock; EvUnlock]))
  | Some _ =>
      Ok (0, set_node cpu d)
         (State (Device.write (hw s) reg (U32.wrap v')) (gic_data s)
                (gic_cpu_base_addr s) (irq_descs s)
                (trace s ++ [EvLock; EvRead reg v; EvWrite reg (U32.wrap v'); EvUnlock]))
  end.
Proof.
  intros Hg n reg shift cpu v v'. subst v' v cpu shift reg.
  unfold gic_set_cpu. run Hg. fold n.
  destruct (irq_descs s !! irq d); run Hg; state_eq.
Qed.

Lemma land_not3 x : Z.land (U32.wrap x) (U32.not 3) = U32.wrap x / 4 * 4.
Proof.
  change 4 with (2 ^ 2).
  rewrite <- Z.shiftr_div_pow2, <- Z.shiftl_mul_pow2 by lia.
  apply Z.bits_inj'; intros b Hb.
  destruct (Z.lt_ge_cases b 2).
  - rewrite Z.shiftl_spec, (Z.testbit_neg_r _ (b - 2)) by lia. bit_specs. bit_finish.
  - rewrite Z.shiftl_spec, Z.shiftr_spec by lia.
    replace (b - 2 + 2) with b by lia. bit_specs. bit_finish.
Qed.

(** The target byte of a line after the read-modify-write of
    [gic_set_cpu] for a line of the same word. *)
Lemma target_byte_after v c k k' :
  0 <= c < 8 -> 0 <= k < 4 -> 0 <= k' < 4 ->
  Z.land (Z.shiftr
            (U32.wrap (Z.lor (Z.land v (U32.not (U32.shl 0xff (k * 8))))
                             (U32.shl 1 (c + k * 8))))
            (k' * 8)) 0xff =
  if decide (k' = k) then Z.shiftl 1 c else Z.land (Z.shiftr v (k' * 8)) 0xff.
Proof.
  intros Hc Hk Hk'. case_decide; [subst k'|]; bitblast.
Qed.

Lemma target_word n : 0 <= n < 1024 -> 0 <= n / 4 < 256 /\ 0 <= n mod 4 < 4.
Proof.
  intros Hn. split; [|apply Z.mod_pos_bound; lia].
  split; [apply Z.div_pos; lia | apply Z.div_lt_upper_bound; lia].
Qed.

Lemma local_byte_position i off :
  off mod 4 = 0 -> U32.wrap (i - off) mod 4 = i mod 4.
Proof.
  intros H. rewrite Bits.wrap_mod4, Zminus_mod, H, Z.sub_0_r. apply Z.mod_mod. lia.
Qed.

(** C4, as the code has it.  [gic_set_cpu] has no check of the local line:
    for a line below 32 it does what it does for any other.  When the
    interrupt has no descriptor it returns [-EINVAL], the registers as they
    were and the lock taken and released.  Otherwise it returns 0 with
    [d->node] the first CPU [c] of the mask, and, on a controller whose
    offset is a multiple of 4 and for [c] below 8, the line's target byte
    is [1 << c] and every other target byte is as before. *)
Theorem gic_set_cpu_target K s d g m force :
  gic_data s !! chip_data d = Some g ->
  let n := U32.wrap (irq d - irq_offset g) in
  let c := cpumask_first K m in
  let base := dist_base g in
  match irq_descs s !! irq d with
  | None =>
      exists s',
        gic_set_cpu K d m force s = Ok (- EINVAL, d) s' /\
        hw s' = hw s /\ added s s' [EvLock; EvUnlock]
  | Some _ =>
      exists s',
        gic_set_cpu K d m force s = Ok (0, set_node c d) s' /\
        ((exists k, base = IoMem (DistWin k) 0) ->
         irq_offset g mod 4 = 0 -> n < 1024 -> 0 <= c < 8 ->
         Device.target_byte (hw s') base n = Z.shiftl 1 c /\
         forall n', 0 <= n' < 1024 -> n' <> n ->
           Device.target_byte (hw s') base n' = Device.target_byte (hw s) base n')
  end.
Proof.
  intros Hg n c base.
  pose proof (gic_set_cpu_run K s d g m force Hg) as Hrun. cbv zeta in Hrun.
  fold n c base in Hrun.
  destruct (irq_descs s !! irq d) as [desc|].
  - eexists. split; [exact Hrun|]. clear Hrun.
    intros [k Hbase] Hoff Hn Hc. cbn [hw].
    assert (0 <= n) as Hn0 by apply Bits.wrap_range.
    destruct (target_word n ltac:(lia)) as [Hw Hb].
    assert (irq d mod 4 = n mod 4) as -> by (symmetry; by apply local_byte_position).
    assert (Z.land n (U32.not 3) = n / 4 * 4) as -> by apply land_not3.
    assert (forall n', 0 <= n' < 1024 ->
              Device.target_byte
                (Device.write (hw s) (base +@ GIC_DIST_TARGET +@ n / 4 * 4)
                   (U32.wrap
                      (Z.lor
                         (Z.land (Device.read (hw s) (base +@ GIC_DIST_TARGET +@ n / 4 * 4))
                                 (U32.not (U32.shl 255 (n mod 4 * 8))))
                         (U32.shl 1 (c + n mod 4 * 8))))) base n' =
              if decide (n' = n) then Z.shiftl 1 c
              else Device.target_byte (hw s) base n') as Hbyte.
    { intros n' Hn'. destruct (target_word n' Hn') as [Hw' Hb'].
      pose proof (Z.div_mod n 4 ltac:(lia)). pose proof (Z.div_mod n' 4 ltac:(lia)).
      unfold Device.target_byte. rewrite Hbase.
      rewrite !DeviceFacts.read_target, (DeviceFacts.write_target _ k (n / 4)) by done.
      case_decide as Hword.
      - destruct Hword as [_ Hword]. assert (n' / 4 = n / 4) as Heq by lia.
        rewrite target_byte_after by done.
        repeat case_decide; try done; try lia. by rewrite Heq.
      - rewrite decide_False; [done|]. intros ->. by apply Hword. }
    split.
    + rewrite Hbyte by lia. by rewrite decide_True.
    + intros n' Hn' Hne. rewrite Hbyte by done. by rewrite decide_False.
  - eexists. split; [exact Hrun|]. split; [done|]. reflexivity.
Qed.

(** Interrupt 72, local line 40, routed to the CPUs 1 and up: CPU 1 is
    taken. *)
Lemma gic_set_cpu_target_witness :
  let base := IoMem (DistWin 0) 0 in
  exists s',
    gic_set_cpu Sample.K (Sample.line 72) 0xfe false Sample.up
      = Ok (0, set_node 1 (Sample.line 72)) s' /\
    Device.target_byte (hw s') base 40 = 2 /\
    forall n', 0 <= n' < 1024 -> n' <> 40 ->
      Device.target_byte (hw s') base n' = Device.target_byte (hw Sample.up) base n'.
Proof.
  pose proof (gic_set_cpu_target Sample.K Sample.up (Sample.line 72) Sample.chip0
                0xfe false) as H.
  cbv zeta in H.
  replace (irq_descs Sample.up !! irq (Sample.line 72))
    with (Some (IrqDesc (IrqData 72 0 None 0) 0)) in H by (vm_compute; reflexivity).
  destruct H as (s' & Hrun & Hbytes).
  - vm_compute. reflexivity.
  - destruct Hbytes as [Hb Hrest].
    + exists 0%nat. reflexivity.
    + reflexivity.
    + vm_compute. reflexivity.
    + vm_compute. split; [discriminate | reflexivity].
    + exists s'. split; [exact Hrun|]. split; [exact Hb | exact Hrest].
Defined.

(** C4, as stated, fails twice.  Interrupt 37 is local line 5, below 32:
    the call returns 0, not [-EINVAL], and writes the target register.
    Interrupt 300 has no descriptor: the call returns [-EINVAL], the code
    of an invalid argument, not [-ENOENT]. *)
Lemma gic_set_cpu_local_line_accepted :
  gic_data Sample.up = [Sample.chip0] /\
  irq_descs Sample.up !! 300 = None /\
  U32.wrap (irq (Sample.line 37) - irq_offset Sample.chip0) < 32 /\
  (exists s',
      gic_set_cpu Sample.K (Sample.line 37) 1 false Sample.up
        = Ok (0, Sample.line 37) s' /\
      run_trace (gic_set_cpu Sample.K (Sample.line 37) 1 false) Sample.up
        = Some [EvLock; EvRead (IoMem (DistWin 0) 0x804) 0;
                EvWrite (IoMem (DistWin 0) 0x804) 0x100; EvUnlock]) /\
  (exists s',
      gic_set_cpu Sample.K (Sample.line 300) 1 false Sample.up
        = Ok (- EINVAL, Sample.line 300) s' /\
      - EINVAL <> - ENOENT).
Proof.
  do 3 (split; [vm_compute; reflexivity|]).
  pose proof (gic_set_cpu_run Sample.K Sample.up (Sample.line 37) Sample.chip0 1 false)
    as H37.
  pose proof (gic_set_cpu_run Sample.K Sample.up (Sample.line 300) Sample.chip0 1 false)
    as H300.
  cbv zeta in H37, H300.
  replace (irq_descs Sample.up !! irq (Sample.line 37))
    with (Some (IrqDesc (IrqData 37 0 None 0) 0)) in H37 by (vm_compute; reflexivity).
  replace (irq_descs Sample.up !! irq (Sample.line 300))
    with (@None irq_desc) in H300 by (vm_compute; reflexivity).
  split.
  - eexists. split; [apply H37; vm_compute; reflexivity|].
    vm_compute. reflexivity.
  - eexists. split; [apply H300; vm_compute; reflexivity|].
    vm_compute. discriminate.
Qed.


(** ** Lock discipline *)

Lemma run_trace_added {A} (m : M A) s a s' t :
  m s = Ok a s' -> added s s' t -> run_trace m s = Some t.
Proof.
  unfold run_trace, added. intros -> ->. by rewrite drop_app_length.
Qed.

Lemma lockless_not_disciplined t :
  takes_lock t = false -> existsb dist_access t = true ->
  lock_disciplined false t = false.
Proof.
  unfold takes_lock. induction t as [|e t IH]; [done|].
  destruct e; cbn; try done; intros Hl Ha; rewrite ?orb_false_r;
    try (by rewrite IH);
    destruct (is_dist_window (io_win a)); cbn in *; try done; by rewrite IH.
Qed.

Ltac discipline :=
  repeat (cbn [lock_disciplined dist_access negb andb orb app];
          rewrite ?orb_true_r);
  try reflexivity.

(** What the calls of [gic_mask_irq] and [gic_unmask_irq] come to. *)
Lemma gic_mask_irq_run K s d g :
  gic_data s !! chip_data d = Some g ->
  let a := dist_base g +@ GIC_DIST_ENABLE_CLEAR
           +@ U32.wrap (irq d - irq_offset g) / 32 * 4 in
  let v := U32.wrap (U32.shl 1 (irq d mod 32)) in
  gic_mask_irq K d s =
  Ok tt (State (Device.write (hw s) a v) (gic_data s) (gic_cpu_base_addr s)
               (irq_descs s)
               (trace s ++ [EvLock; EvWrite a v; EvUnlock]
                ++ (if CONFIG_MSM_MPM K then [EvMpmEnableIrq (irq d) 0] else []))).
Proof.
  intros Hg a v. subst a v. unfold gic_mask_irq. run Hg.
  destruct (CONFIG_MSM_MPM K); run Hg; state_eq.
Qed.

Lemma gic_unmask_irq_run K s d g :
  gic_data s !! chip_data d = Some g ->
  let a := dist_base g +@ GIC_DIST_ENABLE_SET
           +@ U32.wrap (irq d - irq_offset g) / 32 * 4 in
  let v := U32.wrap (U32.shl 1 (irq d mod 32)) in
  gic_unmask_irq K d s =
  Ok tt (State (Device.write (hw s) a v) (gic_data s) (gic_cpu_base_addr s)
               (irq_descs s)
               (trace s ++ [EvLock; EvWrite a v; EvUnlock]
                ++ (if CONFIG_MSM_MPM K then [EvMpmEnableIrq (irq d) 1] else []))).
Proof.
  intros Hg a v. subst a v. unfold gic_unmask_irq. run Hg.
  destruct (CONFIG_MSM_MPM K); run Hg; state_eq.
Qed.

Lemma run_trace_state {A} (m : M A) s a h gd cb ds t :
  m s = Ok a (State h gd cb ds (trace s ++ t)) -> run_trace m s = Some t.
Proof. intros H. by eapply run_trace_added. Qed.

(** C3, as the code has it.  [gic_mask_irq], [gic_unmask_irq],
    [gic_set_type] and [gic_set_cpu] access the Distributor only between
    taking the lock and releasing it, and [gic_set_wake] does not access it;
    [gic_suspend] and [gic_resume] never take the lock, and read and write
    the enable registers without it. *)
Theorem driver_lock_discipline K s d g di type m force on :
  gic_data s !! chip_data d = Some g ->
  irq_descs s !! irq d = Some di ->
  chip_data (desc_irq_data di) = chip_data d ->
  chip_ok g ->
  U32.wrap (irq d - irq_offset g) < 1024 ->
  disciplined_run (gic_mask_irq K d) s /\
  disciplined_run (gic_unmask_irq K d) s /\
  disciplined_run (gic_set_type K d type) s /\
  disciplined_run (gic_set_cpu K d m force) s /\
  (exists t, run_trace (gic_set_wake K d on) s = Some t /\
             existsb dist_access t = false /\ lock_disciplined false t = true) /\
  lockless_run (gic_suspend (SysDevice (chip_data d))) s (max_irq g) /\
  lockless_run (gic_resume (SysDevice (chip_data d))) s (max_irq g).
Proof.
  intros Hg Hd Hk [[k Hbase] Hmax Hwl Hel] Hn.
  set (n := U32.wrap (irq d - irq_offset g)) in *.
  assert (0 <= n) as Hn0 by apply Bits.wrap_range.
  split; [|split; [|split; [|split; [|split; [|split]]]]].
  - eexists. split; [eapply run_trace_state, gic_mask_irq_run, Hg|].
    destruct (CONFIG_MSM_MPM K); discipline.
  - eexists. split; [eapply run_trace_state, gic_unmask_irq_run, Hg|].
    destruct (CONFIG_MSM_MPM K); discipline.
  - destruct (Z.lt_ge_cases n 16) as [Hsgi|Hconf].
    { exists []. split; [|done]. eapply run_trace_added; [|apply added_refl].
      unfold gic_set_type. run Hg. fold n.
      destruct (Z.ltb_spec n 16); [reflexivity | lia]. }
    destruct (decide (type = IRQ_TYPE_LEVEL_HIGH \/ type = IRQ_TYPE_EDGE_RISING))
      as [Htype|Hbad].
    + eexists. split; [eapply run_trace_state, (gic_set_type_run K s d g type Hg); done|].
      destruct (negb (Z.land _ _ =? 0)), (negb _ && _), (CONFIG_MSM_MPM K); discipline.
    + exists []. split; [|done]. eapply run_trace_added; [|apply added_refl].
      unfold gic_set_type. run Hg. fold n.
      destruct (Z.ltb_spec n 16); [lia|].
      destruct (Z.eqb_spec type IRQ_TYPE_LEVEL_HIGH); [tauto|].
      destruct (Z.eqb_spec type IRQ_TYPE_EDGE_RISING); [tauto|]. reflexivity.
  - pose proof (gic_set_cpu_run K s d g m force Hg) as Hrun. cbv zeta in Hrun.
    rewrite Hd in Hrun.
    eexists. split; [eapply run_trace_state, Hrun|]. discipline.
  - destruct (gic_set_wake_run K s d g di on Hg Hd Hk) as (w & _ & Hrun).
    { fold n. rewrite Hwl. apply local_line_word. lia. }
    eexists. split; [eapply run_trace_state, Hrun|]. fold n.
    destruct (n <? 32), (CONFIG_MSM_RPM K); done.
  - destruct (gic_suspend_run (chip_data d) k s g Hg Hbase ltac:(lia) Hwl Hel)
      as (s' & l & t & Hrun & _ & _ & _ & _ & _ & _ & Ht & Hlock & Hacc).
    exists t. split; [by eapply run_trace_added|]. split; [done|].
    intros Hpos. apply lockless_not_disciplined; auto.
  - destruct (gic_resume_run (chip_data d) k s g Hg Hbase ltac:(lia) Hel)
      as (s' & t & Hrun & _ & _ & _ & _ & Ht & Hlock & Hacc).
    exists t. split; [by eapply run_trace_added|]. split; [done|].
    intros Hpos. apply lockless_not_disciplined; auto.
Qed.

(** Interrupt 72, local line 40, of the sample controller. *)
Lemma driver_lock_discipline_witness :
  disciplined_run (gic_mask_irq Sample.K (Sample.line 72)) Sample.up /\
  disciplined_run (gic_unmask_irq Sample.K (Sample.line 72)) Sample.up /\
  disciplined_run (gic_set_type Sample.K (Sample.line 72) IRQ_TYPE_EDGE_RISING) Sample.up /\
  disciplined_run (gic_set_cpu Sample.K (Sample.line 72) 1 false) Sample.up /\
  (exists t, run_trace (gic_set_wake Sample.K (Sample.line 72) 1) Sample.up = Some t /\
             existsb dist_access t = false /\ lock_disciplined false t = true) /\
  lockless_run (gic_suspend (SysDevice 0)) Sample.up 96 /\
  lockless_run (gic_resume (SysDevice 0)) Sample.up 96.
Proof.
  apply (driver_lock_discipline Sample.K Sample.up (Sample.line 72) Sample.chip0
           (IrqDesc (IrqData 72 0 None 0) 0) IRQ_TYPE_EDGE_RISING 1 false 1).
  - vm_compute. reflexivity.
  - vm_compute. reflexivity.
  - reflexivity.
  - split.
    + exists 0%nat. reflexivity.
    + vm_compute. split; discriminate.
    + reflexivity.
    + reflexivity.
  - vm_compute. reflexivity.
Defined.

(** C3, as stated, fails for the power transitions: [gic_suspend] on the
    sample controller reads and writes the enable registers of its three
    words and never takes the lock. *)
Lemma gic_suspend_without_lock :
  let dist o := IoMem (DistWin 0) o in
  let t := [EvRead (dist 0x100) 0xffff; EvWrite (dist 0x180) 0xffffffff;
            EvWrite (dist 0x100) 0;
            EvRead (dist 0x104) 0; EvWrite (dist 0x184) 0xffffffff;
            EvWrite (dist 0x104) 0;
            EvRead (dist 0x108) 0; EvWrite (dist 0x188) 0xffffffff;
            EvWrite (dist 0x108) 0;
            EvMb] in
  run_trace (gic_suspend (SysDevice 0)) Sample.up = Some t /\
  lock_disciplined false t = false.
Proof. split; vm_compute; reflexivity. Qed.

(** ** The frame of [gic_set_wake] *)

(** C10.  [gic_set_wake] reads and writes no register: the hardware is as
    it was, its events are at most the warning and the call of the platform
    hook, and of the driver's data only the one bit of [wakeup_irqs] of the
    line's controller may differ; the other controllers, [enabled_irqs],
    the other words of [wakeup_irqs] and the other bits of the word are as
    before.  The bit reaches the hardware with the next [gic_suspend],
    which leaves the line enabled exactly when the bit is set. *)
Theorem gic_set_wake_frame K s d g di on :
  gic_data s !! chip_data d = Some g ->
  irq_descs s !! irq d = Some di ->
  chip_data (desc_irq_data di) = chip_data d ->
  chip_ok g ->
  let n := U32.wrap (irq d - irq_offset g) in
  n < max_irq g ->
  exists s' g' t,
    gic_set_wake K d on s = Ok 0 s' /\
    hw s' = hw s /\
    irq_descs s' = irq_descs s /\
    gic_cpu_base_addr s' = gic_cpu_base_addr s /\
    added s s' t /\ existsb reg_access t = false /\
    (forall k', k' <> chip_data d -> gic_data s' !! k' = gic_data s !! k') /\
    gic_data s' !! chip_data d = Some g' /\
    g' = set_wakeup_irqs (wakeup_irqs g') g /\
    (forall j, j <> Z.to_nat (n / 32) -> wakeup_irqs g' !! j = wakeup_irqs g !! j) /\
    (forall n', 0 <= n' -> n' <> n ->
                line_bit (wakeup_irqs g') n' = line_bit (wakeup_irqs g) n') /\
    exists s'',
      gic_suspend (SysDevice (chip_data d)) s' = Ok 0 s'' /\
      Device.enabled (hw s'') (dist_base g) n = negb (on =? 0).
Proof.
  intros Hg Hd Hk [[k Hbase] Hmax Hwl Hel] n Hn.
  assert (0 <= n) as Hn0 by apply Bits.wrap_range.
  assert (Z.to_nat (n / 32) < 32)%nat as Hword by (apply local_line_word; lia).
  assert (chip_data d < length (gic_data s))%nat as Hnr by (by eapply lookup_lt_Some).
  destruct (gic_set_wake_run K s d g di on Hg Hd Hk) as (w & Hw & Hrun).
  { fold n. by rewrite Hwl. }
  fold n in Hw, Hrun.
  match type of Hrun with _ = Ok 0 ?st => set (s' := st) in * end.
  set (l' := <[Z.to_nat (n / 32) := wake_word w (n mod 32) on]> (wakeup_irqs g)) in *.
  assert (gic_data s' !! chip_data d = Some (set_wakeup_irqs l' g)) as Hg'
      by (by apply list_lookup_insert_eq).
  destruct (gic_suspend_run (chip_data d) k s' (set_wakeup_irqs l' g) Hg' Hbase)
    as (s'' & l & t & Hsusp & _ & _ & _ & _ & Hwords & _).
  { cbn. lia. } { cbn. subst l'. by rewrite length_insert. } { done. }
  exists s', (set_wakeup_irqs l' g),
    ((if n <? 32 then [EvWarn] else [])
     ++ (if CONFIG_MSM_RPM K then [EvMpmSetIrqWake (irq d) on] else [])).
  split; [exact Hrun|]. split; [done|]. split; [done|]. split; [done|].
  split; [reflexivity|]. split; [by destruct (n <? 32), (CONFIG_MSM_RPM K)|].
  split; [intros k' Hk'; by apply list_lookup_insert_ne|].
  split; [done|]. split; [done|].
  cbn [wakeup_irqs set_wakeup_irqs]. split; [|split].
  - intros j Hj. by apply list_lookup_insert_ne.
  - intros n' Hn' Hne. eapply line_bit_insert_other; try done.
    intros b Hb Hbne. by apply wake_word_other.
  - exists s''. split; [exact Hsusp|].
    destruct (Hwords (n / 32)) as (_ & w' & Hw' & Hhw).
    { apply Z.div_pos; lia. }
    { cbn [max_irq set_wakeup_irqs]. pose proof (Z.mul_div_le n 32). lia. }
    cbn [wakeup_irqs set_wakeup_irqs] in Hw'. subst l'.
    rewrite list_lookup_insert_eq in Hw' by lia. injection Hw' as <-.
    rewrite Hbase, enabled_line, Hhw, wrap_line_bit by lia.
    apply wake_word_same, Z.mod_pos_bound. lia.
Qed.

(** Interrupt 72, local line 40, of the sample controller is armed and
    the controller suspended. *)
Lemma gic_set_wake_frame_witness :
  exists s' g' t,
    gic_set_wake Sample.K (Sample.line 72) 1 Sample.up = Ok 0 s' /\
    hw s' = hw Sample.up /\
    irq_descs s' = irq_descs Sample.up /\
    gic_cpu_base_addr s' = gic_cpu_base_addr Sample.up /\
    added Sample.up s' t /\ existsb reg_access t = false /\
    (forall k', k' <> 0%nat -> gic_data s' !! k' = gic_data Sample.up !! k') /\
    gic_data s' !! 0%nat = Some g' /\
    g' = set_wakeup_irqs (wakeup_irqs g') Sample.chip0 /\
    (forall j, j <> 1%nat -> wakeup_irqs g' !! j = Sample.zeros !! j) /\
    (forall n', 0 <= n' -> n' <> 40 ->
                line_bit (wakeup_irqs g') n' = line_bit Sample.zeros n') /\
    exists s'',
      gic_suspend (SysDevice 0) s' = Ok 0 s'' /\
      Device.enabled (hw s'') (IoMem (DistWin 0) 0) 40 = true.
Proof.
  apply (gic_set_wake_frame Sample.K Sample.up (Sample.line 72) Sample.chip0
           (IrqDesc (IrqData 72 0 None 0) 0) 1).
  - vm_compute. reflexivity.
  - vm_compute. reflexivity.
  - reflexivity.
  - split.
    + exists 0%nat. reflexivity.
    + vm_compute. split; discriminate.
    + reflexivity.
    + reflexivity.
  - vm_compute. reflexivity.
Defined.


(** * More of the code *)

(** ** The enable bit of a line *)

Lemma single_bit_test e b :
  0 <= b < 32 -> (Z.land e (U32.shl 1 b) =? 0) = negb (Z.testbit e b).
Proof.
  intros Hb. rewrite Bits.shl_one_small, Z.shiftl_1_l by done.
  destruct (Z.testbit e b) eqn:He; cbn [negb].
  - apply Z.eqb_neq. intros H0.
    assert (Z.testbit (Z.land e (2 ^ b)) b = true) as Hbit
        by (rewrite Z.land_spec, He, Z.pow2_bits_true; [done | lia]).
    rewrite H0, Z.testbit_0_l in Hbit. done.
  - apply Z.eqb_eq. apply Z.bits_inj'; intros i Hi.
    rewrite Z.land_spec, Z.testbit_0_l, Z.pow2_bits_eqb by lia.
    destruct (Z.eqb_spec b i) as [<-|]; [by rewrite He | apply andb_false_r].
Qed.

Lemma same_word_other_bit n n' :
  0 <= n -> 0 <= n' -> n' / 32 = n / 32 -> (n' mod 32 =? n mod 32) = (n' =? n).
Proof.
  intros Hn Hn' Hw.
  destruct (line_word_bit n Hn) as [Hd _], (line_word_bit n' Hn') as [Hd' _].
  destruct (Z.eqb_spec (n' mod 32) (n mod 32)), (Z.eqb_spec n' n); try done; lia.
Qed.

(** The enable bits after a write of the bit of line [n] to Enable-Clear
    and to Enable-Set. *)
Lemma enabled_after_clear h k n n' :
  0 <= n < 1024 -> 0 <= n' < 1024 ->
  let base := IoMem (DistWin k) 0 in
  Device.enabled
    (Device.write h (base +@ GIC_DIST_ENABLE_CLEAR +@ n / 32 * 4)
       (U32.wrap (U32.shl 1 (n mod 32)))) base n'
  = Device.enabled h base n' && negb (n' =? n).
Proof.
  intros Hn Hn' base. subst base.
  pose proof (local_line_word n Hn). pose proof (local_line_word n' Hn').
  assert (0 <= n / 32 < 32) by (split; [apply Z.div_pos|]; lia).
  assert (0 <= n' mod 32 < 32) by (apply Z.mod_pos_bound; lia).
  assert (0 <= n mod 32 < 32) by (apply Z.mod_pos_bound; lia).
  rewrite !enabled_line, (DeviceFacts.write_enable_clear _ k (n / 32)) by done.
  case_decide as Hword.
  - destruct Hword as [_ Hword]. assert (n' / 32 = n / 32) as Heq by lia.
    rewrite <- (same_word_other_bit n n') by lia.
    bit_specs. bit_finish.
  - destruct (Z.eqb_spec n' n) as [->|]; [|by rewrite andb_true_r].
    exfalso. by apply Hword.
Qed.

Lemma enabled_after_set h k n n' :
  0 <= n < 1024 -> 0 <= n' < 1024 ->
  let base := IoMem (DistWin k) 0 in
  Device.enabled
    (Device.write h (base +@ GIC_DIST_ENABLE_SET +@ n / 32 * 4)
       (U32.wrap (U32.shl 1 (n mod 32)))) base n'
  = Device.enabled h base n' || (n' =? n).
Proof.
  intros Hn Hn' base. subst base.
  pose proof (local_line_word n Hn). pose proof (local_line_word n' Hn').
  assert (0 <= n / 32 < 32) by (split; [apply Z.div_pos|]; lia).
  assert (0 <= n' mod 32 < 32) by (apply Z.mod_pos_bound; lia).
  assert (0 <= n mod 32 < 32) by (apply Z.mod_pos_bound; lia).
  rewrite !enabled_line, (DeviceFacts.write_enable_set _ k (n / 32)) by done.
  case_decide as Hword.
  - destruct Hword as [_ Hword]. assert (n' / 32 = n / 32) as Heq by lia.
    rewrite <- (same_word_other_bit n n') by lia.
    bit_specs. bit_finish.
  - destruct (Z.eqb_spec n' n) as [->|]; [|by rewrite orb_false_r].
    exfalso. by apply Hword.
Qed.

(** X1.  On a controller whose offset is a multiple of 32, [gic_mask_irq]
    disables its line and [gic_unmask_irq] enables it, whatever the line was
    before, and the enable bit of every other line stays as it was. *)
Theorem gic_mask_unmask_enabled K s d g :
  gic_data s !! chip_data d = Some g ->
  (exists k, dist_base g = IoMem (DistWin k) 0) ->
  irq_offset g mod 32 = 0 ->
  let n := U32.wrap (irq d - irq_offset g) in
  n < 1024 ->
  let base := dist_base g in
  (exists s',
      gic_mask_irq K d s = Ok tt s' /\ gic_data s' = gic_data s /\
      forall n', 0 <= n' < 1024 ->
        Device.enabled (hw s') base n' = Device.enabled (hw s) base n' && negb (n' =? n)) /\
  (exists s',
      gic_unmask_irq K d s = Ok tt s' /\ gic_data s' = gic_data s /\
      forall n', 0 <= n' < 1024 ->
        Device.enabled (hw s') base n' = Device.enabled (hw s) base n' || (n' =? n)).
Proof.
  intros Hg [k Hbase] Hoff n Hn base.
  assert (0 <= n) by apply Bits.wrap_range.
  pose proof (gic_mask_irq_run K s d g Hg) as Hm.
  pose proof (gic_unmask_irq_run K s d g Hg) as Hu.
  cbv zeta in Hm, Hu. fold n in Hm, Hu.
  rewrite <- (local_bit_position (irq d) (irq_offset g)) in Hm, Hu by done.
  fold n in Hm, Hu. subst base. rewrite Hbase in *.
  split; (eexists; split; [eassumption|]; split; [done|]); intros n' Hn'; cbn [hw].
  - by apply enabled_after_clear.
  - by apply enabled_after_set.
Qed.

(** Interrupt 72, local line 40, of the sample controller. *)
Lemma gic_mask_unmask_enabled_witness :
  let base := IoMem (DistWin 0) 0 in
  (exists s',
      gic_mask_irq Sample.K (Sample.line 72) Sample.up = Ok tt s' /\
      gic_data s' = gic_data Sample.up /\
      forall n', 0 <= n' < 1024 ->
        Device.enabled (hw s') base n'
        = Device.enabled (hw Sample.up) base n' && negb (n' =? 40)) /\
  (exists s',
      gic_unmask_irq Sample.K (Sample.line 72) Sample.up = Ok tt s' /\
      gic_data s' = gic_data Sample.up /\
      forall n', 0 <= n' < 1024 ->
        Device.enabled (hw s') base n'
        = Device.enabled (hw Sample.up) base n' || (n' =? 40)).
Proof.
  apply (gic_mask_unmask_enabled Sample.K Sample.up (Sample.line 72) Sample.chip0).
  - vm_compute. reflexivity.
  - exists 0%nat. reflexivity.
  - reflexivity.
  - vm_compute. reflexivity.
Defined.

(** A write to a configuration word leaves the enable bits alone. *)
Lemma enabled_after_config h k n v n' :
  0 <= n < 1024 -> 0 <= n' < 1024 ->
  let base := IoMem (DistWin k) 0 in
  Device.enabled (Device.write h (base +@ GIC_DIST_CONFIG +@ n / 16 * 4) v) base n'
  = Device.enabled h base n'.
Proof.
  intros Hn Hn' base. subst base.
  pose proof (local_line_word n' Hn').
  assert (0 <= n / 16 < 64) by (split; [apply Z.div_pos | apply Z.div_lt_upper_bound]; lia).
  rewrite !enabled_line, (DeviceFacts.write_config _ k (n / 16)) by done.
  rewrite decide_False; [done|]. intros [_ ?]. lia.
Qed.

(** X2.  [gic_set_type] changes the configuration of a line only while
    the line is disabled, and leaves every enable bit as it found it.  An
    accepted call reads the configuration word and the enable word, then,
    if the line is enabled, writes its bit to Enable-Clear, then writes the
    configuration word, then, if the line was enabled, writes its bit to
    Enable-Set; if the line is disabled it writes the configuration word
    only.  These are all its register accesses, the hardware afterwards is
    what these writes make of the hardware before, at the configuration
    write the line is disabled, and afterwards every line is enabled exactly
    when it was before.  A rejected call returns in the state it was called
    in. *)
Theorem gic_set_type_keeps_enabled K s d g type :
  gic_data s !! chip_data d = Some g ->
  (exists k, dist_base g = IoMem (DistWin k) 0) ->
  let n := U32.wrap (irq d - irq_offset g) in
  n < 1024 ->
  let base := dist_base g in
  let on := Device.enabled (hw s) base n in
  let bit := Z.shiftl 1 (n mod 32) in
  let conf := base +@ GIC_DIST_CONFIG +@ (n / 16) * 4 in
  let en_set := base +@ GIC_DIST_ENABLE_SET +@ (n / 32) * 4 in
  let en_clear := base +@ GIC_DIST_ENABLE_CLEAR +@ (n / 32) * 4 in
  let before := [EvLock; EvRead conf (Device.read (hw s) conf);
                 EvRead en_set (Device.read (hw s) en_set)]
                ++ (if on then [EvWrite en_clear bit] else []) in
  let after := (if on then [EvWrite en_set bit] else []) ++ [EvUnlock] in
  (n < 16 \/ (type <> IRQ_TYPE_LEVEL_HIGH /\ type <> IRQ_TYPE_EDGE_RISING) ->
   gic_set_type K d type s = Ok (- EINVAL) s) /\
  (16 <= n -> type = IRQ_TYPE_LEVEL_HIGH \/ type = IRQ_TYPE_EDGE_RISING ->
   exists s' v rest,
     gic_set_type K d type s = Ok 0 s' /\
     added s s' (before ++ [EvWrite conf v] ++ after ++ rest) /\
     existsb reg_access rest = false /\
     hw s' = replay (before ++ [EvWrite conf v] ++ after) (hw s) /\
     Device.enabled (replay before (hw s)) base n = false /\
     gic_data s' = gic_data s /\ irq_descs s' = irq_descs s /\
     forall n', 0 <= n' < 1024 ->
       Device.enabled (hw s') base n' = Device.enabled (hw s) base n').
Proof.
  intros Hg [k Hbase] n Hn base on bit conf en_set en_clear before after.
  assert (0 <= n) as Hn0 by apply Bits.wrap_range.
  split.
  { intros Hbad. unfold gic_set_type. run Hg. fold n.
    destruct (Z.ltb_spec n 16) as [|Hge]; [done|].
    destruct Hbad as [|[H1 H2]]; [lia|].
    apply Z.eqb_neq in H1, H2. by rewrite H1, H2. }
  intros Hge Htype.
  pose proof (gic_set_type_run K s d g type Hg Hge Htype) as Hrun.
  cbv zeta in Hrun. fold n in Hrun.
  pose proof (local_line_word n ltac:(lia)).
  assert (0 <= n / 32 < 32) by (split; [apply Z.div_pos|]; lia).
  assert (0 <= n / 16 < 64) by (split; [apply Z.div_pos | apply Z.div_lt_upper_bound]; lia).
  assert (0 <= n mod 32 < 32) as Hb by (apply Z.mod_pos_bound; lia).
  assert (U32.wrap (U32.shl 1 (n mod 32)) = bit) as Hbit.
  { subst bit. rewrite <- (Bits.shl_one_small (n mod 32)) by done. apply Bits.wrap_wrap. }
  rewrite !(Bits.wrap_small (n / 16 * 4)), !(Bits.wrap_small (n / 32 * 4)) in Hrun by lia.
  rewrite single_bit_test, negb_involutive in Hrun by done.
  fold (Device.enabled (hw s) (dist_base g) n) in Hrun. fold base in Hrun.
  fold on conf en_set en_clear in Hrun. rewrite Hbit in Hrun.
  eexists _, _, _. split; [exact Hrun|]. clear Hrun.
  assert (Device.enabled (Device.write (hw s) en_clear bit) base n = false) as Hoff.
  { subst en_clear base. rewrite Hbase, <- Hbit, enabled_after_clear by lia.
    by rewrite Z.eqb_refl, andb_false_r. }
  subst before after. unfold added. cbn [hw gic_data irq_descs trace].
  split; [by rewrite <- !app_assoc|].
  split; [by destruct (_ && _), (CONFIG_MSM_MPM K)|].
  assert (on = Device.enabled (hw s) base n) as Hon by reflexivity. clearbody on.
  split; [by destruct on|].
  split; [destruct on; cbn [app replay]; [exact Hoff | by symmetry]|].
  split; [done|]. split; [done|].
  intros n' Hn'. subst conf en_set en_clear base. rewrite Hbase in *.
  destruct on; rewrite <- ?Hbit.
  - rewrite enabled_after_set, enabled_after_config, enabled_after_clear by lia.
    destruct (Z.eqb_spec n' n) as [->|]; [by rewrite <- Hon|].
    by rewrite andb_true_r, orb_false_r.
  - by rewrite enabled_after_config by lia.
Qed.

(** Interrupt 72 of the sample controller, local line 40, switched to
    edge-rising. *)
Lemma gic_set_type_keeps_enabled_witness :
  let base := IoMem (DistWin 0) 0 in
  let on := Device.enabled (hw Sample.up) base 40 in
  let bit := Z.shiftl 1 (40 mod 32) in
  let conf := base +@ GIC_DIST_CONFIG +@ (40 / 16) * 4 in
  let en_set := base +@ GIC_DIST_ENABLE_SET +@ (40 / 32) * 4 in
  let en_clear := base +@ GIC_DIST_ENABLE_CLEAR +@ (40 / 32) * 4 in
  let before := [EvLock; EvRead conf (Device.read (hw Sample.up) conf);
                 EvRead en_set (Device.read (hw Sample.up) en_set)]
                ++ (if on then [EvWrite en_clear bit] else []) in
  let after := (if on then [EvWrite en_set bit] else []) ++ [EvUnlock] in
  exists s' v rest,
    gic_set_type Sample.K (Sample.line 72) IRQ_TYPE_EDGE_RISING Sample.up = Ok 0 s' /\
    added Sample.up s' (before ++ [EvWrite conf v] ++ after ++ rest) /\
    existsb reg_access rest = false /\
    hw s' = replay (before ++ [EvWrite conf v] ++ after) (hw Sample.up) /\
    Device.enabled (replay before (hw Sample.up)) base 40 = false /\
    gic_data s' = gic_data Sample.up /\ irq_descs s' = irq_descs Sample.up /\
    forall n', 0 <= n' < 1024 ->
      Device.enabled (hw s') base n' = Device.enabled (hw Sample.up) base n'.
Proof.
  destruct (gic_set_type_keeps_enabled Sample.K Sample.up (Sample.line 72) Sample.chip0
              IRQ_TYPE_EDGE_RISING) as [_ Hrun].
  - vm_compute. reflexivity.
  - exists 0%nat. reflexivity.
  - vm_compute. reflexivity.
  - apply Hrun; [vm_compute; discriminate | right; reflexivity].
Defined.

(** X3.  An accepted [gic_set_type] hands the line to the edge handler
    exactly when the type is edge-rising and the line is a shared one (local
    line 32 or above); a call with level-high never sets a handler, so a
    line once switched to edge-rising keeps the edge handler when it is
    switched back. *)
Theorem gic_set_type_edge_handler K s d g type :
  gic_data s !! chip_data d = Some g ->
  let n := U32.wrap (irq d - irq_offset g) in
  16 <= n ->
  type = IRQ_TYPE_LEVEL_HIGH \/ type = IRQ_TYPE_EDGE_RISING ->
  exists s' t,
    gic_set_type K d type s = Ok 0 s' /\ added s s' t /\
    (EvSetHandlerEdge (irq d) ∈ t <-> type = IRQ_TYPE_EDGE_RISING /\ 32 <= n).
Proof.
  intros Hg n Hn Htype.
  pose proof (gic_set_type_run K s d g type Hg Hn Htype) as Hrun.
  cbv zeta in Hrun. fold n in Hrun.
  eexists _, _. split; [exact Hrun|]. split; [reflexivity|]. clear Hrun.
  rewrite !elem_of_app, !elem_of_cons, !elem_of_nil.
  assert (forall (b : bool) e, EvSetHandlerEdge (irq d) ∈ (if b then [EvWrite e
            (U32.wrap (U32.shl 1 (n mod 32)))] else []) <-> False) as Hw.
  { intros [] e; [rewrite elem_of_cons, elem_of_nil | rewrite elem_of_nil]; intuition discriminate. }
  assert (EvSetHandlerEdge (irq d) ∈ (if CONFIG_MSM_MPM K then [EvMpmSetIrqType (irq d) type]
            else []) <-> False) as Hm.
  { destruct (CONFIG_MSM_MPM K);
      [rewrite elem_of_cons, elem_of_nil | rewrite elem_of_nil]; intuition discriminate. }
  rewrite !Hw, Hm.
  destruct Htype as [-> | ->].
  - change (Z.land IRQ_TYPE_LEVEL_HIGH IRQ_TYPE_EDGE_RISING =? 0) with true.
    cbn [negb andb]. rewrite elem_of_nil.
    split; [intuition discriminate|]. intros [? _]. done.
  - change (Z.land IRQ_TYPE_EDGE_RISING IRQ_TYPE_EDGE_RISING =? 0) with false.
    cbn [negb andb].
    destruct (Z.ltb_spec 31 n).
    + rewrite elem_of_cons. split; [intros _; split; [done | lia] | auto 10].
    + rewrite elem_of_nil. split; [intuition discriminate | lia].
Qed.

(** Interrupt 72, local line 40: edge-rising installs the edge handler. *)
Lemma gic_set_type_edge_handler_witness :
  exists s' t,
    gic_set_type Sample.K (Sample.line 72) IRQ_TYPE_EDGE_RISING Sample.up = Ok 0 s' /\
    added Sample.up s' t /\
    (EvSetHandlerEdge 72 ∈ t <-> IRQ_TYPE_EDGE_RISING = IRQ_TYPE_EDGE_RISING /\ 32 <= 40).
Proof.
  apply (gic_set_type_edge_handler Sample.K Sample.up (Sample.line 72) Sample.chip0).
  - vm_compute. reflexivity.
  - vm_compute. discriminate.
  - right. reflexivity.
Defined.

(** ** More on power transitions *)

(** X4.  [gic_resume] enables exactly the lines of the snapshot
    [enabled_irqs], whatever the hardware held: called without a suspend
    before it, it does not keep the enabled set but installs the snapshot
    (all lines off when the snapshot is still zero). *)
Theorem gic_resume_installs_snapshot s gic_nr g :
  gic_data s !! gic_nr = Some g ->
  chip_ok g ->
  exists s',
    gic_resume (SysDevice gic_nr) s = Ok 0 s' /\
    gic_data s' = gic_data s /\
    forall n, 0 <= n < max_irq g ->
      Device.enabled (hw s') (dist_base g) n = line_bit (enabled_irqs g) n.
Proof.
  intros Hg [[k Hbase] Hmax Hwl Hel]. rewrite Hbase.
  destruct (gic_resume_run gic_nr k s g Hg Hbase ltac:(lia) Hel)
    as (s' & t & Hrun & Hd & _ & _ & Hwords & _).
  exists s'. split; [done|]. split; [done|]. intros n Hn.
  assert (0 <= n / 32 < 32) as Hword
      by (pose proof (local_line_word n); split; [apply Z.div_pos|]; lia).
  assert (n / 32 * 32 < max_irq g) as Hin
      by (pose proof (Z.mul_div_le n 32); lia).
  destruct (Hwords (n / 32) ltac:(lia) Hin) as (e & He & Hhw).
  rewrite enabled_line by lia. rewrite Hhw, wrap_line_bit.
  unfold line_bit. by rewrite He.
Qed.

(** The sample controller just after bring-up: its snapshot is zero, and a
    resume turns its 96 lines off. *)
Lemma gic_resume_installs_snapshot_witness :
  exists s',
    gic_resume (SysDevice 0) Sample.up = Ok 0 s' /\
    gic_data s' = gic_data Sample.up /\
    forall n, 0 <= n < 96 ->
      Device.enabled (hw s') (IoMem (DistWin 0) 0) n = line_bit Sample.zeros n.
Proof.
  apply (gic_resume_installs_snapshot Sample.up 0 Sample.chip0).
  - vm_compute. reflexivity.
  - split.
    + exists 0%nat. reflexivity.
    + vm_compute. split; discriminate.
    + reflexivity.
    + reflexivity.
Defined.

(** X5.  The snapshot holds one level: a second [gic_suspend] without a
    resume in between overwrites it with the wake set that the first one
    installed, and the [gic_resume] that follows enables the wake set, not
    the lines that were enabled before the first suspend. *)
Theorem gic_suspend_twice s gic_nr g :
  gic_data s !! gic_nr = Some g ->
  chip_ok g ->
  exists s1 s2 s3,
    gic_suspend (SysDevice gic_nr) s = Ok 0 s1 /\
    gic_suspend (SysDevice gic_nr) s1 = Ok 0 s2 /\
    gic_resume (SysDevice gic_nr) s2 = Ok 0 s3 /\
    forall n, 0 <= n < max_irq g ->
      Device.enabled (hw s2) (dist_base g) n = line_bit (wakeup_irqs g) n /\
      Device.enabled (hw s3) (dist_base g) n = line_bit (wakeup_irqs g) n.
Proof.
  intros Hg [[k Hbase] Hmax Hwl Hel]. rewrite Hbase.
  destruct (gic_suspend_run gic_nr k s g Hg Hbase ltac:(lia) Hwl Hel)
    as (s1 & l1 & t1 & Hrun1 & Hd1 & Hl1 & _ & _ & Hwords1 & _).
  assert (gic_nr < length (gic_data s))%nat as Hnr by (by eapply lookup_lt_Some).
  assert (gic_data s1 !! gic_nr = Some (set_enabled_irqs l1 g)) as Hg1
      by (rewrite Hd1; by apply list_lookup_insert_eq).
  destruct (gic_suspend_run gic_nr k s1 _ Hg1 Hbase ltac:(cbn; lia) Hwl Hl1)
    as (s2 & l2 & t2 & Hrun2 & Hd2 & Hl2 & _ & _ & Hwords2 & _).
  assert (gic_nr < length (gic_data s1))%nat as Hnr1 by (by eapply lookup_lt_Some).
  assert (gic_data s2 !! gic_nr = Some (set_enabled_irqs l2 (set_enabled_irqs l1 g)))
    as Hg2 by (rewrite Hd2; by apply list_lookup_insert_eq).
  destruct (gic_resume_run gic_nr k s2 _ Hg2 Hbase ltac:(cbn; lia) Hl2)
    as (s3 & t3 & Hrun3 & _ & _ & _ & Hwords3 & _).
  exists s1, s2, s3. repeat (split; [done|]).
  intros n Hn.
  assert (0 <= n / 32 < 32) as Hword
      by (pose proof (local_line_word n); split; [apply Z.div_pos|]; lia).
  assert (n / 32 * 32 < max_irq g) as Hin
      by (pose proof (Z.mul_div_le n 32); lia).
  destruct (Hwords1 (n / 32) ltac:(lia) Hin) as (_ & w1 & Hw1 & Hhw1).
  destruct (Hwords2 (n / 32) ltac:(lia) Hin) as (Hsaved & w2 & Hw2 & Hhw2).
  destruct (Hwords3 (n / 32) ltac:(lia) Hin) as (e & He & Hhw3).
  cbn [enabled_irqs wakeup_irqs max_irq set_enabled_irqs] in *.
  rewrite !enabled_line by lia. unfold line_bit. rewrite Hw1.
  assert (w2 = w1) as -> by congruence.
  assert (e = U32.wrap w1) as -> by congruence.
  by rewrite Hhw2, Hhw3, !wrap_line_bit.
Qed.

(** The sample controller with local line 40 armed, suspended twice. *)
Lemma gic_suspend_twice_witness :
  exists s1 s2 s3,
    gic_suspend (SysDevice 0) Sample.armed = Ok 0 s1 /\
    gic_suspend (SysDevice 0) s1 = Ok 0 s2 /\
    gic_resume (SysDevice 0) s2 = Ok 0 s3 /\
    forall n, 0 <= n < 96 ->
      Device.enabled (hw s2) (IoMem (DistWin 0) 0) n
        = line_bit (wakeup_irqs Sample.armed_chip) n /\
      Device.enabled (hw s3) (IoMem (DistWin 0) 0) n
        = line_bit (wakeup_irqs Sample.armed_chip) n.
Proof.
  apply (gic_suspend_twice Sample.armed 0 Sample.armed_chip).
  - vm_compute. reflexivity.
  - split.
    + exists 0%nat. reflexivity.
    + vm_compute. split; discriminate.
    + reflexivity.
    + reflexivity.
Defined.

Lemma gic_suspend_frame gic_nr k s g :
  gic_data s !! gic_nr = Some g ->
  dist_base g = IoMem (DistWin k) 0 ->
  max_irq g <= 1024 ->
  length (wakeup_irqs g) = 32%nat ->
  length (enabled_irqs g) = 32%nat ->
  exists s',
    gic_suspend (SysDevice gic_nr) s = Ok 0 s' /\
    forall x o, ~ enable_word_below k (max_irq g) x o -> hw s' x o = hw s x o.
Proof.
  intros Hg Hbase Hmax Hwl Hel.
  assert (gic_nr < length (gic_data s))%nat as Hnr by (by eapply lookup_lt_Some).
  pose (Inv := fun (i : Z) (s1 : state) =>
    0 <= i <= 32 /\ (forall j, 0 <= j < i -> j * 32 < max_irq g) /\
    (exists l, gic_data s1 = <[gic_nr := set_enabled_irqs l g]> (gic_data s) /\
               length l = 32%nat) /\
    forall x o, (forall j, 0 <= j < i -> ~ (x = DistWin k /\ o = 0x100 + j * 4)) ->
                hw s1 x o = hw s x o).
  destruct (for_loop_rule Inv (fun i => Z.to_nat (32 - i)) (more_words gic_nr)
              (fun i => U32.wrap (i + 1))
              (gic_suspend_word gic_nr (IoMem (DistWin k) 0))) with (fuel := word_passes)
              (i := 0) (s := s)
    as (i' & s' & Hrun & HI & Hc).
  - intros i s1 (Hi & Hbelow & (l & Hd & Hl) & Hframe).
    assert (gic_data s1 !! gic_nr = Some (set_enabled_irqs l g)) as Hg1
        by (rewrite Hd; by apply list_lookup_insert_eq).
    eexists. split; [by apply more_words_run|].
    cbn [max_irq set_enabled_irqs]. intros Hlt. apply Z.ltb_lt in Hlt.
    rewrite Bits.wrap_small in Hlt by lia.
    assert (0 <= i < 32) as Hi32 by lia.
    destruct (lookup_lt_is_Some_2 (wakeup_irqs g) (Z.to_nat i)) as [w Hw]; [lia|].
    eexists. split.
    { apply (gic_suspend_word_run gic_nr k s1 _ i w Hg1 Hi32); done. }
    rewrite Bits.wrap_small by lia. split; [|lia].
    split; [lia|]. split; [intros j Hj; specialize (Hbelow j); lia|].
    cbn [gic_data hw enabled_irqs set_enabled_irqs]. split.
    + eexists. rewrite Hd, list_insert_insert_eq. split; [reflexivity|].
      by rewrite length_insert.
    + intros x o Hxo. rewrite write_enable_word by done.
      rewrite decide_False by (apply Hxo; lia). apply Hframe.
      intros j Hj. apply Hxo. lia.
  - split; [lia|]. split; [lia|]. split; [|done]. exists (enabled_irqs g).
    by rewrite set_enabled_irqs_id, list_insert_id.
  - unfold word_passes. lia.
  - destruct HI as (Hi & Hbelow & _ & Hframe).
    exists (log EvMb s'). split.
    { unfold gic_suspend. cbn [sysdev_id]. run Hg. rewrite Hbase, Hrun. reflexivity. }
    cbn [log hw]. intros x o Hxo. apply Hframe. intros j Hj [-> ->].
    apply Hxo. split; [done|]. exists j. split; [lia|]. split; [|done]. by apply Hbelow.
Qed.

Lemma gic_resume_frame gic_nr k s g :
  gic_data s !! gic_nr = Some g ->
  dist_base g = IoMem (DistWin k) 0 ->
  max_irq g <= 1024 ->
  length (enabled_irqs g) = 32%nat ->
  exists s',
    gic_resume (SysDevice gic_nr) s = Ok 0 s' /\
    forall x o, ~ enable_word_below k (max_irq g) x o -> hw s' x o = hw s x o.
Proof.
  intros Hg Hbase Hmax Hel.
  pose (Inv := fun (i : Z) (s1 : state) =>
    0 <= i <= 32 /\ (forall j, 0 <= j < i -> j * 32 < max_irq g) /\
    gic_data s1 = gic_data s /\
    forall x o, (forall j, 0 <= j < i -> ~ (x = DistWin k /\ o = 0x100 + j * 4)) ->
                hw s1 x o = hw s x o).
  destruct (for_loop_rule Inv (fun i => Z.to_nat (32 - i)) (more_words gic_nr)
              (fun i => U32.wrap (i + 1))
              (gic_resume_word gic_nr (IoMem (DistWin k) 0))) with (fuel := word_passes)
              (i := 0) (s := s)
    as (i' & s' & Hrun & HI & Hc).
  - intros i s1 (Hi & Hbelow & Hd & Hframe).
    assert (gic_data s1 !! gic_nr = Some g) as Hg1 by (by rewrite Hd).
    eexists. split; [by apply more_words_run|].
    intros Hlt. apply Z.ltb_lt in Hlt.
    rewrite Bits.wrap_small in Hlt by lia.
    assert (0 <= i < 32) as Hi32 by lia.
    destruct (lookup_lt_is_Some_2 (enabled_irqs g) (Z.to_nat i)) as [w Hw]; [lia|].
    eexists. split.
    { apply (gic_resume_word_run gic_nr k s1 _ i w Hg1 Hi32); done. }
    rewrite Bits.wrap_small by lia. split; [|lia].
    split; [lia|]. split; [intros j Hj; specialize (Hbelow j); lia|].
    cbn [gic_data hw]. split; [done|].
    intros x o Hxo. rewrite write_enable_word by done.
    rewrite decide_False by (apply Hxo; lia). apply Hframe.
    intros j Hj. apply Hxo. lia.
  - split; [lia|]. split; [lia|]. done.
  - unfold word_passes. lia.
  - destruct HI as (Hi & Hbelow & _ & Hframe).
    exists (log EvMb s'). split.
    { unfold gic_resume. cbn [sysdev_id]. run Hg. rewrite Hbase, Hrun. reflexivity. }
    cbn [log hw]. intros x o Hxo. apply Hframe. intros j Hj [-> ->].
    apply Hxo. split; [done|]. exists j. split; [lia|]. split; [|done]. by apply Hbelow.
Qed.

(** X6.  [gic_suspend] and [gic_resume] write nothing but the enable words
    of the lines below the controller's line count: every other register,
    of this distributor (configuration, targets, priorities, pending bits,
    enable words of lines the controller does not have) and of every other
    window, holds after each of them what it held before. *)
Theorem power_transitions_frame s gic_nr g k :
  gic_data s !! gic_nr = Some g ->
  chip_ok g ->
  dist_base g = IoMem (DistWin k) 0 ->
  (exists s',
     gic_suspend (SysDevice gic_nr) s = Ok 0 s' /\
     forall x o, ~ enable_word_below k (max_irq g) x o -> hw s' x o = hw s x o) /\
  (exists s',
     gic_resume (SysDevice gic_nr) s = Ok 0 s' /\
     forall x o, ~ enable_word_below k (max_irq g) x o -> hw s' x o = hw s x o).
Proof.
  intros Hg [_ Hmax Hwl Hel] Hbase. split.
  - apply gic_suspend_frame; [done | done | lia | done | done].
  - apply gic_resume_frame; [done | done | lia | done].
Qed.

Lemma power_transitions_frame_witness :
  (exists s',
     gic_suspend (SysDevice 0) Sample.armed = Ok 0 s' /\
     forall x o, ~ enable_word_below 0 96 x o -> hw s' x o = hw Sample.armed x o) /\
  (exists s',
     gic_resume (SysDevice 0) Sample.armed = Ok 0 s' /\
     forall x o, ~ enable_word_below 0 96 x o -> hw s' x o = hw Sample.armed x o).
Proof.
  apply (power_transitions_frame Sample.armed 0 Sample.armed_chip 0).
  - vm_compute. reflexivity.
  - split.
    + exists 0%nat. reflexivity.
    + vm_compute. split; discriminate.
    + reflexivity.
    + reflexivity.
  - reflexivity.
Defined.

(** ** Pending state of a line *)

Module PendingFacts.

Import Device.

Section Distributor.

Variables (h : hardware) (k : nat).
Let base := IoMem (DistWin k) 0.

Lemma read_pending j :
  0 <= j < 32 ->
  read h (base +@ GIC_DIST_PENDING_SET +@ j * 4) = h (DistWin k) (0x200 + j * 4).
Proof. intros Hj. subst base. DeviceFacts.crush. Qed.

(** Writing to Pending-Clear takes the bits out of the pending word. *)
Lemma write_pending_clear j v w o :
  0 <= j < 32 ->
  write h (base +@ GIC_DIST_PENDING_CLEAR +@ j * 4) v w o =
  if decide (w = DistWin k /\ o = 0x200 + j * 4)
  then Z.land (h w o) (U32.not v) else h w o.
Proof.
  intros Hj. subst base. DeviceFacts.crush.
  all: try (do 2 f_equal; lia).
Qed.

End Distributor.

End PendingFacts.

Lemma pending_line h k n :
  0 <= n < 1024 ->
  pending h (IoMem (DistWin k) 0) n
  = Z.testbit (h (DistWin k) (0x200 + (n / 32) * 4)) (n mod 32).
Proof.
  intros Hn. unfold pending. rewrite PendingFacts.read_pending; [done|].
  pose proof (local_line_word n Hn). split; [apply Z.div_pos|]; lia.
Qed.

Ltac run2 H1 H2 :=
  run_unfold; repeat (progress (run_simpl; cbn [fmap option_fmap option_map];
                                rewrite ?H1, ?H2)).

Lemma gic_is_spi_pending_run s i desc g dis :
  irq_descs s !! i = Some desc ->
  let d := desc_irq_data desc in
  gic_data s !! chip_data d = Some g ->
  let n := U32.wrap (irq d - irq_offset g) in
  let mask := U32.shl 1 (n mod 32) in
  let en_a := dist_base g +@ GIC_DIST_ENABLE_SET +@ (n / 32) * 4 in
  let pe_a := dist_base g +@ GIC_DIST_PENDING_SET +@ (n / 32) * 4 in
  let en := Device.read (hw s) en_a in
  let pe := Device.read (hw s) pe_a in
  gic_is_spi_pending i dis s =
  Ok (negb (Z.land pe mask =? 0))
     (State (hw s) (gic_data s) (gic_cpu_base_addr s) (irq_descs s)
        (trace s ++ (if dis then [] else [EvWarn])
                 ++ [EvLock; EvRead en_a en]
                 ++ (if Z.land en mask =? 0 then [] else [EvWarn])
                 ++ [EvRead pe_a pe; EvUnlock])).
Proof.
  intros Hdesc d Hg n mask en_a pe_a en pe. subst pe en pe_a en_a mask.
  unfold gic_is_spi_pending, irq_get_irq_data, deref. run2 Hdesc Hg. fold d.
  destruct dis; cbn [negb]; run2 Hdesc Hg; fold d; rewrite ?Hg; run2 Hdesc Hg; fold n;
    destruct (Z.land _ _ =? 0); cbn [negb]; run2 Hdesc Hg; state_eq.
Qed.

Lemma gic_clear_spi_pending_run s i desc g dis :
  irq_descs s !! i = Some desc ->
  let d := desc_irq_data desc in
  gic_data s !! chip_data d = Some g ->
  let n := U32.wrap (irq d - irq_offset g) in
  let mask := U32.shl 1 (n mod 32) in
  let en_a := dist_base g +@ GIC_DIST_ENABLE_SET +@ (n / 32) * 4 in
  let pc_a := dist_base g +@ GIC_DIST_PENDING_CLEAR +@ (n / 32) * 4 in
  let en := Device.read (hw s) en_a in
  gic_clear_spi_pending i dis s =
  Ok tt
     (State (Device.write (hw s) pc_a (U32.wrap mask))
        (gic_data s) (gic_cpu_base_addr s) (irq_descs s)
        (trace s ++ (if dis then [] else [EvWarn])
                 ++ [EvLock; EvRead en_a en]
                 ++ (if Z.land en mask =? 0 then [] else [EvWarn])
                 ++ [EvWrite pc_a (U32.wrap mask); EvUnlock])).
Proof.
  intros Hdesc d Hg n mask en_a pc_a en. subst en pc_a en_a mask.
  unfold gic_clear_spi_pending, irq_get_irq_data, deref. run2 Hdesc Hg. fold d.
  destruct dis; cbn [negb]; run2 Hdesc Hg; fold d; rewrite ?Hg; run2 Hdesc Hg; fold n;
    destruct (Z.land _ _ =? 0); cbn [negb]; run2 Hdesc Hg; state_eq.
Qed.

Lemma pending_after_clear h k n n' :
  0 <= n < 1024 -> 0 <= n' < 1024 ->
  let base := IoMem (DistWin k) 0 in
  let h' := Device.write h (base +@ GIC_DIST_PENDING_CLEAR +@ n / 32 * 4)
              (U32.wrap (U32.shl 1 (n mod 32))) in
  pending h' base n' = pending h base n' && negb (n' =? n) /\
  Device.enabled h' base n' = Device.enabled h base n'.
Proof.
  intros Hn Hn' base h'. subst h' base.
  pose proof (local_line_word n Hn). pose proof (local_line_word n' Hn').
  assert (0 <= n / 32 < 32) by (split; [apply Z.div_pos|]; lia).
  assert (0 <= n' mod 32 < 32) by (apply Z.mod_pos_bound; lia).
  assert (0 <= n mod 32 < 32) by (apply Z.mod_pos_bound; lia).
  rewrite !pending_line, !enabled_line,
    !(PendingFacts.write_pending_clear _ k (n / 32)) by done.
  split; [|rewrite decide_False; [done | intros [_ ?]; lia]].
  case_decide as Hword.
  - destruct Hword as [_ Hword]. assert (n' / 32 = n / 32) as Heq by lia.
    rewrite <- (same_word_other_bit n n') by lia.
    bit_specs. bit_finish.
  - destruct (Z.eqb_spec n' n) as [->|]; [|by rewrite andb_true_r].
    exfalso. by apply Hword.
Qed.

(** X7.  [gic_is_spi_pending] returns the pending bit of the line and
    changes no register and no driver data; it reads the distributor under
    the lock, and it warns exactly when it is called with interrupts on or
    for a line that is enabled. *)
Theorem gic_is_spi_pending_reads s i desc g dis :
  irq_descs s !! i = Some desc ->
  let d := desc_irq_data desc in
  gic_data s !! chip_data d = Some g ->
  (exists k, dist_base g = IoMem (DistWin k) 0) ->
  let n := U32.wrap (irq d - irq_offset g) in
  exists s' t,
    gic_is_spi_pending i dis s = Ok (pending (hw s) (dist_base g) n) s' /\
    hw s' = hw s /\ gic_data s' = gic_data s /\ irq_descs s' = irq_descs s /\
    added s s' t /\ lock_disciplined false t = true /\
    (EvWarn ∈ t <-> dis = false \/ Device.enabled (hw s) (dist_base g) n = true).
Proof.
  intros Hdesc d Hg [k Hbase] n.
  pose proof (gic_is_spi_pending_run s i desc g dis Hdesc Hg) as Hrun.
  cbv zeta in Hrun. fold d n in Hrun.
  assert (0 <= n mod 32 < 32) as Hbit by (apply Z.mod_pos_bound; lia).
  rewrite !single_bit_test, negb_involutive in Hrun by done.
  eexists _, _. split; [exact Hrun|]. clear Hrun.
  split; [done|]. split; [done|]. split; [done|]. split; [reflexivity|].
  unfold Device.enabled. rewrite Hbase.
  destruct dis, (Z.testbit _ _); cbn [negb app]; (split; [reflexivity|]);
    rewrite ?elem_of_cons, ?elem_of_nil; intuition discriminate.
Qed.

(** Interrupt 72 of the sample controller, queried with interrupts off. *)
Lemma gic_is_spi_pending_reads_witness :
  exists s' t,
    gic_is_spi_pending 72 true Sample.up
      = Ok (pending (hw Sample.up) (IoMem (DistWin 0) 0) 40) s' /\
    hw s' = hw Sample.up /\ gic_data s' = gic_data Sample.up /\
    irq_descs s' = irq_descs Sample.up /\
    added Sample.up s' t /\ lock_disciplined false t = true /\
    (EvWarn ∈ t <->
     true = false \/ Device.enabled (hw Sample.up) (IoMem (DistWin 0) 0) 40 = true).
Proof.
  apply (gic_is_spi_pending_reads Sample.up 72 (IrqDesc (Sample.line 72) 0) Sample.chip0).
  - vm_compute. reflexivity.
  - vm_compute. reflexivity.
  - exists 0%nat. reflexivity.
Defined.

(** X8.  [gic_clear_spi_pending] takes the pending bit of its line out and
    nothing else: the pending bit of every other line and the enable bit of
    every line stay, the driver data stays, and a query of the line that
    follows answers no. *)
Theorem gic_clear_spi_pending_clears s i desc g dis dis' :
  irq_descs s !! i = Some desc ->
  let d := desc_irq_data desc in
  gic_data s !! chip_data d = Some g ->
  (exists k, dist_base g = IoMem (DistWin k) 0) ->
  let n := U32.wrap (irq d - irq_offset g) in
  n < 1024 ->
  exists s' s'',
    gic_clear_spi_pending i dis s = Ok tt s' /\
    gic_data s' = gic_data s /\ irq_descs s' = irq_descs s /\
    (forall n', 0 <= n' < 1024 ->
       pending (hw s') (dist_base g) n'
         = pending (hw s) (dist_base g) n' && negb (n' =? n) /\
       Device.enabled (hw s') (dist_base g) n' = Device.enabled (hw s) (dist_base g) n') /\
    gic_is_spi_pending i dis' s' = Ok false s''.
Proof.
  intros Hdesc d Hg [k Hbase] n Hn.
  assert (0 <= n) as Hn0 by apply Bits.wrap_range.
  pose proof (gic_clear_spi_pending_run s i desc g dis Hdesc Hg) as Hrun.
  cbv zeta in Hrun. fold d n in Hrun. rewrite Hbase in *.
  match type of Hrun with _ = Ok tt ?st => set (s' := st) in * end.
  assert (forall n', 0 <= n' < 1024 ->
            pending (hw s') (IoMem (DistWin k) 0) n'
              = pending (hw s) (IoMem (DistWin k) 0) n' && negb (n' =? n) /\
            Device.enabled (hw s') (IoMem (DistWin k) 0) n'
              = Device.enabled (hw s) (IoMem (DistWin k) 0) n') as Hbits.
  { intros n' Hn'. subst s'. cbn [hw]. by apply pending_after_clear. }
  pose proof (gic_is_spi_pending_run s' i desc g dis' Hdesc Hg) as Hq.
  cbv zeta in Hq. fold d n in Hq. rewrite Hbase in Hq.
  assert (0 <= n mod 32 < 32) as Hbit by (apply Z.mod_pos_bound; lia).
  rewrite !single_bit_test, negb_involutive in Hq by done.
  fold (pending (hw s') (IoMem (DistWin k) 0) n) in Hq.
  destruct (Hbits n ltac:(lia)) as [Hp _].
  rewrite Z.eqb_refl, andb_false_r in Hp. rewrite Hp in Hq.
  eexists _, _. split; [exact Hrun|]. split; [done|]. split; [done|].
  split; [exact Hbits | exact Hq].
Qed.

Lemma gic_clear_spi_pending_clears_witness :
  exists s' s'',
    gic_clear_spi_pending 72 true Sample.up = Ok tt s' /\
    gic_data s' = gic_data Sample.up /\ irq_descs s' = irq_descs Sample.up /\
    (forall n', 0 <= n' < 1024 ->
       pending (hw s') (IoMem (DistWin 0) 0) n'
         = pending (hw Sample.up) (IoMem (DistWin 0) 0) n' && negb (n' =? 40) /\
       Device.enabled (hw s') (IoMem (DistWin 0) 0) n'
         = Device.enabled (hw Sample.up) (IoMem (DistWin 0) 0) n') /\
    gic_is_spi_pending 72 true s' = Ok false s''.
Proof.
  apply (gic_clear_spi_pending_clears Sample.up 72 (IrqDesc (Sample.line 72) 0)
           Sample.chip0 true true).
  - vm_compute. reflexivity.
  - vm_compute. reflexivity.
  - exists 0%nat. reflexivity.
  - vm_compute. reflexivity.
Defined.

(** X9.  For an interrupt number without a descriptor
    [irq_get_irq_data] is null, and both pending routines dereference it:
    they fault, after taking the lock, instead of returning. *)
Theorem spi_pending_without_descriptor s i dis :
  irq_descs s !! i = None ->
  gic_is_spi_pending i dis s = Crash /\ gic_clear_spi_pending i dis s = Crash.
Proof.
  intros Hdesc. unfold gic_is_spi_pending, gic_clear_spi_pending, irq_get_irq_data, deref.
  split; run2 Hdesc Hdesc; by destruct dis.
Qed.

(** The sample platform has no descriptor for interrupt 300. *)
Lemma spi_pending_without_descriptor_witness :
  gic_is_spi_pending 300 true Sample.up = Crash /\
  gic_clear_spi_pending 300 true Sample.up = Crash.
Proof.
  apply (spi_pending_without_descriptor Sample.up 300 true).
  vm_compute. reflexivity.
Defined.

(** ** Bring-up *)

Module InitFacts.

Import Device.

Section Distributor.

Variables (h : hardware) (k : nat).
Let base := IoMem (DistWin k) 0.

Lemma read_pri j :
  0 <= j < 256 ->
  read h (base +@ GIC_DIST_PRI +@ j * 4) = h (DistWin k) (0x400 + j * 4).
Proof. intros Hj. subst base. unfold GIC_DIST_PRI. DeviceFacts.crush. Qed.

Lemma write_pri j v w o :
  0 <= j < 256 ->
  write h (base +@ GIC_DIST_PRI +@ j * 4) v w o =
  if decide (w = DistWin k /\ o = 0x400 + j * 4) then v else h w o.
Proof. intros Hj. subst base. unfold GIC_DIST_PRI. DeviceFacts.crush. Qed.

Lemma read_ctrl : read h (base +@ GIC_DIST_CTRL) = h (DistWin k) 0.
Proof. subst base. unfold GIC_DIST_CTRL. DeviceFacts.crush. Qed.

Lemma write_ctrl v w o :
  write h (base +@ GIC_DIST_CTRL) v w o =
  if decide (w = DistWin k /\ o = 0) then v else h w o.
Proof. subst base. unfold GIC_DIST_CTRL. DeviceFacts.crush. Qed.

Lemma read_ctr : read h (base +@ GIC_DIST_CTR) = h (DistWin k) 4.
Proof. subst base. unfold GIC_DIST_CTR. DeviceFacts.crush. Qed.

End Distributor.

(** A register of a CPU interface is plain storage. *)
Lemma write_cpu h c b off v w o :
  write h (IoMem (CpuWin c) b +@ off) v w o =
  if decide (w = CpuWin c /\ o = b + off) then v else h w o.
Proof. DeviceFacts.crush. Qed.

Lemma read_cpu h c b off :
  read h (IoMem (CpuWin c) b +@ off) = h (CpuWin c) (b + off).
Proof. reflexivity. Qed.

End InitFacts.

(** The loops [for (i = i0; i < lim; i += step) writel(v, base + B + i * 4 /
    step)] of the bring-up, for a block [B] of distributor [k] whose write
    of [v] to word [j] puts [f old] at offset [B' + j * 4]. *)
Section Fill.

Variables (k : nat) (B B' : Z) (f : Z -> Z) (v step J : Z).
Hypothesis Hstep : 0 < step.
Hypothesis Hwrite : forall h j x o, 0 <= j < J ->
  Device.write h (IoMem (DistWin k) 0 +@ B +@ j * 4) (U32.wrap v) x o =
  if decide (x = DistWin k /\ o = B' + j * 4) then f (h x o) else h x o.

Lemma fill_run fuel lim m0 s :
  0 <= m0 -> lim <= J * step ->
  (Z.to_nat ((lim - m0 * step + step - 1) / step) < fuel)%nat ->
  exists s',
    for_loop fuel (fun i => ret (i <? lim)) (fun i => i + step)
      (fun i => writel v (IoMem (DistWin k) 0 +@ B +@ i * 4 / step)) (m0 * step) s
    = Ok tt s' /\
    gic_data s' = gic_data s /\ irq_descs s' = irq_descs s /\
    gic_cpu_base_addr s' = gic_cpu_base_addr s /\
    (forall j, m0 <= j -> j * step < lim ->
       hw s' (DistWin k) (B' + j * 4) = f (hw s (DistWin k) (B' + j * 4))) /\
    (forall x o, (forall j, m0 <= j -> j * step < lim ->
                    ~ (x = DistWin k /\ o = B' + j * 4)) ->
                 hw s' x o = hw s x o).
Proof.
  intros Hm0 Hlim Hfuel.
  pose (Inv := fun (i : Z) (s1 : state) =>
    exists j, i = j * step /\ m0 <= j /\
      (forall j', m0 <= j' < j -> j' * step < lim) /\
      gic_data s1 = gic_data s /\ irq_descs s1 = irq_descs s /\
      gic_cpu_base_addr s1 = gic_cpu_base_addr s /\
      (forall j', m0 <= j' < j ->
         hw s1 (DistWin k) (B' + j' * 4) = f (hw s (DistWin k) (B' + j' * 4))) /\
      (forall x o, (forall j', m0 <= j' < j -> ~ (x = DistWin k /\ o = B' + j' * 4)) ->
                   hw s1 x o = hw s x o)).
  destruct (for_loop_rule Inv (fun i => Z.to_nat ((lim - i + step - 1) / step))
              (fun i => ret (i <? lim)) (fun i => i + step)
              (fun i => writel v (IoMem (DistWin k) 0 +@ B +@ i * 4 / step)))
    with (fuel := fuel) (i := m0 * step) (s := s)
    as (i' & s' & Hrun & HI & Hc).
  - intros i s1 (j & -> & Hj & Hbelow & Hd & Hdescs & Hcpu & Hdone & Hrest).
    eexists. split; [reflexivity|]. intros Hlt. apply Z.ltb_lt in Hlt.
    eexists. split; [reflexivity|]. split; [|by apply stride_measure].
    assert (0 <= j < J) as HjJ by nia.
    exists (j + 1). split; [lia|]. split; [lia|].
    split; [intros j' Hj'; destruct (decide (j' = j)) as [->|]; [done | apply Hbelow; lia]|].
    cbn [gic_data irq_descs gic_cpu_base_addr hw log set_hw].
    repeat (split; [done|]).
    replace (j * step * 4 / step) with (j * 4)
      by (replace (j * step * 4) with (j * 4 * step) by lia; by rewrite Z.div_mul by lia).
    split.
    + intros j' Hj'. rewrite Hwrite by done.
      destruct (decide (j' = j)) as [->|Hne].
      * rewrite decide_True by done. f_equal. apply Hrest.
        intros j' Hj'' [_ ?]. lia.
      * rewrite decide_False by (intros [_ ?]; lia). apply Hdone. lia.
    + intros x o Hxo. rewrite Hwrite by done.
      rewrite decide_False by (apply Hxo; lia). apply Hrest.
      intros j' Hj'. apply Hxo. lia.
  - exists m0. split; [done|]. split; [lia|]. split; [intros; lia|].
    split; [done|]. split; [done|]. split; [done|]. split; [intros; lia | done].
  - done.
  - destruct HI as (j & -> & Hj & Hbelow & Hd & Hdescs & Hcpu & Hdone & Hrest).
    injection Hc as Hc. apply Z.ltb_ge in Hc.
    exists s'. repeat (split; [done|]). split.
    + intros j' Hj' Hlt. apply Hdone. nia.
    + intros x o Hxo. apply Hrest. intros j' Hj'. apply Hxo; [lia|].
      apply Hbelow. lia.
Qed.

End Fill.

Lemma bind_ok {A B} (m : M A) (k : A -> M B) s a s1 :
  m s = Ok a s1 -> bind m k s = k a s1.
Proof. intros H. unfold bind. by rewrite H. Qed.

Lemma chip_run gic s g : gic_data s !! gic = Some g -> chip gic s = Ok g s.
Proof. intros Hg. unfold chip. by rewrite Hg. Qed.

(** One statement of a run whose outcome is [H], or is plain to see. *)
Ltac step_by H := erewrite bind_ok by exact H.
Ltac step := erewrite bind_ok by reflexivity; run_simpl.

(** Bits 0 to 15 of enable word 0 are set and bits 16 to 31 cleared. *)
Lemma banked_enable_word e b :
  0 <= b < 32 ->
  Z.testbit (Z.lor (Z.land e (U32.not (U32.wrap 0xffff0000))) (U32.wrap 0x0000ffff)) b
  = (b <? 16).
Proof.
  intros Hb.
  change 0xffff0000 with (Z.shiftl (Z.ones 16) 16). change 0x0000ffff with (Z.ones 16).
  bit_specs. rewrite !Bits.ones_spec by lia. bit_finish.
Qed.

Lemma priority_a0 n :
  0 <= n ->
  Z.land (Z.shiftr (U32.wrap 0xa0a0a0a0) (n mod 4 * 8)) 0xff = 0xa0.
Proof.
  intros Hn. pose proof (Z.mod_pos_bound n 4 ltac:(lia)) as Hb.
  assert (n mod 4 = 0 \/ n mod 4 = 1 \/ n mod 4 = 2 \/ n mod 4 = 3) as Hcases by lia.
  destruct Hcases as [-> | [-> | [-> | ->]]]; reflexivity.
Qed.

(** What [gic_cpu_init] comes to, register by register. *)
Lemma gic_cpu_init_run gic k c cb s g :
  gic_data s !! gic = Some g ->
  dist_base g = IoMem (DistWin k) 0 ->
  cpu_base g = IoMem (CpuWin c) cb ->
  exists s',
    gic_cpu_init gic s = Ok tt s' /\
    gic_data s' = gic_data s /\ irq_descs s' = irq_descs s /\
    gic_cpu_base_addr s' = gic_cpu_base_addr s /\
    hw s' (DistWin k) 0x100
      = Z.lor (Z.land (hw s (DistWin k) 0x100) (U32.not (U32.wrap 0xffff0000)))
              (U32.wrap 0x0000ffff) /\
    (forall j, 0 <= j < 8 -> hw s' (DistWin k) (0x400 + j * 4) = U32.wrap 0xa0a0a0a0) /\
    hw s' (CpuWin c) (cb + GIC_CPU_PRIMASK) = U32.wrap 0xf0 /\
    hw s' (CpuWin c) (cb + GIC_CPU_CTRL) = U32.wrap 1 /\
    (forall o, o <> 0x100 -> ~ (0x400 <= o < 0x420 /\ (o - 0x400) mod 4 = 0) ->
               hw s' (DistWin k) o = hw s (DistWin k) o) /\
    (forall k' o, k' <> k -> hw s' (DistWin k') o = hw s (DistWin k') o).
Proof.
  intros Hg Hbase Hcpu. unfold gic_cpu_init.
  step_by (chip_run _ _ _ Hg). rewrite Hbase, Hcpu. step. step.
  match goal with |- context [bind _ _ ?st] => set (s2 := st) end.
  destruct (fill_run k GIC_DIST_PRI 0x400 (fun _ => U32.wrap 0xa0a0a0a0) 0xa0a0a0a0 4 256
              ltac:(lia)
              ltac:(intros; by apply InitFacts.write_pri)
              16%nat 32 0 s2 ltac:(lia) ltac:(lia) ltac:(vm_compute; lia))
    as (s3 & Hrun & Hd & Hdescs & Hcb & Hpri & Hrest).
  change (0 * 4) with 0 in Hrun. step_by Hrun. clear Hrun. step. step.
  eexists. split; [reflexivity|]. run_simpl.
  assert (forall o, hw s2 (DistWin k) o =
            if decide (o = 0x100)
            then Z.lor (Z.land (hw s (DistWin k) 0x100) (U32.not (U32.wrap 0xffff0000)))
                       (U32.wrap 0x0000ffff)
            else hw s (DistWin k) o) as Hs2.
  { intros o. subst s2. run_simpl.
    pose proof (DeviceFacts.write_enable_set
                  (Device.write (hw s) (IoMem (DistWin k) 0 +@ GIC_DIST_ENABLE_CLEAR)
                     (U32.wrap 0xffff0000)) k 0 (U32.wrap 0x0000ffff) (DistWin k) o
                  ltac:(lia)) as Hset.
    pose proof (DeviceFacts.write_enable_clear (hw s) k 0 (U32.wrap 0xffff0000)
                  (DistWin k) o ltac:(lia)) as Hclr.
    unfold io_add in *. cbn [io_win io_off] in *. rewrite !Z.add_0_r in *.
    rewrite Hset, Hclr. repeat case_decide; try done; destruct_and?; try congruence.
    all: exfalso; auto. }
  assert (forall k' o, k' <> k -> hw s2 (DistWin k') o = hw s (DistWin k') o) as Hs2'.
  { intros k' o Hk. subst s2. run_simpl. unfold Device.write. cbn [io_win io_add].
    rewrite !decide_False by congruence. done. }
  subst s2. run_simpl. rewrite Hd, Hdescs, Hcb. run_simpl.
  repeat (split; [done|]).
  split; [|split; [|split; [|split; [|split]]]].
  - rewrite !InitFacts.write_cpu, !decide_False by (intros [? _]; done).
    rewrite Hrest by (intros j ? ? [_ ?]; lia). by rewrite Hs2, decide_True.
  - intros j Hj. rewrite !InitFacts.write_cpu, !decide_False by (intros [? _]; done).
    apply Hpri; lia.
  - rewrite !InitFacts.write_cpu.
    rewrite decide_False by (intros [_ ?]; unfold GIC_CPU_PRIMASK, GIC_CPU_CTRL in *; lia).
    by rewrite decide_True.
  - rewrite !InitFacts.write_cpu. by rewrite decide_True.
  - intros o Ho Hpo.
    rewrite !InitFacts.write_cpu, !decide_False by (intros [? _]; done).
    rewrite Hrest.
    + rewrite Hs2, decide_False; done.
    + intros j Hj0 Hj [_ ->]. apply Hpo. split; [lia|].
      replace (1024 + j * 4 - 1024) with (j * 4) by lia. apply Z.mod_mul. lia.
  - intros k' o Hk.
    rewrite !InitFacts.write_cpu, !decide_False by (intros [? _]; done).
    rewrite Hrest by (intros j ? ? [? _]; congruence). by apply Hs2'.
Qed.

Lemma priority_line h k n :
  0 <= n < 1024 ->
  priority_byte h (IoMem (DistWin k) 0) n
  = Z.land (Z.shiftr (h (DistWin k) (0x400 + n / 4 * 4)) (n mod 4 * 8)) 0xff.
Proof.
  intros Hn. unfold priority_byte. rewrite InitFacts.read_pri; [done|].
  split; [apply Z.div_pos | apply Z.div_lt_upper_bound]; lia.
Qed.

(** The word of the distributor that holds each per-line field. *)
Lemma line_words n :
  0 <= n < 1024 ->
  0 <= n / 32 < 32 /\ 0 <= n / 16 < 64 /\ 0 <= n / 4 < 256 /\
  0 <= n mod 32 < 32 /\ 0 <= n mod 16 < 16 /\ 0 <= n mod 4 < 4.
Proof.
  intros Hn. repeat split; try (apply Z.div_pos; lia);
    try (apply Z.div_lt_upper_bound; lia); apply Z.mod_pos_bound; lia.
Qed.

(** X10.  [gic_cpu_init], and [gic_secondary_init] which runs it for a
    controller of [gic_data], leave the sixteen software interrupts (lines
    0 to 15) enabled and the sixteen private lines (16 to 31) disabled,
    whatever they were, set the priority of lines 0 to 31 to 0xa0, and set
    the CPU interface's priority mask to 0xf0 and its control register to
    1.  The enable bit and the priority of every line from 32 on, and the
    configuration, target and pending state of every line, stay. *)
Theorem gic_cpu_init_banked s gic g k c cb :
  gic_data s !! gic = Some g ->
  dist_base g = IoMem (DistWin k) 0 ->
  cpu_base g = IoMem (CpuWin c) cb ->
  let base := dist_base g in
  exists s',
    gic_cpu_init gic s = Ok tt s' /\ gic_secondary_init gic s = Ok tt s' /\
    gic_data s' = gic_data s /\
    (forall n, 0 <= n < 32 ->
       Device.enabled (hw s') base n = (n <? 16) /\ priority_byte (hw s') base n = 0xa0) /\
    (forall n, 32 <= n < 1024 ->
       Device.enabled (hw s') base n = Device.enabled (hw s) base n /\
       priority_byte (hw s') base n = priority_byte (hw s) base n) /\
    (forall n, 0 <= n < 1024 ->
       Device.config_field (hw s') base n = Device.config_field (hw s) base n /\
       Device.target_byte (hw s') base n = Device.target_byte (hw s) base n /\
       pending (hw s') base n = pending (hw s) base n) /\
    Device.read (hw s') (cpu_base g +@ GIC_CPU_PRIMASK) = 0xf0 /\
    Device.read (hw s') (cpu_base g +@ GIC_CPU_CTRL) = 1.
Proof.
  intros Hg Hbase Hcpu base. subst base.
  destruct (gic_cpu_init_run gic k c cb s g Hg Hbase Hcpu)
    as (s' & Hrun & Hd & _ & _ & Hen & Hpri & Hmask & Hctrl & Hrest & _).
  rewrite Hbase, Hcpu. exists s'. split; [done|]. split.
  { unfold gic_secondary_init. step.
    rewrite decide_False; [done|]. apply lookup_lt_Some in Hg. lia. }
  split; [done|].
  split; [|split; [|split; [|split]]].
  - intros n Hn. destruct (line_words n ltac:(lia)) as (? & ? & ? & ? & ? & ?).
    rewrite enabled_line, priority_line by lia. split.
    + rewrite (Z.div_small n 32), (Z.mod_small n 32) by lia.
      change (256 + 0 * 4) with 256. rewrite Hen. apply banked_enable_word. lia.
    + rewrite Hpri by (split; [lia | apply Z.div_lt_upper_bound; lia]).
      apply priority_a0. lia.
  - intros n Hn. destruct (line_words n ltac:(lia)) as (? & ? & ? & ? & ? & ?).
    assert (1 <= n / 32) by (apply Z.div_le_lower_bound; lia).
    assert (8 <= n / 4) by (apply Z.div_le_lower_bound; lia).
    rewrite !enabled_line, !priority_line by lia.
    rewrite !Hrest by lia. done.
  - intros n Hn. destruct (line_words n ltac:(lia)) as (? & ? & ? & ? & ? & ?).
    unfold Device.config_field, Device.target_byte.
    rewrite !pending_line, !DeviceFacts.read_config, !DeviceFacts.read_target by lia.
    rewrite !Hrest by lia. done.
  - rewrite InitFacts.read_cpu, Hmask. reflexivity.
  - rewrite InitFacts.read_cpu, Hctrl. reflexivity.
Qed.

(** The sample controller, on a secondary CPU. *)
Lemma gic_cpu_init_banked_witness :
  let base := IoMem (DistWin 0) 0 in
  exists s',
    gic_cpu_init 0 Sample.up = Ok tt s' /\ gic_secondary_init 0 Sample.up = Ok tt s' /\
    gic_data s' = gic_data Sample.up /\
    (forall n, 0 <= n < 32 ->
       Device.enabled (hw s') base n = (n <? 16) /\ priority_byte (hw s') base n = 0xa0) /\
    (forall n, 32 <= n < 1024 ->
       Device.enabled (hw s') base n = Device.enabled (hw Sample.up) base n /\
       priority_byte (hw s') base n = priority_byte (hw Sample.up) base n) /\
    (forall n, 0 <= n < 1024 ->
       Device.config_field (hw s') base n = Device.config_field (hw Sample.up) base n /\
       Device.target_byte (hw s') base n = Device.target_byte (hw Sample.up) base n /\
       pending (hw s') base n = pending (hw Sample.up) base n) /\
    Device.read (hw s') (IoMem (CpuWin 0) 0 +@ GIC_CPU_PRIMASK) = 0xf0 /\
    Device.read (hw s') (IoMem (CpuWin 0) 0 +@ GIC_CPU_CTRL) = 1.
Proof.
  apply (gic_cpu_init_banked Sample.up 0 Sample.chip0 0 0 0).
  - vm_compute. reflexivity.
  - reflexivity.
  - reflexivity.
Defined.

(** X11.  [gic_init] and [gic_secondary_init] return exactly for the
    controller numbers that [gic_data] has, whatever the registers hold and
    whatever the other arguments are: for a number from [MAX_GIC_NR] on they
    stop on [BUG_ON] before anything is written, and for a smaller one they
    neither fault nor run on for ever. *)
Theorem bring_up_controller_bound K s gic_nr irq_start db cb cpu :
  NR_IRQS K < 2 ^ 32 ->
  ((exists s', gic_init K gic_nr irq_start db cb cpu s = Ok tt s')
   <-> (gic_nr < length (gic_data s))%nat) /\
  ((exists s', gic_secondary_init gic_nr s = Ok tt s')
   <-> (gic_nr < length (gic_data s))%nat) /\
  ((length (gic_data s) <= gic_nr)%nat ->
   gic_init K gic_nr irq_start db cb cpu s = Crash /\
   gic_secondary_init gic_nr s = Crash).
Proof.
  intros HNR.
  assert ((length (gic_data s) <= gic_nr)%nat ->
          gic_init K gic_nr irq_start db cb cpu s = Crash /\
          gic_secondary_init gic_nr s = Crash) as Hbug.
  { intros Hnr. unfold gic_init, gic_secondary_init.
    split; step; by rewrite decide_True. }
  split; [|split; [|done]].
  - split.
    + intros [s' Hrun]. destruct (Nat.lt_ge_cases gic_nr (length (gic_data s))); [done|].
      destruct Hbug as [Hcrash _]; [done|]. congruence.
    + intros Hnr. destruct (gic_init_returns K gic_nr irq_start db cb cpu s HNR Hnr)
        as (s' & Hrun & _). by exists s'.
  - split.
    + intros [s' Hrun]. destruct (Nat.lt_ge_cases gic_nr (length (gic_data s))); [done|].
      destruct Hbug as [_ Hcrash]; [done|]. congruence.
    + intros Hnr. destruct (returns_gic_cpu_init gic_nr s Hnr) as ([] & s' & Hrun & _).
      exists s'. unfold gic_secondary_init. step. rewrite decide_False by lia. done.
Qed.

(** The sample platform has one controller: there is a controller 0 and no
    controller 1. *)
Lemma bring_up_controller_bound_witness :
  ((exists s', gic_init Sample.K 1 64 (IoMem (DistWin 1) 0) (IoMem (CpuWin 1) 0) 0
                 Sample.boot = Ok tt s')
   <-> (1 < length (gic_data Sample.boot))%nat) /\
  ((exists s', gic_secondary_init 1 Sample.boot = Ok tt s')
   <-> (1 < length (gic_data Sample.boot))%nat) /\
  ((length (gic_data Sample.boot) <= 1)%nat ->
   gic_init Sample.K 1 64 (IoMem (DistWin 1) 0) (IoMem (CpuWin 1) 0) 0 Sample.boot = Crash /\
   gic_secondary_init 1 Sample.boot = Crash).
Proof.
  apply (bring_up_controller_bound Sample.K Sample.boot 1 64).
  vm_compute. reflexivity.
Defined.

Lemma WARN_ON_run c s :
  exists s', WARN_ON c s = Ok c s' /\ hw s' = hw s /\ gic_data s' = gic_data s /\
             irq_descs s' = irq_descs s /\ gic_cpu_base_addr s' = gic_cpu_base_addr s.
Proof. destruct c; eexists; (split; [reflexivity | done]). Qed.

Lemma chip_store_run gic f s g :
  gic_data s !! gic = Some g ->
  chip_store gic f s = Ok tt (set_gic_data (<[gic := f g]> (gic_data s)) s).
Proof. intros Hg. unfold chip_store. by step_by (chip_run _ _ _ Hg). Qed.

(** The loop of [gic_dist_init] that registers the interrupt numbers from
    [irq_start] up to [limit] with the dispatch layer. *)
Lemma registry_run gic irq_start limit s :
  0 <= irq_start -> limit < 2 ^ 32 ->
  exists s',
    for_loop (S (Z.to_nat (limit - irq_start)))
      (fun i => ret (i <? limit)) (fun i => U32.wrap (i + 1))
      (fun i =>
         emit (EvSetIrqChip i) ;;
         set_irq_chip_data i gic ;;
         emit (EvSetIrqHandlerLevel i) ;;
         emit (EvSetIrqFlags i))
      irq_start s = Ok tt s' /\
    hw s' = hw s /\ gic_data s' = gic_data s /\
    gic_cpu_base_addr s' = gic_cpu_base_addr s /\
    registered gic irq_start limit (irq_descs s) (irq_descs s').
Proof.
  intros Hstart Hlimit.
  pose (Inv := fun (i : Z) (s1 : state) =>
    irq_start <= i /\ (irq_start < i -> i <= limit) /\
    hw s1 = hw s /\ gic_data s1 = gic_data s /\
    gic_cpu_base_addr s1 = gic_cpu_base_addr s /\
    registered gic irq_start i (irq_descs s) (irq_descs s1)).
  destruct (for_loop_rule Inv (fun i => Z.to_nat (limit - i))
              (fun i => ret (i <? limit)) (fun i => U32.wrap (i + 1))
              (fun i =>
                 emit (EvSetIrqChip i) ;;
                 set_irq_chip_data i gic ;;
                 emit (EvSetIrqHandlerLevel i) ;;
                 emit (EvSetIrqFlags i)))
    with (fuel := S (Z.to_nat (limit - irq_start))) (i := irq_start) (s := s)
    as (i' & s' & Hrun & HI & Hc).
  - intros i s1 (Hi & Hle & Hhw & Hd & Hcb & Hdescs).
    eexists. split; [reflexivity|]. intros Hlt. apply Z.ltb_lt in Hlt.
    rewrite Bits.wrap_small by lia.
    assert (exists s2, set_irq_chip_data i gic (log (EvSetIrqChip i) s1) = Ok tt s2 /\
              hw s2 = hw s1 /\ gic_data s2 = gic_data s1 /\
              gic_cpu_base_addr s2 = gic_cpu_base_addr s1 /\
              (desc_irq_data <$> irq_descs s2 !! i
               = set_chip_data gic <$> (desc_irq_data <$> irq_descs s1 !! i)) /\
              forall x, x <> i -> irq_descs s2 !! x = irq_descs s1 !! x)
      as (s2 & Hset & Hhw2 & Hd2 & Hcb2 & Hnew & Hold).
    { unfold set_irq_chip_data. cbn [irq_descs log].
      destruct (irq_descs s1 !! i) as [desc|] eqn:Hdesc.
      - eexists. split; [reflexivity|]. cbn [hw gic_data gic_cpu_base_addr irq_descs
          set_irq_descs log]. repeat (split; [done|]). split.
        + by rewrite lookup_insert_eq.
        + intros x Hx. by rewrite lookup_insert_ne.
      - eexists. split; [reflexivity|]. cbn [hw gic_data gic_cpu_base_addr irq_descs log].
        repeat (split; [done|]). by rewrite Hdesc. }
    eexists. split.
    { step. step_by Hset. step. reflexivity. }
    split; [|lia]. unfold Inv. cbn [hw gic_data gic_cpu_base_addr irq_descs log].
    split; [lia|]. split; [lia|].
    rewrite Hhw2, Hd2, Hcb2. repeat (split; [done|]).
    intros x. specialize (Hdescs x). destruct (decide (x = i)) as [->|Hne].
    + rewrite decide_True by lia. rewrite decide_False in Hdescs by lia.
      by rewrite Hnew, Hdescs.
    + rewrite (Hold x Hne).
      destruct (decide (irq_start <= x < i));
        [rewrite decide_True by lia | rewrite decide_False by lia]; done.
  - split; [lia|]. split; [lia|]. repeat (split; [done|]).
    intros x. rewrite decide_False by lia. done.
  - lia.
  - destruct HI as (Hi & Hle & Hhw & Hd & Hcb & Hdescs).
    injection Hc as Hc. apply Z.ltb_ge in Hc.
    exists s'. repeat (split; [done|]).
    intros x. specialize (Hdescs x).
    destruct (decide (irq_start <= x < i'));
      [rewrite decide_True by lia | rewrite decide_False by lia]; done.
Qed.

Lemma line_count_range v : 32 <= line_count v <= 1020.
Proof.
  unfold line_count. cbv zeta.
  assert (0 <= Z.land v 0x1f) by (apply Z.land_nonneg; lia).
  destruct (Z.ltb_spec 1020 ((Z.land v 31 + 1) * 32)); lia.
Qed.

Ltac untouched := intros ?j ? ? [? ?]; first [congruence | lia].

(** What [gic_dist_init] comes to, register by register. *)
Lemma gic_dist_init_run K gic irq_start cpu k s g :
  gic_data s !! gic = Some g ->
  dist_base g = IoMem (DistWin k) 0 ->
  0 <= irq_start -> NR_IRQS K < 2 ^ 32 ->
  let lines := line_count (hw s (DistWin k) 4) in
  let limit := irq_limit_of K (irq_offset g) lines in
  let cpumask := Z.lor (Z.lor (U32.shl 1 cpu) (U32.shl (U32.shl 1 cpu) 8))
                   (U32.shl (Z.lor (U32.shl 1 cpu) (U32.shl (U32.shl 1 cpu) 8)) 16) in
  exists s',
    gic_dist_init K gic irq_start cpu s = Ok tt s' /\
    gic_data s' = <[gic := set_max_irq lines g]> (gic_data s) /\
    gic_cpu_base_addr s' = gic_cpu_base_addr s /\
    registered gic irq_start limit (irq_descs s) (irq_descs s') /\
    hw s' (DistWin k) 0 = U32.wrap 1 /\
    (forall j, 2 <= j -> j * 16 < lines -> hw s' (DistWin k) (0xc00 + j * 4) = U32.wrap 0) /\
    (forall j, 8 <= j -> j * 4 < lines ->
       hw s' (DistWin k) (0x800 + j * 4) = U32.wrap cpumask) /\
    (forall j, 8 <= j -> j * 4 < lines ->
       hw s' (DistWin k) (0x400 + j * 4) = U32.wrap 0xa0a0a0a0) /\
    (forall j, 1 <= j -> j * 32 < lines -> hw s' (DistWin k) (0x100 + j * 4) = 0) /\
    (forall o, o = 0x100 \/ 0x200 <= o < 0x280 \/ 0x400 <= o < 0x420 \/
               0x800 <= o < 0x820 \/ 0xc00 <= o < 0xc08 ->
               hw s' (DistWin k) o = hw s (DistWin k) o) /\
    (forall x o, x <> DistWin k -> hw s' x o = hw s x o).
Proof.
  intros Hg Hbase Hstart HNR lines limit cpumask.
  pose proof (line_count_range (hw s (DistWin k) 4)) as Hlines. fold lines in Hlines.
  unfold gic_dist_init.
  step_by (chip_run _ _ _ Hg). rewrite Hbase. step.
  match goal with |- context [bind _ _ ?st] => set (s1 := st) end.
  assert (readl (IoMem (DistWin k) 0 +@ GIC_DIST_CTR) s1
          = Ok (hw s (DistWin k) 4)
               (log (EvRead (IoMem (DistWin k) 0 +@ GIC_DIST_CTR) (hw s (DistWin k) 4)) s1))
    as Hread.
  { unfold readl. cbv zeta. subst s1. run_simpl.
    rewrite InitFacts.read_ctr, InitFacts.write_ctrl.
    rewrite decide_False by (intros [_ ?]; lia). done. }
  step_by Hread. clear Hread. cbv zeta. fold cpumask.
  change (if 1020 <? (Z.land (hw s (DistWin k) 4) 31 + 1) * 32 then 1020
          else (Z.land (hw s (DistWin k) 4) 31 + 1) * 32) with lines.
  match goal with |- context [bind _ _ ?st] => set (s1' := st) end.
  assert (forall x o, hw s1' x o = if decide (x = DistWin k /\ o = 0) then U32.wrap 0
                                   else hw s x o) as Hs1.
  { intros x o. subst s1' s1. run_simpl. apply InitFacts.write_ctrl. }
  destruct (fill_run k GIC_DIST_CONFIG 0xc00 (fun _ => U32.wrap 0) 0 16 64 ltac:(lia)
              ltac:(intros; by apply DeviceFacts.write_config)
              64%nat lines 2 s1' ltac:(lia) ltac:(lia)
              ltac:(eapply passes_bound; [lia | apply Hlines | vm_compute; lia]))
    as (s2 & Hrun & Hd2 & Hdescs2 & Hcb2 & Hdone2 & Hrest2).
  change (2 * 16) with 32 in Hrun. step_by Hrun. clear Hrun.
  destruct (fill_run k GIC_DIST_TARGET 0x800 (fun _ => U32.wrap cpumask) cpumask 4 256
              ltac:(lia) ltac:(intros; by apply DeviceFacts.write_target)
              256%nat lines 8 s2 ltac:(lia) ltac:(lia)
              ltac:(eapply passes_bound; [lia | apply Hlines | vm_compute; lia]))
    as (s3 & Hrun & Hd3 & Hdescs3 & Hcb3 & Hdone3 & Hrest3).
  change (8 * 4) with 32 in Hrun. step_by Hrun. clear Hrun.
  destruct (fill_run k GIC_DIST_PRI 0x400 (fun _ => U32.wrap 0xa0a0a0a0) 0xa0a0a0a0 4 256
              ltac:(lia) ltac:(intros; by apply InitFacts.write_pri)
              256%nat lines 8 s3 ltac:(lia) ltac:(lia)
              ltac:(eapply passes_bound; [lia | apply Hlines | vm_compute; lia]))
    as (s4 & Hrun & Hd4 & Hdescs4 & Hcb4 & Hdone4 & Hrest4).
  change (8 * 4) with 32 in Hrun. step_by Hrun. clear Hrun.
  destruct (fill_run k GIC_DIST_ENABLE_CLEAR 0x100
              (fun old => Z.land old (U32.not (U32.wrap 0xffffffff))) 0xffffffff 32 32
              ltac:(lia) ltac:(intros; by apply DeviceFacts.write_enable_clear)
              32%nat lines 1 s4 ltac:(lia) ltac:(lia)
              ltac:(eapply passes_bound; [lia | apply Hlines | vm_compute; lia]))
    as (s5 & Hrun & Hd5 & Hdescs5 & Hcb5 & Hdone5 & Hrest5).
  change (1 * 32) with 32 in Hrun. step_by Hrun. clear Hrun.
  assert (gic_data s5 = gic_data s) as Hd by (by rewrite Hd5, Hd4, Hd3, Hd2).
  assert (irq_descs s5 = irq_descs s) as Hdescs by (by rewrite Hdescs5, Hdescs4, Hdescs3, Hdescs2).
  assert (gic_cpu_base_addr s5 = gic_cpu_base_addr s) as Hcb by (by rewrite Hcb5, Hcb4, Hcb3, Hcb2).
  clear Hd2 Hd3 Hd4 Hd5 Hdescs2 Hdescs3 Hdescs4 Hdescs5 Hcb2 Hcb3 Hcb4 Hcb5.
  step_by (chip_run gic s5 g ltac:(by rewrite Hd)).
  destruct (WARN_ON_run (NR_IRQS K <? U32.wrap (irq_offset g + lines)) s5)
    as (s6 & Hrun & Hhw6 & Hd6 & Hdescs6 & Hcb6).
  step_by Hrun. clear Hrun.
  change (if NR_IRQS K <? U32.wrap (irq_offset g + lines) then NR_IRQS K
          else U32.wrap (irq_offset g + lines)) with limit.
  assert (limit < 2 ^ 32) as Hlimit.
  { subst limit. unfold irq_limit_of. cbv zeta.
    destruct (_ <? _); [done | apply Bits.wrap_range]. }
  destruct (registry_run gic irq_start limit s6 Hstart Hlimit)
    as (s7 & Hrun & Hhw7 & Hd7 & Hcb7 & Hdescs7).
  step_by Hrun. clear Hrun.
  step_by (chip_store_run gic (set_max_irq lines) s7 g ltac:(by rewrite Hd7, Hd6, Hd)).
  step. eexists. split; [reflexivity|]. unfold mb, emit. run_simpl.
  rewrite Hd7, Hd6, Hd, Hcb7, Hcb6, Hcb, Hhw7, Hhw6.
  split; [done|]. split; [done|].
  split; [by rewrite <- Hdescs, <- Hdescs6|].
  clearbody lines. clear Hhw6 Hhw7 Hd6 Hd7 Hdescs6 Hdescs7 Hcb6 Hcb7 s6 s7.
  split; [|split; [|split; [|split; [|split; [|split]]]]].
  - rewrite InitFacts.write_ctrl. by rewrite decide_True.
  - intros j Hj Hlt. rewrite InitFacts.write_ctrl, decide_False by (intros [_ ?]; lia).
    rewrite Hrest5, Hrest4, Hrest3 by untouched. by apply Hdone2.
  - intros j Hj Hlt. rewrite InitFacts.write_ctrl, decide_False by (intros [_ ?]; lia).
    rewrite Hrest5, Hrest4 by untouched. by apply Hdone3.
  - intros j Hj Hlt. rewrite InitFacts.write_ctrl, decide_False by (intros [_ ?]; lia).
    rewrite Hrest5 by untouched. by apply Hdone4.
  - intros j Hj Hlt. rewrite InitFacts.write_ctrl, decide_False by (intros [_ ?]; lia).
    rewrite Hdone5 by done. change (U32.not (U32.wrap 0xffffffff)) with 0.
    apply Z.land_0_r.
  - intros o Ho. rewrite InitFacts.write_ctrl, decide_False by (intros [_ ?]; lia).
    rewrite Hrest5, Hrest4, Hrest3, Hrest2 by untouched.
    rewrite Hs1, decide_False by (intros [_ ?]; lia). done.
  - intros x o Hx. unfold Device.write, io_add. cbn [io_win].
    rewrite decide_False by done.
    rewrite Hrest5, Hrest4, Hrest3, Hrest2 by untouched.
    rewrite Hs1, decide_False by (intros [? _]; done). done.
Qed.

(** What [gic_init] comes to: the driver data, the dispatch registry and
    the registers that it leaves. *)
Lemma gic_init_run K gic_nr irq_start k c cbo cpu s g :
  gic_data s !! gic_nr = Some g ->
  0 <= irq_start -> NR_IRQS K < 2 ^ 32 ->
  let db := IoMem (DistWin k) 0 in
  let cb := IoMem (CpuWin c) cbo in
  let off := Z.land (U32.wrap (irq_start - 1)) (U32.not 31) in
  let lines := line_count (hw s (DistWin k) 4) in
  let limit := irq_limit_of K off lines in
  let cpumask := Z.lor (Z.lor (U32.shl 1 cpu) (U32.shl (U32.shl 1 cpu) 8))
                   (U32.shl (Z.lor (U32.shl 1 cpu) (U32.shl (U32.shl 1 cpu) 8)) 16) in
  exists s',
    gic_init K gic_nr irq_start db cb cpu s = Ok tt s' /\
    gic_data s' = <[gic_nr := GicChipData off db cb lines (wakeup_irqs g) (enabled_irqs g)]>
                    (gic_data s) /\
    gic_cpu_base_addr s' = (if decide (gic_nr = 0%nat) then Some cb
                            else gic_cpu_base_addr s) /\
    registered gic_nr irq_start limit (irq_descs s) (irq_descs s') /\
    hw s' (DistWin k) 0 = U32.wrap 1 /\
    (forall j, 2 <= j -> j * 16 < lines -> hw s' (DistWin k) (0xc00 + j * 4) = U32.wrap 0) /\
    (forall j, 8 <= j -> j * 4 < lines ->
       hw s' (DistWin k) (0x800 + j * 4) = U32.wrap cpumask) /\
    (forall j, 0 <= j -> j * 4 < lines ->
       hw s' (DistWin k) (0x400 + j * 4) = U32.wrap 0xa0a0a0a0) /\
    (forall j, 1 <= j -> j * 32 < lines -> hw s' (DistWin k) (0x100 + j * 4) = 0) /\
    hw s' (DistWin k) 0x100
      = Z.lor (Z.land (hw s (DistWin k) 0x100) (U32.not (U32.wrap 0xffff0000)))
              (U32.wrap 0x0000ffff) /\
    (forall o, 0x200 <= o < 0x280 \/ 0x800 <= o < 0x820 \/ 0xc00 <= o < 0xc08 ->
               hw s' (DistWin k) o = hw s (DistWin k) o) /\
    hw s' (CpuWin c) (cbo + GIC_CPU_PRIMASK) = U32.wrap 0xf0 /\
    hw s' (CpuWin c) (cbo + GIC_CPU_CTRL) = U32.wrap 1.
Proof.
  intros Hg Hstart HNR db cb off lines limit cpumask.
  pose proof (line_count_range (hw s (DistWin k) 4)) as Hlines. fold lines in Hlines.
  assert (gic_nr < length (gic_data s))%nat as Hnr by (by eapply lookup_lt_Some).
  unfold gic_init. step. rewrite decide_False by lia.
  step_by (chip_store_run gic_nr (set_windows off db cb) s g Hg).
  set (g0 := set_windows off db cb g).
  set (sa := set_gic_data _ s).
  assert (exists sb, when (bool_decide (gic_nr = 0%nat))
                       (fun s0 => Ok tt (set_gic_cpu_base_addr (Some cb) s0)) sa = Ok tt sb /\
            hw sb = hw s /\ gic_data sb = <[gic_nr := g0]> (gic_data s) /\
            irq_descs sb = irq_descs s /\
            gic_cpu_base_addr sb = (if decide (gic_nr = 0%nat) then Some cb
                                    else gic_cpu_base_addr s))
    as (sb & Hwhen & Hhwb & Hdb & Hdescsb & Hcbb).
  { case_bool_decide; [rewrite decide_True by done | rewrite decide_False by done];
      (eexists; split; [reflexivity | done]). }
  step_by Hwhen. clear Hwhen.
  assert (gic_data sb !! gic_nr = Some g0) as Hgb
      by (rewrite Hdb; by apply list_lookup_insert_eq).
  destruct (gic_dist_init_run K gic_nr irq_start cpu k sb g0 Hgb eq_refl Hstart HNR)
    as (sc & Hrun & Hdc & Hcbc & Hdescsc & Hctrl & Hconf & Htarget & Hpri & Hen & Hkeep & _).
  step_by Hrun. clear Hrun.
  rewrite Hhwb in *. fold lines in Hdc, Hdescsc, Hconf, Htarget, Hpri, Hen.
  cbn [irq_offset g0 set_windows] in Hdescsc. fold limit in Hdescsc. fold cpumask in Htarget.
  assert (gic_data sc !! gic_nr = Some (set_max_irq lines g0)) as Hgc.
  { rewrite Hdc. apply list_lookup_insert_eq. by rewrite Hdb, length_insert. }
  destruct (gic_cpu_init_run gic_nr k c cbo sc _ Hgc eq_refl eq_refl)
    as (s' & Hrun & Hd' & Hdescs' & Hcb' & Hen0 & Hpri0 & Hmask & Hcctrl & Hrest & _).
  exists s'. split; [exact Hrun|]. clear Hrun.
  split; [by rewrite Hd', Hdc, Hdb, list_insert_insert_eq|].
  split; [by rewrite Hcb', Hcbc|].
  split; [by rewrite Hdescs', <- Hdescsb|].
  split; [by rewrite Hrest, Hctrl by lia|].
  split; [intros j ? ?; rewrite Hrest by lia; by apply Hconf|].
  split; [intros j ? ?; rewrite Hrest by lia; by apply Htarget|].
  split.
  { intros j Hj Hlt. destruct (Z.lt_ge_cases j 8).
    - apply Hpri0. lia.
    - rewrite Hrest by lia. by apply Hpri. }
  split; [intros j ? ?; rewrite Hrest by lia; by apply Hen|].
  split; [rewrite Hen0, Hkeep by lia; done|].
  split; [intros o Ho; rewrite Hrest, Hkeep by lia; done|].
  done.
Qed.

Lemma target_cpumask cpu n :
  0 <= cpu < 8 -> 0 <= n ->
  let cpumask := Z.lor (Z.lor (U32.shl 1 cpu) (U32.shl (U32.shl 1 cpu) 8))
                   (U32.shl (Z.lor (U32.shl 1 cpu) (U32.shl (U32.shl 1 cpu) 8)) 16) in
  Z.land (Z.shiftr (U32.wrap cpumask) (n mod 4 * 8)) 0xff = Z.shiftl 1 cpu.
Proof.
  intros Hcpu Hn. pose proof (Z.mod_pos_bound n 4 ltac:(lia)) as Hb.
  assert (n mod 4 = 0 \/ n mod 4 = 1 \/ n mod 4 = 2 \/ n mod 4 = 3) as Hcases by lia.
  assert (cpu = 0 \/ cpu = 1 \/ cpu = 2 \/ cpu = 3 \/
          cpu = 4 \/ cpu = 5 \/ cpu = 6 \/ cpu = 7) as Hcpus by lia.
  destruct Hcases as [-> | [-> | [-> | ->]]];
    destruct Hcpus as [-> | [-> | [-> | [-> | [-> | [-> | [-> | ->]]]]]]]; reflexivity.
Qed.

(** X12.  [gic_init] fills in the controller's entry of [gic_data]: the
    two windows as given, the offset [(irq_start - 1) & ~31], a multiple of
    32, and as line count what the controller-type register says, 32 times
    its low five bits plus one, capped at 1020 and so between 32 and 1020;
    the bitmask arrays and the other controllers' entries are left alone,
    and [gic_cpu_base_addr] is set for controller 0 only.  The entry then
    meets what the run-time operations need of it. *)
Theorem gic_init_driver_data K gic_nr irq_start k c cbo cpu s g :
  gic_data s !! gic_nr = Some g ->
  0 <= irq_start -> NR_IRQS K < 2 ^ 32 ->
  length (wakeup_irqs g) = 32%nat -> length (enabled_irqs g) = 32%nat ->
  let db := IoMem (DistWin k) 0 in
  let cb := IoMem (CpuWin c) cbo in
  exists s' g',
    gic_init K gic_nr irq_start db cb cpu s = Ok tt s' /\
    gic_data s' !! gic_nr = Some g' /\
    g' = GicChipData (Z.land (U32.wrap (irq_start - 1)) (U32.not 31)) db cb
           (line_count (Device.read (hw s) (db +@ GIC_DIST_CTR)))
           (wakeup_irqs g) (enabled_irqs g) /\
    irq_offset g' mod 32 = 0 /\ 32 <= max_irq g' <= 1020 /\ chip_ok g' /\
    (forall j, j <> gic_nr -> gic_data s' !! j = gic_data s !! j) /\
    gic_cpu_base_addr s' = (if decide (gic_nr = 0%nat) then Some cb
                            else gic_cpu_base_addr s).
Proof.
  intros Hg Hstart HNR Hwl Hel db cb.
  destruct (gic_init_run K gic_nr irq_start k c cbo cpu s g Hg Hstart HNR)
    as (s' & Hrun & Hd & Hcb & _).
  assert (gic_nr < length (gic_data s))%nat as Hnr by (by eapply lookup_lt_Some).
  subst db. rewrite InitFacts.read_ctr.
  pose proof (line_count_range (hw s (DistWin k) 4)) as Hlines.
  eexists s', _. split; [exact Hrun|].
  split; [rewrite Hd; by apply list_lookup_insert_eq|].
  split; [reflexivity|]. cbn [irq_offset max_irq].
  split; [apply gic_init_offset_aligned|]. split; [done|].
  split; [split; cbn; [by exists k | lia | done | done]|].
  split; [intros j Hj; rewrite Hd; by apply list_lookup_insert_ne|]. done.
Qed.

(** The bring-up of the sample platform. *)
Lemma gic_init_driver_data_witness :
  let db := IoMem (DistWin 0) 0 in
  let cb := IoMem (CpuWin 0) 0 in
  exists s' g',
    gic_init Sample.K 0 64 db cb 0 Sample.boot = Ok tt s' /\
    gic_data s' !! 0%nat = Some g' /\
    g' = GicChipData (Z.land (U32.wrap (64 - 1)) (U32.not 31)) db cb
           (line_count (Device.read (hw Sample.boot) (db +@ GIC_DIST_CTR)))
           (wakeup_irqs Sample.blank_chip) (enabled_irqs Sample.blank_chip) /\
    irq_offset g' mod 32 = 0 /\ 32 <= max_irq g' <= 1020 /\ chip_ok g' /\
    (forall j, j <> 0%nat -> gic_data s' !! j = gic_data Sample.boot !! j) /\
    gic_cpu_base_addr s' = (if decide (0%nat = 0%nat) then Some cb
                            else gic_cpu_base_addr Sample.boot).
Proof.
  apply (gic_init_driver_data Sample.K 0 64 0 0 0 0 Sample.boot Sample.blank_chip).
  - reflexivity.
  - lia.
  - vm_compute. reflexivity.
  - reflexivity.
  - reflexivity.
Defined.

(** X13.  [gic_init] hands to the controller the interrupt numbers from
    [irq_start] up to the controller's last line, and never beyond
    [NR_IRQS]: the [irq_data] of the descriptor of each of them now points
    to this controller, its interrupt number, node and handler data as
    before, so that [get_irq_chip_data] answers this controller for it;
    every other descriptor is as it was, the numbers between the offset and
    [irq_start] included.  (The status flags of the descriptors handed
    over are the business of [set_irq_flags], outside the driver, and not
    part of the statement.) *)
Theorem gic_init_registry K gic_nr irq_start k c cbo cpu s g :
  gic_data s !! gic_nr = Some g ->
  0 <= irq_start -> NR_IRQS K < 2 ^ 32 ->
  let db := IoMem (DistWin k) 0 in
  let cb := IoMem (CpuWin c) cbo in
  let off := Z.land (U32.wrap (irq_start - 1)) (U32.not 31) in
  let limit := irq_limit_of K off (line_count (Device.read (hw s) (db +@ GIC_DIST_CTR))) in
  exists s',
    gic_init K gic_nr irq_start db cb cpu s = Ok tt s' /\
    limit <= NR_IRQS K /\
    (forall x, irq_start <= x < limit ->
       desc_irq_data <$> irq_descs s' !! x
         = set_chip_data gic_nr <$> (desc_irq_data <$> irq_descs s !! x) /\
       (is_Some (irq_descs s !! x) -> get_irq_chip_data x s' = Ok gic_nr s')) /\
    (forall x, ~ irq_start <= x < limit -> irq_descs s' !! x = irq_descs s !! x).
Proof.
  intros Hg Hstart HNR db cb off limit.
  destruct (gic_init_run K gic_nr irq_start k c cbo cpu s g Hg Hstart HNR)
    as (s' & Hrun & _ & _ & Hdescs & _).
  subst limit db. rewrite InitFacts.read_ctr. fold off in Hdescs.
  exists s'. split; [exact Hrun|]. split.
  { unfold irq_limit_of. cbv zeta.
    destruct (Z.ltb_spec (NR_IRQS K) (U32.wrap (off + line_count (hw s (DistWin k) 4)))); lia. }
  split.
  - intros x Hx. specialize (Hdescs x). rewrite decide_True in Hdescs by done.
    split; [done|]. intros [desc Hdesc]. rewrite Hdesc in Hdescs.
    unfold get_irq_chip_data. step.
    destruct (irq_descs s' !! x) as [desc'|]; [|done].
    injection Hdescs as Hdata. by rewrite Hdata.
  - intros x Hx. specialize (Hdescs x). by rewrite decide_False in Hdescs.
Qed.

Lemma gic_init_registry_witness :
  let db := IoMem (DistWin 0) 0 in
  let cb := IoMem (CpuWin 0) 0 in
  let off := Z.land (U32.wrap (64 - 1)) (U32.not 31) in
  let limit := irq_limit_of Sample.K off
                 (line_count (Device.read (hw Sample.boot) (db +@ GIC_DIST_CTR))) in
  exists s',
    gic_init Sample.K 0 64 db cb 0 Sample.boot = Ok tt s' /\
    limit <= NR_IRQS Sample.K /\
    (forall x, 64 <= x < limit ->
       desc_irq_data <$> irq_descs s' !! x
         = set_chip_data 0 <$> (desc_irq_data <$> irq_descs Sample.boot !! x) /\
       (is_Some (irq_descs Sample.boot !! x) -> get_irq_chip_data x s' = Ok 0%nat s')) /\
    (forall x, ~ 64 <= x < limit -> irq_descs s' !! x = irq_descs Sample.boot !! x).
Proof.
  apply (gic_init_registry Sample.K 0 64 0 0 0 0 Sample.boot Sample.blank_chip).
  - reflexivity.
  - lia.
  - vm_compute. reflexivity.
Defined.

(** X14.  After [gic_init] every shared line of the controller (local
    line 32 up to its line count) is disabled, level-triggered
    (configuration field 0), at priority 0xa0 and routed to the calling CPU
    alone; the software interrupts (0 to 15) are enabled and the private
    lines (16 to 31) disabled, at priority 0xa0, their configuration and
    target as before; no pending bit has changed; the distributor and the
    CPU interface are switched on, the priority mask at 0xf0. *)
Theorem gic_init_lines K gic_nr irq_start k c cbo cpu s g :
  gic_data s !! gic_nr = Some g ->
  0 <= irq_start -> NR_IRQS K < 2 ^ 32 -> 0 <= cpu < 8 ->
  let db := IoMem (DistWin k) 0 in
  let cb := IoMem (CpuWin c) cbo in
  let lines := line_count (Device.read (hw s) (db +@ GIC_DIST_CTR)) in
  exists s',
    gic_init K gic_nr irq_start db cb cpu s = Ok tt s' /\
    (forall n, 32 <= n < lines ->
       Device.enabled (hw s') db n = false /\ Device.config_field (hw s') db n = 0 /\
       priority_byte (hw s') db n = 0xa0 /\
       Device.target_byte (hw s') db n = Z.shiftl 1 cpu) /\
    (forall n, 0 <= n < 32 ->
       Device.enabled (hw s') db n = (n <? 16) /\ priority_byte (hw s') db n = 0xa0 /\
       Device.config_field (hw s') db n = Device.config_field (hw s) db n /\
       Device.target_byte (hw s') db n = Device.target_byte (hw s) db n) /\
    (forall n, 0 <= n < 1024 -> pending (hw s') db n = pending (hw s) db n) /\
    Device.read (hw s') (db +@ GIC_DIST_CTRL) = 1 /\
    Device.read (hw s') (cb +@ GIC_CPU_PRIMASK) = 0xf0 /\
    Device.read (hw s') (cb +@ GIC_CPU_CTRL) = 1.
Proof.
  intros Hg Hstart HNR Hcpu db cb lines.
  destruct (gic_init_run K gic_nr irq_start k c cbo cpu s g Hg Hstart HNR)
    as (s' & Hrun & _ & _ & _ & Hctrl & Hconf & Htarget & Hpri & Hen & Hen0 & Hkeep
        & Hmask & Hcctrl).
  subst lines db cb. rewrite InitFacts.read_ctr.
  pose proof (line_count_range (hw s (DistWin k) 4)) as Hlines.
  set (lines := line_count (hw s (DistWin k) 4)) in *.
  exists s'. split; [exact Hrun|]. clear Hrun.
  split; [|split; [|split; [|split; [|split]]]].
  - intros n Hn. destruct (line_words n ltac:(lia)) as (? & ? & ? & ? & ? & ?).
    unfold Device.config_field, Device.target_byte.
    rewrite enabled_line, priority_line, DeviceFacts.read_config,
      DeviceFacts.read_target by lia.
    pose proof (Z.mul_div_le n 32 ltac:(lia)). pose proof (Z.mul_div_le n 16 ltac:(lia)).
    pose proof (Z.mul_div_le n 4 ltac:(lia)).
    assert (1 <= n / 32) by (apply Z.div_le_lower_bound; lia).
    assert (2 <= n / 16) by (apply Z.div_le_lower_bound; lia).
    assert (8 <= n / 4) by (apply Z.div_le_lower_bound; lia).
    rewrite Hen, Hconf, Hpri, Htarget by lia.
    split; [apply Z.testbit_0_l|]. split; [by rewrite Z.shiftr_0_l|].
    split; [apply priority_a0; lia | apply target_cpumask; lia].
  - intros n Hn. destruct (line_words n ltac:(lia)) as (? & ? & ? & ? & ? & ?).
    unfold Device.config_field, Device.target_byte.
    rewrite !enabled_line, !priority_line, !DeviceFacts.read_config,
      !DeviceFacts.read_target by lia.
    assert (n / 16 < 2) by (apply Z.div_lt_upper_bound; lia).
    assert (n / 4 < 8) by (apply Z.div_lt_upper_bound; lia).
    pose proof (Z.mul_div_le n 4 ltac:(lia)).
    rewrite (Z.div_small n 32), (Z.mod_small n 32) by lia.
    change (256 + 0 * 4) with 256.
    rewrite Hen0, Hpri, !Hkeep by lia.
    split; [apply banked_enable_word; lia|]. split; [apply priority_a0; lia | done].
  - intros n Hn. destruct (line_words n ltac:(lia)) as (? & ? & ? & ? & ? & ?).
    rewrite !pending_line by lia. by rewrite Hkeep by lia.
  - rewrite InitFacts.read_ctrl, Hctrl. reflexivity.
  - rewrite InitFacts.read_cpu, Hmask. reflexivity.
  - rewrite InitFacts.read_cpu, Hcctrl. reflexivity.
Qed.

Lemma gic_init_lines_witness :
  let db := IoMem (DistWin 0) 0 in
  let cb := IoMem (CpuWin 0) 0 in
  let lines := line_count (Device.read (hw Sample.boot) (db +@ GIC_DIST_CTR)) in
  exists s',
    gic_init Sample.K 0 64 db cb 0 Sample.boot = Ok tt s' /\
    (forall n, 32 <= n < lines ->
       Device.enabled (hw s') db n = false /\ Device.config_field (hw s') db n = 0 /\
       priority_byte (hw s') db n = 0xa0 /\
       Device.target_byte (hw s') db n = Z.shiftl 1 0) /\
    (forall n, 0 <= n < 32 ->
       Device.enabled (hw s') db n = (n <? 16) /\ priority_byte (hw s') db n = 0xa0 /\
       Device.config_field (hw s') db n = Device.config_field (hw Sample.boot) db n /\
       Device.target_byte (hw s') db n = Device.target_byte (hw Sample.boot) db n) /\
    (forall n, 0 <= n < 1024 -> pending (hw s') db n = pending (hw Sample.boot) db n) /\
    Device.read (hw s') (db +@ GIC_DIST_CTRL) = 1 /\
    Device.read (hw s') (cb +@ GIC_CPU_PRIMASK) = 0xf0 /\
    Device.read (hw s') (cb +@ GIC_CPU_CTRL) = 1.
Proof.
  apply (gic_init_lines Sample.K 0 64 0 0 0 0 Sample.boot Sample.blank_chip).
  - reflexivity.
  - lia.
  - vm_compute. reflexivity.
  - lia.
Defined.

Lemma land_not31 x : Z.land (U32.wrap x) (U32.not 31) = U32.wrap x / 32 * 32.
Proof.
  change 32 with (2 ^ 5). change 31 with (Z.ones 5).
  rewrite <- Z.shiftr_div_pow2, <- Z.shiftl_mul_pow2 by lia.
  apply Z.bits_inj'; intros b Hb.
  destruct (Z.lt_ge_cases b 5).
  - rewrite Z.shiftl_spec, (Z.testbit_neg_r _ (b - 5)) by lia. bit_specs.
    rewrite Bits.ones_spec by lia. bit_finish.
  - rewrite Z.shiftl_spec, Z.shiftr_spec by lia.
    replace (b - 5 + 5) with b by lia. bit_specs.
    rewrite Bits.ones_spec by lia. bit_finish.
Qed.

(** The offset that [gic_init] derives lies in the 32 numbers below
    [irq_start]. *)
Lemma gic_init_offset_range irq_start :
  1 <= irq_start < 2 ^ 32 ->
  let off := Z.land (U32.wrap (irq_start - 1)) (U32.not 31) in
  irq_start - 32 <= off < irq_start.
Proof.
  intros Hstart off. subst off. rewrite land_not31, Bits.wrap_small by lia.
  pose proof (Z.div_mod (irq_start - 1) 32 ltac:(lia)).
  pose proof (Z.mod_pos_bound (irq_start - 1) 32 ltac:(lia)). lia.
Qed.

(** X19.  Bring-up and run time fit together: for every interrupt number
    that [gic_init] registers and that has a descriptor, the descriptor
    leads back to the controller, the local line is the number less the
    offset, a line between 1 and the line count, and [gic_unmask_irq] of it
    returns with exactly that line enabled in addition. *)
Theorem gic_init_then_unmask K gic_nr irq_start k c cbo cpu s g x desc :
  gic_data s !! gic_nr = Some g ->
  1 <= irq_start -> irq_start + 1020 < 2 ^ 32 -> NR_IRQS K < 2 ^ 32 ->
  let db := IoMem (DistWin k) 0 in
  let cb := IoMem (CpuWin c) cbo in
  let off := Z.land (U32.wrap (irq_start - 1)) (U32.not 31) in
  let lines := line_count (Device.read (hw s) (db +@ GIC_DIST_CTR)) in
  irq_start <= x < irq_limit_of K off lines ->
  irq_descs s !! x = Some desc -> irq (desc_irq_data desc) = x ->
  exists s1 d s2,
    gic_init K gic_nr irq_start db cb cpu s = Ok tt s1 /\
    irq_get_irq_data x s1 = Ok (Some d) s1 /\ chip_data d = gic_nr /\
    gic_irq d s1 = Ok (x - off) s1 /\ 1 <= x - off < lines /\
    gic_unmask_irq K d s1 = Ok tt s2 /\
    forall n', 0 <= n' < 1024 ->
      Device.enabled (hw s2) db n' = Device.enabled (hw s1) db n' || (n' =? x - off).
Proof.
  intros Hg Hstart Hhigh HNR db cb off lines Hx Hdesc Hirq.
  destruct (gic_init_run K gic_nr irq_start k c cbo cpu s g Hg ltac:(lia) HNR)
    as (s1 & Hrun & Hd & _ & Hdescs & _).
  subst lines db. rewrite InitFacts.read_ctr in *.
  pose proof (line_count_range (hw s (DistWin k) 4)) as Hlines.
  set (lines := line_count (hw s (DistWin k) 4)) in *. fold off in Hd, Hdescs.
  pose proof (gic_init_offset_range irq_start ltac:(lia)) as Hoff. cbv zeta in Hoff.
  fold off in Hoff.
  assert (x < off + lines) as Hxl.
  { unfold irq_limit_of in Hx. cbv zeta in Hx. rewrite Bits.wrap_small in Hx by lia.
    destruct (NR_IRQS K <? off + lines) eqn:Hcmp; [apply Z.ltb_lt in Hcmp|]; lia. }
  specialize (Hdescs x). fold off in Hx. rewrite decide_True, Hdesc in Hdescs by done.
  cbn [fmap option_fmap option_map] in Hdescs.
  fold (desc_irq_data <$> irq_descs s1 !! x) in Hdescs.
  set (d := set_chip_data gic_nr (desc_irq_data desc)).
  assert (gic_nr < length (gic_data s))%nat as Hnr by (by eapply lookup_lt_Some).
  assert (gic_data s1 !! chip_data d
          = Some (GicChipData off (IoMem (DistWin k) 0) cb lines
                    (wakeup_irqs g) (enabled_irqs g))) as Hg1.
  { subst d. cbn [chip_data set_chip_data]. rewrite Hd. by apply list_lookup_insert_eq. }
  assert (U32.wrap (irq d - off) = x - off) as Hn.
  { subst d. cbn [irq set_chip_data]. rewrite Hirq. apply Bits.wrap_small. lia. }
  pose proof (gic_unmask_irq_run K s1 d _ Hg1) as Hu. cbv zeta in Hu.
  cbn [irq_offset dist_base] in Hu.
  rewrite <- (local_bit_position (irq d) off) in Hu by apply gic_init_offset_aligned.
  rewrite Hn in Hu.
  exists s1, d. eexists. split; [exact Hrun|]. split.
  { unfold irq_get_irq_data. step. by rewrite Hdescs. }
  split; [done|]. split.
  { unfold gic_irq. step_by (chip_run _ _ _ Hg1). cbn [irq_offset]. by rewrite Hn. }
  split; [lia|]. split; [exact Hu|].
  intros n' Hn'. cbn [hw]. apply enabled_after_set; lia.
Qed.

(** Interrupt 72 after the bring-up of the sample platform. *)
Lemma gic_init_then_unmask_witness :
  let db := IoMem (DistWin 0) 0 in
  let off := Z.land (U32.wrap (64 - 1)) (U32.not 31) in
  let lines := line_count (Device.read (hw Sample.boot) (db +@ GIC_DIST_CTR)) in
  exists s1 d s2,
    gic_init Sample.K 0 64 db (IoMem (CpuWin 0) 0) 0 Sample.boot = Ok tt s1 /\
    irq_get_irq_data 72 s1 = Ok (Some d) s1 /\ chip_data d = 0%nat /\
    gic_irq d s1 = Ok (72 - off) s1 /\ 1 <= 72 - off < lines /\
    gic_unmask_irq Sample.K d s1 = Ok tt s2 /\
    forall n', 0 <= n' < 1024 ->
      Device.enabled (hw s2) db n' = Device.enabled (hw s1) db n' || (n' =? 72 - off).
Proof.
  apply (gic_init_then_unmask Sample.K 0 64 0 0 0 0 Sample.boot Sample.blank_chip 72
           (IrqDesc (IrqData 72 0 None 0) 0)).
  - reflexivity.
  - lia.
  - vm_compute. reflexivity.
  - vm_compute. reflexivity.
  - vm_compute. split; [discriminate | reflexivity].
  - vm_compute. reflexivity.
  - reflexivity.
Defined.

(** ** End of interrupt *)

(** X15.  [gic_ack_irq] writes the local line number of the interrupt, not
    its interrupt number, to the End-of-Interrupt register of the
    controller's CPU interface, between taking and releasing the lock; no
    register of any distributor and no driver data changes. *)
Theorem gic_ack_irq_eoi s d g c cbo :
  gic_data s !! chip_data d = Some g ->
  cpu_base g = IoMem (CpuWin c) cbo ->
  let n := U32.wrap (irq d - irq_offset g) in
  exists s',
    gic_ack_irq d s = Ok tt s' /\
    added s s' [EvLock; EvWrite (cpu_base g +@ GIC_CPU_EOI) n; EvUnlock] /\
    Device.read (hw s') (cpu_base g +@ GIC_CPU_EOI) = n /\
    (forall k o, hw s' (DistWin k) o = hw s (DistWin k) o) /\
    gic_data s' = gic_data s /\ irq_descs s' = irq_descs s.
Proof.
  intros Hg Hcpu n.
  assert (gic_ack_irq d s =
          Ok tt (State (Device.write (hw s) (cpu_base g +@ GIC_CPU_EOI) n) (gic_data s)
                   (gic_cpu_base_addr s) (irq_descs s)
                   (trace s ++ [EvLock; EvWrite (cpu_base g +@ GIC_CPU_EOI) n; EvUnlock])))
    as Hrun.
  { unfold gic_ack_irq. run Hg. fold n.
    replace (U32.wrap n) with n by (symmetry; apply Bits.wrap_wrap). state_eq. }
  eexists. split; [exact Hrun|]. cbn [hw gic_data irq_descs]. rewrite Hcpu.
  split; [reflexivity|]. split.
  - rewrite InitFacts.read_cpu, InitFacts.write_cpu. by rewrite decide_True.
  - split; [|done]. intros k o. rewrite InitFacts.write_cpu.
    rewrite decide_False; [done | intros [? _]; done].
Qed.

(** Interrupt 72 of the sample controller: local line 40 is acknowledged. *)
Lemma gic_ack_irq_eoi_witness :
  exists s',
    gic_ack_irq (Sample.line 72) Sample.up = Ok tt s' /\
    added Sample.up s' [EvLock; EvWrite (IoMem (CpuWin 0) 0 +@ GIC_CPU_EOI) 40; EvUnlock] /\
    Device.read (hw s') (IoMem (CpuWin 0) 0 +@ GIC_CPU_EOI) = 40 /\
    (forall k o, hw s' (DistWin k) o = hw Sample.up (DistWin k) o) /\
    gic_data s' = gic_data Sample.up /\ irq_descs s' = irq_descs Sample.up.
Proof.
  apply (gic_ack_irq_eoi Sample.up (Sample.line 72) Sample.chip0 0 0).
  - vm_compute. reflexivity.
  - reflexivity.
Defined.

(** ** An empty affinity mask *)

Lemma first_bit_none n i : first_bit n i 0 = None.
Proof.
  revert i. induction n as [|n IH]; intros i; [done|].
  cbn [first_bit]. by rewrite Z.testbit_0_l.
Qed.

Lemma cpumask_first_empty K : cpumask_first K 0 = nr_cpumask_bits K.
Proof. unfold cpumask_first. by rewrite first_bit_none. Qed.

(** X16.  [gic_set_cpu] does not reject an empty mask: [cpumask_first] is
    then [nr_cpumask_bits], the number of CPUs the kernel is built for, the
    call returns 0 with that as [d->node], and when that number is below
    eight the line's target byte afterwards is [1 << nr_cpumask_bits]: it
    names none of the CPUs 0 to [nr_cpumask_bits - 1]. *)
Theorem gic_set_cpu_empty_mask K s d g desc force :
  gic_data s !! chip_data d = Some g ->
  irq_descs s !! irq d = Some desc ->
  (exists k, dist_base g = IoMem (DistWin k) 0) ->
  irq_offset g mod 4 = 0 ->
  let n := U32.wrap (irq d - irq_offset g) in
  n < 1024 -> 0 <= nr_cpumask_bits K < 8 ->
  exists s',
    gic_set_cpu K d 0 force s = Ok (0, set_node (nr_cpumask_bits K) d) s' /\
    Device.target_byte (hw s') (dist_base g) n = Z.shiftl 1 (nr_cpumask_bits K) /\
    forall c, 0 <= c < nr_cpumask_bits K ->
      Z.testbit (Device.target_byte (hw s') (dist_base g) n) c = false.
Proof.
  intros Hg Hdesc [k Hbase] Hoff n Hn Hcpus.
  pose proof (gic_set_cpu_run K s d g 0 force Hg) as Hrun. cbv zeta in Hrun.
  rewrite Hdesc, cpumask_first_empty in Hrun. fold n in Hrun.
  assert (0 <= n) as Hn0 by apply Bits.wrap_range.
  destruct (target_word n ltac:(lia)) as [Hw Hb].
  assert (irq d mod 4 = n mod 4) as Hpos by (symmetry; by apply local_byte_position).
  assert (Z.land n (U32.not 3) = n / 4 * 4) as Hword by apply land_not3.
  rewrite Hpos, Hword, Hbase in Hrun.
  eexists. split; [exact Hrun|]. clear Hrun. cbn [hw]. rewrite Hbase.
  assert (Device.target_byte
            (Device.write (hw s) (IoMem (DistWin k) 0 +@ GIC_DIST_TARGET +@ n / 4 * 4)
               (U32.wrap
                  (Z.lor
                     (Z.land (Device.read (hw s)
                                (IoMem (DistWin k) 0 +@ GIC_DIST_TARGET +@ n / 4 * 4))
                             (U32.not (U32.shl 255 (n mod 4 * 8))))
                     (U32.shl 1 (nr_cpumask_bits K + n mod 4 * 8)))))
            (IoMem (DistWin k) 0) n = Z.shiftl 1 (nr_cpumask_bits K)) as ->.
  { unfold Device.target_byte.
    rewrite !DeviceFacts.read_target, (DeviceFacts.write_target _ k (n / 4)) by done.
    rewrite decide_True by done. rewrite target_byte_after by done.
    by rewrite decide_True. }
  split; [done|]. intros c Hc.
  rewrite Z.shiftl_spec, Bits.one_spec by lia. apply Z.eqb_neq. lia.
Qed.

(** Interrupt 72 of the sample platform, built for two CPUs: the empty
    mask routes it to CPU 2. *)
Lemma gic_set_cpu_empty_mask_witness :
  exists s',
    gic_set_cpu Sample.K (Sample.line 72) 0 false Sample.up
      = Ok (0, set_node 2 (Sample.line 72)) s' /\
    Device.target_byte (hw s') (IoMem (DistWin 0) 0) 40 = Z.shiftl 1 2 /\
    forall c, 0 <= c < 2 ->
      Z.testbit (Device.target_byte (hw s') (IoMem (DistWin 0) 0) 40) c = false.
Proof.
  apply (gic_set_cpu_empty_mask Sample.K Sample.up (Sample.line 72) Sample.chip0
           (IrqDesc (Sample.line 72) 0) false).
  - vm_compute. reflexivity.
  - vm_compute. reflexivity.
  - exists 0%nat. reflexivity.
  - reflexivity.
  - vm_compute. reflexivity.
  - vm_compute. split; [discriminate | reflexivity].
Defined.

(** ** Private lines *)

Lemma desc_status_or_run i flags s desc :
  irq_descs s !! i = Some desc ->
  desc_status_or i flags s =
  Ok tt (set_irq_descs
           (<[i := IrqDesc (desc_irq_data desc) (Z.lor (desc_status desc) flags)]>
              (irq_descs s)) s).
Proof.
  intros Hdesc. unfold desc_status_or, deref, bind, irq_to_desc. by rewrite Hdesc.
Qed.

(** X18.  [gic_enable_ppi] marks the descriptor of the interrupt as not to
    be probed, its other flags and its data as before, and enables the
    line, the enable bit of every other line as before; it does not check
    that the line is a private one.  For an interrupt number without a
    descriptor it faults on the null descriptor. *)
Theorem gic_enable_ppi_enables K s i desc g :
  irq_descs s !! i = Some desc ->
  let d := desc_irq_data desc in
  gic_data s !! chip_data d = Some g ->
  (exists k, dist_base g = IoMem (DistWin k) 0) ->
  irq_offset g mod 32 = 0 ->
  let n := U32.wrap (irq d - irq_offset g) in
  n < 1024 ->
  (exists s',
     gic_enable_ppi K i s = Ok tt s' /\
     irq_descs s' = <[i := IrqDesc d (Z.lor (desc_status desc) IRQ_NOPROBE)]> (irq_descs s) /\
     gic_data s' = gic_data s /\
     forall n', 0 <= n' < 1024 ->
       Device.enabled (hw s') (dist_base g) n'
       = Device.enabled (hw s) (dist_base g) n' || (n' =? n)) /\
  forall s0, irq_descs s0 !! i = None -> gic_enable_ppi K i s0 = Crash.
Proof.
  intros Hdesc d Hg [k Hbase] Hoff n Hn. split.
  - assert (0 <= n) by apply Bits.wrap_range.
    unfold gic_enable_ppi.
    step_by (desc_status_or_run i IRQ_NOPROBE s desc Hdesc).
    unfold irq_get_irq_data, deref. step.
    rewrite lookup_insert_eq. cbn [fmap option_fmap option_map desc_irq_data].
    step. fold d.
    match goal with |- context [gic_unmask_irq K d ?st] => set (s1 := st) end.
    pose proof (gic_unmask_irq_run K s1 d g Hg) as Hu. cbv zeta in Hu. fold n in Hu.
    rewrite <- (local_bit_position (irq d) (irq_offset g)) in Hu by done. fold n in Hu.
    eexists. split; [exact Hu|]. subst s1. cbn [irq_descs gic_data hw set_irq_descs].
    split; [done|]. split; [done|]. intros n' Hn'. rewrite Hbase.
    by apply enabled_after_set.
  - intros s0 Hnone. unfold gic_enable_ppi, desc_status_or, deref.
    unfold bind at 1 2. unfold irq_to_desc. by rewrite Hnone.
Qed.

(** Interrupt 61 of the sample platform, local line 29; interrupt 300 has
    no descriptor. *)
Lemma gic_enable_ppi_enables_witness :
  (exists s',
     gic_enable_ppi Sample.K 61 Sample.up = Ok tt s' /\
     irq_descs s' = <[61 := IrqDesc (Sample.line 61) (Z.lor 0 IRQ_NOPROBE)]>
                      (irq_descs Sample.up) /\
     gic_data s' = gic_data Sample.up /\
     forall n', 0 <= n' < 1024 ->
       Device.enabled (hw s') (IoMem (DistWin 0) 0) n'
       = Device.enabled (hw Sample.up) (IoMem (DistWin 0) 0) n' || (n' =? 29)) /\
  forall s0, irq_descs s0 !! 61 = None -> gic_enable_ppi Sample.K 61 s0 = Crash.
Proof.
  apply (gic_enable_ppi_enables Sample.K Sample.up 61 (IrqDesc (Sample.line 61) 0)
           Sample.chip0).
  - vm_compute. reflexivity.
  - vm_compute. reflexivity.
  - exists 0%nat. reflexivity.
  - reflexivity.
  - vm_compute. reflexivity.
Defined.

(** ** Reporting the lines that woke the system *)

(** A loop around a local variable returns when each pass keeps an
    invariant and lowers a measure that the fuel exceeds. *)
Lemma for_fold_rule {A} (Inv : Z -> A -> state -> Prop) (mu : Z -> nat) cond next
    (body : Z -> A -> M A) :
  (forall i acc s, Inv i acc s ->
     exists c, cond i s = Ok c s /\
       (c = true -> exists acc' s' i',
           body i acc s = Ok acc' s' /\ next i s' = Ok i' s' /\
           Inv i' acc' s' /\ (mu i' < mu i)%nat)) ->
  forall fuel i acc s, Inv i acc s -> (mu i < fuel)%nat ->
    exists i' acc' s', for_fold fuel cond next body i acc s = Ok acc' s' /\
                       Inv i' acc' s' /\ cond i' s' = Ok false s'.
Proof.
  intros Hstep fuel. induction fuel as [|fuel IH]; intros i acc s HI Hmu; [lia|].
  destruct (Hstep i acc s HI) as (c & Hc & Hbody). destruct c.
  - destruct (Hbody eq_refl) as (acc1 & s1 & i1 & Hb & Hn & HI1 & Hlt).
    destruct (IH i1 acc1 s1 HI1 ltac:(lia)) as (i' & acc' & s' & Hrun & HI' & Hc').
    exists i', acc', s'. cbn [for_fold].
    rewrite (bind_ok _ _ _ _ _ Hc), (bind_ok _ _ _ _ _ Hb), (bind_ok _ _ _ _ _ Hn). done.
  - exists i, acc, s. cbn [for_fold]. rewrite (bind_ok _ _ _ _ _ Hc). done.
Qed.

(** The Enable-Clear word reads as the enable word. *)
Lemma read_enable_clear h k j :
  0 <= j < 32 ->
  Device.read h (IoMem (DistWin k) 0 +@ GIC_DIST_ENABLE_CLEAR +@ j * 4)
  = h (DistWin k) (0x100 + j * 4).
Proof.
  intros Hj. DeviceFacts.crush. all: try (f_equal; lia).
Qed.

Lemma reads_under_lock t :
  forallb is_read t = true -> lock_disciplined true (t ++ [EvUnlock]) = true.
Proof.
  induction t as [|e t IH]; [done|]. cbn [forallb app]. intros [He Ht]%andb_prop.
  destruct e; try done. cbn [lock_disciplined]. rewrite IH by done.
  by rewrite orb_true_r.
Qed.

Lemma gic_show_resume_word_run k s i l :
  0 <= i < 32 -> length l = 32%nat ->
  let base := IoMem (DistWin k) 0 in
  let e := hw s (DistWin k) (0x100 + i * 4) in
  let p := hw s (DistWin k) (0x200 + i * 4) in
  gic_show_resume_word base i l s =
  Ok (<[Z.to_nat i := Z.land p e]> l)
     (State (hw s) (gic_data s) (gic_cpu_base_addr s) (irq_descs s)
        (trace s ++ [EvRead (base +@ GIC_DIST_ENABLE_CLEAR +@ i * 4) e;
                     EvRead (base +@ GIC_DIST_PENDING_SET +@ i * 4) p])).
Proof.
  intros Hi Hl base e p. subst base e p.
  unfold gic_show_resume_word. step. step.
  rewrite read_enable_clear, PendingFacts.read_pending by done.
  unfold word_store at 1. rewrite decide_True by lia. step.
  unfold word_at. rewrite list_lookup_insert_eq by lia. step.
  unfold word_store. rewrite decide_True by (rewrite length_insert; lia).
  rewrite list_insert_insert_eq. unfold ret. state_eq.
Qed.

(** The first loop of [gic_show_resume_irq]: every word below the line
    count holds the pending lines that are enabled. *)
Lemma collect_run gic_nr k s g junk :
  gic_data s !! gic_nr = Some g ->
  max_irq g <= 1024 ->
  length junk = 32%nat ->
  exists l s' t,
    for_fold word_passes (more_words gic_nr) (fun i => ret (U32.wrap (i + 1)))
      (gic_show_resume_word (IoMem (DistWin k) 0)) 0 junk s = Ok l s' /\
    hw s' = hw s /\ gic_data s' = gic_data s /\ irq_descs s' = irq_descs s /\
    gic_cpu_base_addr s' = gic_cpu_base_addr s /\
    trace s' = trace s ++ t /\ forallb is_read t = true /\
    forall j, 0 <= j -> j * 32 < max_irq g ->
      l !! Z.to_nat j = Some (Z.land (hw s (DistWin k) (0x200 + j * 4))
                                     (hw s (DistWin k) (0x100 + j * 4))).
Proof.
  intros Hg Hmax Hjunk.
  pose (Inv := fun (i : Z) (l : list Z) (s1 : state) =>
    0 <= i <= 32 /\ (forall j, 0 <= j < i -> j * 32 < max_irq g) /\
    hw s1 = hw s /\ gic_data s1 = gic_data s /\ irq_descs s1 = irq_descs s /\
    gic_cpu_base_addr s1 = gic_cpu_base_addr s /\ length l = 32%nat /\
    (exists t, trace s1 = trace s ++ t /\ forallb is_read t = true) /\
    forall j, 0 <= j < i ->
      l !! Z.to_nat j = Some (Z.land (hw s (DistWin k) (0x200 + j * 4))
                                     (hw s (DistWin k) (0x100 + j * 4)))).
  destruct (for_fold_rule Inv (fun i => Z.to_nat (32 - i)) (more_words gic_nr)
              (fun i => ret (U32.wrap (i + 1)))
              (gic_show_resume_word (IoMem (DistWin k) 0)))
    with (fuel := word_passes) (i := 0) (acc := junk) (s := s)
    as (i' & l & s' & Hrun & HI & Hc).
  - intros i l s1 (Hi & Hbelow & Hhw & Hd & Hdescs & Hcb & Hl & (t & Ht & Hreads) & Hdone).
    assert (gic_data s1 !! gic_nr = Some g) as Hg1 by (by rewrite Hd).
    eexists. split; [by apply more_words_run|].
    intros Hlt. apply Z.ltb_lt in Hlt. rewrite Bits.wrap_small in Hlt by lia.
    assert (0 <= i < 32) as Hi32 by lia.
    eexists _, _, _. split; [by apply gic_show_resume_word_run|].
    split; [reflexivity|]. rewrite Bits.wrap_small by lia. split; [|lia].
    unfold Inv. cbn [hw gic_data irq_descs gic_cpu_base_addr trace].
    split; [lia|]. split; [intros j Hj; specialize (Hbelow j); lia|].
    repeat (split; [done|]). split; [by rewrite length_insert|]. split.
    + eexists (t ++ _). rewrite Ht, <- app_assoc. split; [reflexivity|].
      by rewrite forallb_app, Hreads.
    + intros j Hj. destruct (decide (j = i)) as [->|Hne].
      * rewrite list_lookup_insert_eq by lia. by rewrite Hhw.
      * rewrite list_lookup_insert_ne by lia. apply Hdone. lia.
  - split; [lia|]. split; [lia|]. repeat (split; [done|]).
    split; [exists []; by rewrite app_nil_r | lia].
  - unfold word_passes. lia.
  - destruct HI as (Hi & Hbelow & Hhw & Hd & Hdescs & Hcb & Hl & (t & Ht & Hreads) & Hdone).
    assert (gic_data s' !! gic_nr = Some g) as Hg1 by (by rewrite Hd).
    rewrite (more_words_run _ _ _ _ Hg1) in Hc.
    injection Hc as Hc. apply Z.ltb_ge in Hc. rewrite Bits.wrap_small in Hc by lia.
    exists l, s', t. repeat (split; [done|]).
    intros j Hj Hlt. apply Hdone. lia.
Qed.

(** [find_next_bit] finds the first set bit. *)
Lemma find_bit_spec l size fuel i :
  0 <= i <= size -> (Z.to_nat (size - i) <= fuel)%nat ->
  let r := find_bit fuel l size i in
  i <= r <= size /\ (r < size -> line_bit l r = true) /\
  forall j, i <= j < r -> line_bit l j = false.
Proof.
  revert i. induction fuel as [|fuel IH]; intros i Hi Hfuel; cbn [find_bit].
  - cbv zeta. split; [lia|]. split; [lia|]. intros j Hj. lia.
  - cbv zeta. destruct (Z.leb_spec size i).
    + split; [lia|]. split; [lia|]. intros j Hj. lia.
    + destruct (line_bit l i) eqn:Hbit.
      * split; [lia|]. split; [done|]. intros j Hj. lia.
      * destruct (IH (i + 1) ltac:(lia) ltac:(lia)) as (Hr & Hset & Hclear).
        split; [lia|]. split; [done|]. intros j Hj.
        destruct (decide (j = i)) as [->|]; [done | apply Hclear; lia].
Qed.

Lemma find_next_bit_spec l size i :
  0 <= i <= size ->
  let r := find_next_bit l size i in
  i <= r <= size /\ (r < size -> line_bit l r = true) /\
  forall j, i <= j < r -> line_bit l j = false.
Proof. intros Hi. apply find_bit_spec; [done | lia]. Qed.

Lemma filter_skip (f : Z -> bool) size n a :
  0 <= a -> a + Z.of_nat n <= size ->
  (forall j, a <= j < a + Z.of_nat n -> f j = false) ->
  List.filter f (seqZ a (size - a))
  = List.filter f (seqZ (a + Z.of_nat n) (size - (a + Z.of_nat n))).
Proof.
  revert a. induction n as [|n IH]; intros a Ha Hle Hclear.
  - by rewrite Z.add_0_r.
  - rewrite seqZ_cons by lia. cbn [List.filter]. rewrite Hclear by lia.
    replace (Z.pred (size - a)) with (size - Z.succ a) by lia.
    rewrite (IH (Z.succ a)) by (try lia; intros j Hj; apply Hclear; lia).
    do 2 f_equal; lia.
Qed.

Lemma chip_bind_run {A} gic s g (f : gic_chip_data -> A) :
  gic_data s !! gic = Some g -> (g0 <- chip gic ;; ret (f g0)) s = Ok (f g) s.
Proof. intros Hg. by step_by (chip_run _ _ _ Hg). Qed.

(** The second loop of [gic_show_resume_irq], from a set bit or the end:
    it reports the set bits below the line count, in ascending order. *)
Lemma report_run gic_nr s g l fuel i (acc : list Z) :
  gic_data s !! gic_nr = Some g ->
  max_irq g < 2 ^ 32 - 1 ->
  0 <= i <= max_irq g -> (i < max_irq g -> line_bit l i = true) ->
  (Z.to_nat (max_irq g - i) < fuel)%nat ->
  for_fold fuel
    (fun i => g <- chip gic_nr ;; ret (i <? max_irq g))
    (fun i => g <- chip gic_nr ;;
              ret (find_next_bit l (max_irq g) (U32.wrap (i + 1))))
    (fun i printed =>
       g <- chip gic_nr ;; ret (printed ++ [U32.wrap (i + irq_offset g)]))
    i acc s
  = Ok (acc ++ map (fun n => U32.wrap (n + irq_offset g))
                   (List.filter (line_bit l) (seqZ i (max_irq g - i)))) s.
Proof.
  intros Hg Hmax. revert i acc.
  induction fuel as [|fuel IH]; intros i acc Hi Hbit Hfuel; [lia|].
  cbn [for_fold].
  step_by (chip_bind_run gic_nr s g (fun g0 => i <? max_irq g0) Hg).
  destruct (Z.ltb_spec i (max_irq g)) as [Hlt|Hge].
  - step_by (chip_bind_run gic_nr s g
               (fun g0 => acc ++ [U32.wrap (i + irq_offset g0)]) Hg).
    step_by (chip_bind_run gic_nr s g
               (fun g0 => find_next_bit l (max_irq g0) (U32.wrap (i + 1))) Hg).
    rewrite Bits.wrap_small by lia.
    destruct (find_next_bit_spec l (max_irq g) (i + 1) ltac:(lia)) as (Hr & Hset & Hclear).
    set (r := find_next_bit l (max_irq g) (i + 1)) in *.
    rewrite IH by (done || lia).
    rewrite <- app_assoc. do 2 f_equal. cbn [app].
    rewrite (seqZ_cons i) by lia. cbn [List.filter]. rewrite (Hbit Hlt). cbn [map].
    f_equal. f_equal.
    replace (Z.pred (max_irq g - i)) with (max_irq g - Z.succ i) by lia.
    replace r with (Z.succ i + Z.of_nat (Z.to_nat (r - Z.succ i))) at 1 2 by lia.
    symmetry. apply filter_skip; [lia | lia |].
    intros j Hj. apply Hclear. lia.
  - assert (i = max_irq g) as -> by lia.
    rewrite Z.sub_diag. cbn. by rewrite app_nil_r.
Qed.

(** X17.  [gic_show_resume_irq] reports the lines of the controller, below
    its line count, that are pending and enabled at the time, each once, in
    ascending order and as its interrupt number (local line plus offset).
    What the local array held before does not matter; the registers are
    only read, and read under the lock. *)
Theorem gic_show_resume_irq_reports s gic_nr g junk :
  gic_data s !! gic_nr = Some g ->
  chip_ok g ->
  length junk = 32%nat ->
  exists s' t,
    gic_show_resume_irq gic_nr junk s
      = Ok (map (fun n => U32.wrap (n + irq_offset g))
                (woken (hw s) (dist_base g) (max_irq g))) s' /\
    hw s' = hw s /\ gic_data s' = gic_data s /\
    added s s' t /\ lock_disciplined false t = true.
Proof.
  intros Hg [[k Hbase] Hmax Hwl Hel] Hjunk.
  unfold gic_show_resume_irq. step_by (chip_run _ _ _ Hg). rewrite Hbase. step.
  destruct (collect_run gic_nr k (log EvLock s) g junk Hg ltac:(lia) Hjunk)
    as (l & s1 & t & Hrun & Hhw & Hd & _ & _ & Ht & Hreads & Hwords).
  step_by Hrun. clear Hrun. step.
  assert (gic_data (log EvUnlock s1) !! gic_nr = Some g) as Hg1 by (cbn [gic_data log]; by rewrite Hd).
  step_by (chip_run _ _ _ Hg1).
  destruct (find_next_bit_spec l (max_irq g) 0 ltac:(lia)) as (Hr & Hset & _).
  fold (find_first_bit l (max_irq g)) in Hr, Hset.
  rewrite (report_run gic_nr _ g l _ _ [] Hg1) by (done || lia).
  cbn [app].
  replace (List.filter (line_bit l) _) with (woken (hw s) (IoMem (DistWin k) 0) (max_irq g)).
  - eexists _, _. split; [reflexivity|]. cbn [hw gic_data log trace].
    split; [done|]. split; [done|]. split.
    + unfold added. cbn [trace log]. rewrite Ht. cbn [trace log].
      rewrite <- !app_assoc. reflexivity.
    + cbn [app lock_disciplined negb andb]. by apply reads_under_lock.
  - set (r := find_first_bit l (max_irq g)) in *.
    replace r with (0 + Z.of_nat (Z.to_nat r)) at 1 2 by lia.
    rewrite <- (filter_skip (line_bit l) (max_irq g) (Z.to_nat r) 0); [|lia|lia|].
    + rewrite Z.sub_0_r. unfold woken. apply filter_ext_in. intros n Hn.
      apply list_elem_of_In, elem_of_seqZ in Hn.
      destruct (line_words n ltac:(lia)) as (? & ? & ? & ? & ? & ?).
      pose proof (Z.mul_div_le n 32 ltac:(lia)).
      rewrite pending_line, enabled_line by lia. unfold line_bit.
      rewrite Hwords by lia. cbn [hw log]. symmetry. apply Z.land_spec.
    + intros j Hj.
      destruct (find_next_bit_spec l (max_irq g) 0 ltac:(lia)) as (_ & _ & Hclear).
      apply Hclear. fold (find_first_bit l (max_irq g)). fold r. lia.
Qed.

(** The sample controller after bring-up, with an array of zeros. *)
Lemma gic_show_resume_irq_reports_witness :
  exists s' t,
    gic_show_resume_irq 0 Sample.zeros Sample.up
      = Ok (map (fun n => U32.wrap (n + 32))
                (woken (hw Sample.up) (IoMem (DistWin 0) 0) 96)) s' /\
    hw s' = hw Sample.up /\ gic_data s' = gic_data Sample.up /\
    added Sample.up s' t /\ lock_disciplined false t = true.
Proof.
  apply (gic_show_resume_irq_reports Sample.up 0 Sample.chip0 Sample.zeros).
  - vm_compute. reflexivity.
  - split.
    + exists 0%nat. reflexivity.
    + vm_compute. split; discriminate.
    + reflexivity.
    + reflexivity.
  - reflexivity.
Defined.

(** ** What the run-time operations leave alone *)

Lemma keeps_for_fold {A} P cond next (body : Z -> A -> M A) :
  (forall i, keeps P (cond i)) -> (forall i, keeps P (next i)) ->
  (forall i acc, keeps P (body i acc)) ->
  forall fuel i acc, keeps P (for_fold fuel cond next body i acc).
Proof.
  intros Hc Hn Hb fuel. induction fuel as [|fuel IH]; intros i acc; [done|].
  cbn [for_fold]. apply keeps_bind; [done|]. intros [|]; [|apply keeps_ret].
  apply keeps_bind; [done|]. intros acc'. apply keeps_bind; [done|]. intros i'. apply IH.
Qed.

Section KeepsLayout.

Variable L : list (Z * iomem * iomem * Z).
Let P := fun s => layout s = L.

(** What does not write [gic_data] keeps the layout. *)
Lemma layout_same {A} (m : M A) :
  (forall s a s', m s = Ok a s' -> gic_data s' = gic_data s) -> keeps P m.
Proof. intros Hm s a s' Hrun HP. unfold P, layout in *. by rewrite (Hm _ _ _ Hrun). Qed.

Lemma layout_emit e : keeps P (emit e).
Proof. apply layout_same. by intros s a s' [= _ <-]. Qed.

Lemma layout_readl a : keeps P (readl a).
Proof. apply layout_same. by intros s v s' [= _ <-]. Qed.

Lemma layout_writel v a : keeps P (writel v a).
Proof. apply layout_same. by intros s x s' [= _ <-]. Qed.

Lemma layout_chip k : keeps P (chip k).
Proof.
  apply layout_same. intros s g s'. unfold chip.
  destruct (gic_data s !! k); [|done]. by intros [= _ <-].
Qed.

Lemma layout_irq_to_desc i : keeps P (irq_to_desc i).
Proof. apply layout_same. by intros s a s' [= _ <-]. Qed.

Lemma layout_fault {A} : keeps P (@fault A).
Proof. by intros s a s'. Qed.

Lemma layout_deref {A} (p : option A) : keeps P (deref p).
Proof. destruct p; [apply keeps_ret | apply layout_fault]. Qed.

Lemma layout_word_at l i : keeps P (word_at l i).
Proof. unfold word_at. destruct (l !! Z.to_nat i); [apply keeps_ret | apply layout_fault]. Qed.

Lemma layout_word_store l i w : keeps P (word_store l i w).
Proof. unfold word_store. case_decide; [apply keeps_ret | apply layout_fault]. Qed.

Lemma layout_count : keeps P (fun s => Ok (length (gic_data s)) s).
Proof. apply layout_same. by intros s a s' [= _ <-]. Qed.

Lemma layout_desc_status_or i flags : keeps P (desc_status_or i flags).
Proof.
  unfold desc_status_or. apply keeps_bind; [apply layout_irq_to_desc | intros o].
  apply keeps_bind; [apply layout_deref | intros desc].
  apply layout_same. by intros s a s' [= _ <-].
Qed.

(** A store to a controller's entry keeps the layout when it keeps the
    entry's offset, windows and line count. *)
Lemma layout_chip_store k f :
  (forall g, irq_offset (f g) = irq_offset g /\ dist_base (f g) = dist_base g /\
             cpu_base (f g) = cpu_base g /\ max_irq (f g) = max_irq g) ->
  keeps P (chip_store k f).
Proof.
  intros Hf s x s' Hrun HP. unfold chip_store, chip, bind in Hrun.
  destruct (gic_data s !! k) as [g|] eqn:Hk; [|done]. injection Hrun as _ <-.
  unfold P, layout in *. cbn [gic_data set_gic_data]. rewrite <- HP.
  rewrite list_fmap_insert. apply list_insert_id.
  rewrite list_lookup_fmap, Hk. cbn.
  destruct (Hf g) as (-> & -> & -> & ->). done.
Qed.

End KeepsLayout.

(** Proves that a piece of driver code keeps the layout, statement by
    statement. *)
Ltac layout_step :=
  lazymatch goal with
  | |- keeps _ (for_loop _ _ _ _ _) => apply keeps_for_loop; intros ?
  | |- keeps _ (for_fold _ _ _ _ _ _) => apply keeps_for_fold; intros
  | |- keeps _ (bind _ _) => apply keeps_bind; [|intros ?]
  | |- keeps _ (when _ _) => apply keeps_when
  | |- keeps _ (ret _) => apply keeps_ret
  | |- keeps _ (emit _) => apply layout_emit
  | |- keeps _ (readl _) => apply layout_readl
  | |- keeps _ (writel _ _) => apply layout_writel
  | |- keeps _ (chip _) => apply layout_chip
  | |- keeps _ (irq_to_desc _) => apply layout_irq_to_desc
  | |- keeps _ fault => apply layout_fault
  | |- keeps _ (deref _) => apply layout_deref
  | |- keeps _ (word_at _ _) => apply layout_word_at
  | |- keeps _ (word_store _ _ _) => apply layout_word_store
  | |- keeps _ (desc_status_or _ _) => apply layout_desc_status_or
  | |- keeps _ (chip_store _ _) => apply layout_chip_store; by intros []
  | |- keeps _ (if ?b then _ else _) => destruct b
  | |- keeps _ (match ?o with Some _ => _ | None => _ end) => destruct o
  | |- keeps _ (let _ := _ in _) => cbv zeta
  end.

Ltac layout_solve := repeat layout_step.

(** X20.  No run-time operation changes what bring-up fixed: whenever one
    of them returns, every controller has the offset, the two windows and
    the line count that it had, and there are as many controllers.  The
    only entries of [gic_data] that they write are the two bitmask arrays
    ([gic_set_wake] and [gic_suspend]). *)
Theorem runtime_keeps_layout K L :
  let P := fun s => layout s = L in
  (forall d, keeps P (gic_ack_irq d)) /\
  (forall d, keeps P (gic_mask_irq K d)) /\
  (forall d, keeps P (gic_unmask_irq K d)) /\
  (forall d on, keeps P (gic_set_wake K d on)) /\
  (forall d type, keeps P (gic_set_type K d type)) /\
  (forall d mask force, keeps P (gic_set_cpu K d mask force)) /\
  (forall dev, keeps P (gic_suspend dev)) /\
  (forall dev, keeps P (gic_resume dev)) /\
  (forall gic_nr junk, keeps P (gic_show_resume_irq gic_nr junk)) /\
  (forall i desc, keeps P (gic_handle_cascade_irq K i desc)) /\
  (forall mask i, keeps P (gic_raise_softirq mask i)) /\
  (forall gic_nr, keeps P (gic_secondary_init gic_nr)) /\
  (forall i, keeps P (gic_enable_ppi K i)) /\
  (forall i dis, keeps P (gic_is_spi_pending i dis)) /\
  (forall i dis, keeps P (gic_clear_spi_pending i dis)).
Proof.
  intros P. subst P.
  assert (forall d, keeps (fun s => layout s = L) (gic_unmask_irq K d)) as Hunmask.
  { intros d. unfold gic_unmask_irq, gic_dist_base, gic_irq, spin_lock, spin_unlock.
    layout_solve. }
  assert (forall gic_nr, keeps (fun s => layout s = L) (gic_cpu_init gic_nr)) as Hcpu.
  { intros gic_nr. unfold gic_cpu_init, mb. layout_solve. }
  repeat split; intros.
  - unfold gic_ack_irq, gic_cpu_base, gic_irq, spin_lock, spin_unlock. layout_solve.
  - unfold gic_mask_irq, gic_dist_base, gic_irq, spin_lock, spin_unlock. layout_solve.
  - apply Hunmask.
  - unfold gic_set_wake, gic_irq, get_irq_chip_data, WARN_ON. layout_solve.
  - unfold gic_set_type, gic_dist_base, gic_irq, spin_lock, spin_unlock. layout_solve.
  - unfold gic_set_cpu, gic_dist_base, gic_irq, spin_lock, spin_unlock. layout_solve.
  - unfold gic_suspend, gic_suspend_word, more_words, mb. layout_solve.
  - unfold gic_resume, gic_resume_word, more_words, mb. layout_solve.
  - unfold gic_show_resume_irq, gic_show_resume_word, more_words, spin_lock, spin_unlock.
    layout_solve.
  - unfold gic_handle_cascade_irq, get_irq_data, spin_lock, spin_unlock. layout_solve.
  - unfold gic_raise_softirq, mb. layout_solve.
  - unfold gic_secondary_init. apply keeps_bind; [apply layout_count | intros n].
    case_decide; [apply layout_fault | apply Hcpu].
  - unfold gic_enable_ppi, irq_get_irq_data.
    apply keeps_bind; [apply layout_desc_status_or | intros _].
    apply keeps_bind; [layout_solve | intros p].
    apply keeps_bind; [apply layout_deref | intros d]. apply Hunmask.
  - unfold gic_is_spi_pending, irq_get_irq_data, gic_dist_base, gic_irq, WARN_ON,
      spin_lock, spin_unlock. layout_solve.
  - unfold gic_clear_spi_pending, irq_get_irq_data, gic_dist_base, gic_irq, WARN_ON,
      spin_lock, spin_unlock. layout_solve.
Qed.

(** Interrupt 72 of the sample platform made a wake-up source: the entry of
    the controller is written, its layout stays. *)
Lemma runtime_keeps_layout_witness :
  exists s',
    gic_set_wake Sample.K (Sample.line 72) 1 Sample.up = Ok 0 s' /\
    layout s' = layout Sample.up.
Proof.
  destruct (gic_set_wake_run Sample.K Sample.up (Sample.line 72) Sample.chip0
              (IrqDesc (Sample.line 72) 0) 1) as (w & _ & Hrun).
  - vm_compute. reflexivity.
  - vm_compute. reflexivity.
  - reflexivity.
  - vm_compute. lia.
  - eexists. split; [exact Hrun|].
    destruct (runtime_keeps_layout Sample.K (layout Sample.up))
      as (_ & _ & _ & Hwake & _).
    exact (Hwake (Sample.line 72) 1 _ _ _ Hrun eq_refl).
Defined.
